(** * ldlidar_driver: the Linux serial / TCP byte-stream transport

    A shallow embedding of [SerialInterfaceLinux]
    (ldlidar_driver/src/serial_interface_linux.cpp): [Open], [Close],
    [ReadFromIO], [WriteToIo] and the receiver loop [RxThreadProc].

    The methods talk to the operating system.  Every system or library call
    is a node of a finite interaction tree ([prog]); the answers come from a
    handler that the theorems quantify over, and the interpreter [run]
    records the calls with their answers in a trace.  The object's fields
    are threaded through as a record; a C++ exception is an outcome of
    its own, and so is the end of a call that leaves defined behaviour. *)

From Stdlib Require Import ZArith List Bool String Ascii Lia.
From Stdlib Require Import Init.Byte.
Import ListNotations.

Local Open Scope string_scope.
Local Open Scope list_scope.
Local Open Scope Z_scope.

(** ** Machine integers *)

Module Int.

(** Conversion to [int32_t]: two's complement wrap-around. *)
Definition to_int32 (z : Z) : Z := (z + 2 ^ 31) mod 2 ^ 32 - 2 ^ 31.

(** Conversion to [uint32_t] (also [tcflag_t]). *)
Definition to_uint32 (z : Z) : Z := z mod 2 ^ 32.

(** Conversion to [uint16_t]. *)
Definition to_uint16 (z : Z) : Z := z mod 2 ^ 16.

Definition INT_MIN : Z := - 2 ^ 31.
Definition INT_MAX : Z := 2 ^ 31 - 1.

End Int.

(** ** Constants of the Linux system headers *)

Module Sys.

Definition AF_INET : Z := 2.
Definition SOCK_STREAM : Z := 1.
Definition sizeof_sockaddr_in : Z := 16.

Definition F_GETFL : Z := 3.
Definition F_SETFL : Z := 4.

Definition O_RDWR : Z := 2.
Definition O_NOCTTY : Z := 0x100.
Definition O_NONBLOCK : Z := 0x800.

Definition EINTR : Z := 4.

(** The number of descriptors a [fd_set] has room for. *)
Definition FD_SETSIZE : Z := 1024.

Definition TCSANOW : Z := 0.
Definition TCIFLUSH : Z := 0.

(* c_cflag *)
Definition CS8 : Z := 0x30.
Definition CSTOPB : Z := 0x40.
Definition CREAD : Z := 0x80.
Definition PARENB : Z := 0x100.
Definition CLOCAL : Z := 0x800.
(* c_lflag *)
Definition ISIG : Z := 1.
Definition ICANON : Z := 2.
Definition ECHO : Z := 8.
Definition ECHOE : Z := 0x10.
Definition ECHOK : Z := 0x20.
Definition ECHONL : Z := 0x40.
Definition IEXTEN : Z := 0x8000.
(* c_oflag *)
Definition OPOST : Z := 1.
(* c_iflag *)
Definition IGNBRK : Z := 1.
Definition INLCR : Z := 0x40.
Definition IGNCR : Z := 0x80.
Definition ICRNL : Z := 0x100.
Definition IXON : Z := 0x400.
Definition IXOFF : Z := 0x1000.
(* c_cc indices *)
Definition VTIME : nat := 5.
Definition VMIN : nat := 6.

End Sys.

(** [#define MAX_ACK_BUF_LEN 4096] *)
Definition MAX_ACK_BUF_LEN : Z := 4096.

(** ** C++ exceptions and outcomes *)

(** [system_error] is what [new std::thread] throws when no thread can be
    started; [callback_error] stands for whatever a registered callback
    throws. *)
Inductive exn : Type :=
| invalid_argument
| out_of_range
| system_error
| callback_error (tag : nat).

(** How a method ends: it returns, an exception leaves it, or it does not
    get that far.  [Abort] is the end of a call that indexes a descriptor
    set outside its bounds: the behaviour is undefined, and a fortified C
    library aborts the process there. *)
Inductive outcome (A : Type) : Type :=
| Normal (a : A)
| Throw (e : exn)
| Abort.

Arguments Normal {A} a.
Arguments Throw {A} e.
Arguments Abort {A}.

(** ** [std::string] operations used by [Open] *)

Module Str.

(** [s.find(pat)]: the first position at which [pat] occurs, [None] for
    [std::string::npos]. *)
Fixpoint find (pat s : string) : option nat :=
  if String.prefix pat s then Some 0%nat
  else match s with
       | EmptyString => None
       | String _ s' => option_map S (find pat s')
       end.

(** [s.find(c)] for a single character. *)
Definition find_char (c : ascii) (s : string) : option nat :=
  find (String c EmptyString) s.

Fixpoint drop (n : nat) (s : string) : string :=
  match n, s with
  | O, _ => s
  | S n', String _ s' => drop n' s'
  | S _, EmptyString => EmptyString
  end.

Fixpoint take (n : nat) (s : string) : string :=
  match n, s with
  | S n', String c s' => String c (take n' s')
  | _, _ => EmptyString
  end.

(** [s.substr(pos)]: throws [std::out_of_range] when [pos > s.size()]. *)
Definition substr_from (s : string) (pos : nat) : outcome string :=
  if (pos <=? String.length s)%nat then Normal (drop pos s)
  else Throw out_of_range.

(** [s.substr(pos, n)]. *)
Definition substr (s : string) (pos n : nat) : outcome string :=
  if (pos <=? String.length s)%nat then Normal (take n (drop pos s))
  else Throw out_of_range.

(** [isspace] in the C locale. *)
Definition isspace (c : ascii) : bool :=
  let n := nat_of_ascii c in
  (n =? 32)%nat || ((9 <=? n)%nat && (n <=? 13)%nat).

Fixpoint skip_spaces (s : string) : string :=
  match s with
  | String c s' => if isspace c then skip_spaces s' else s
  | EmptyString => s
  end.

Definition digit_of (c : ascii) : option Z :=
  let n := nat_of_ascii c in
  if ((48 <=? n)%nat && (n <=? 57)%nat)%bool
  then Some (Z.of_nat n - 48) else None.

(** The longest run of decimal digits at the head of [s], accumulated
    into [acc]; [seen] tells whether a digit was consumed. *)
Fixpoint digits (s : string) (acc : Z) (seen : bool) : option Z :=
  match s with
  | String c s' =>
      match digit_of c with
      | Some d => digits s' (10 * acc + d) true
      | None => if seen then Some acc else None
      end
  | EmptyString => if seen then Some acc else None
  end.

(** [std::stoi(s)] (base 10): white space, an optional sign, digits.
    No digit: [std::invalid_argument]; a value outside [int]:
    [std::out_of_range]. *)
Definition stoi (s : string) : outcome Z :=
  let s1 := skip_spaces s in
  let '(neg, s2) :=
    match s1 with
    | String "-"%char r => (true, r)
    | String "+"%char r => (false, r)
    | _ => (false, s1)
    end in
  match digits s2 0 false with
  | None => Throw invalid_argument
  | Some v =>
      let v' := if neg then - v else v in
      if (Int.INT_MIN <=? v') && (v' <=? Int.INT_MAX) then Normal v'
      else Throw out_of_range
  end.

End Str.

(** ** Data passed to and from the system *)

(** [struct timespec]. *)
Record timespec : Type := { tv_sec : Z; tv_nsec : Z }.

(** [struct sockaddr_in]; [sin_port] is kept as the two bytes in memory
    order (high byte first: network byte order), so the model does not
    depend on the host's endianness. *)
Record sockaddr_in : Type :=
  { sin_family : Z; sin_port : Z * Z; sin_addr : Z }.

(** [htons]: the 16-bit value in network byte order. *)
Definition htons (hostshort : Z) : Z * Z :=
  (Z.shiftr hostshort 8, Z.land hostshort 255).

(** [struct termios]. *)
Record termios : Type :=
  { c_iflag : Z; c_oflag : Z; c_cflag : Z; c_lflag : Z;
    c_cc : list Z; c_ispeed : Z; c_ospeed : Z }.

(** [a[i] = v] on an array held as a list (the indices used are constants
    below the array's length [NCCS]; a shorter list is left as it is). *)
Fixpoint array_set {A : Type} (l : list A) (i : nat) (v : A) : list A :=
  match l, i with
  | [], _ => []
  | _ :: t, O => v :: t
  | h :: t, S i' => h :: array_set t i' v
  end.

(** [fd_set], as the list of the descriptors in the set.  The set is an
    array of [FD_SETSIZE] bits: [FD_SET] and [FD_ISSET] are defined only
    for a descriptor that indexes it, and give [None] for any other (a
    negative one, [-1] included, or one from [FD_SETSIZE] up). *)
Definition fd_set : Type := list Z.
Definition FD_ZERO : fd_set := [].
Definition fd_in_range (fd : Z) : bool :=
  (0 <=? fd) && (fd <? Sys.FD_SETSIZE).
Definition FD_SET (fd : Z) (s : fd_set) : option fd_set :=
  if fd_in_range fd then Some (fd :: s) else None.
Definition FD_ISSET (fd : Z) (s : fd_set) : option bool :=
  if fd_in_range fd then Some (existsb (Z.eqb fd) s) else None.

(** What a read stores at the head of a buffer. *)
Definition overwrite (data buf : list byte) : list byte :=
  data ++ skipn (List.length data) buf.

(** The result of a call that reports failure as [-1] with [errno]. *)
Record sysret : Type := { ret : Z; errno : Z }.

(** The result of [pselect]: return value, [errno], and the read set as
    the call leaves it. *)
Record pselect_ret : Type :=
  { ps_ret : Z; ps_errno : Z; ps_readfds : fd_set }.

(** The log statements of the file ([LD_LOG_ERROR], [LD_LOG_INFO],
    [LDS_LOG_INFO]); the [int] is [errno] where the message prints
    [strerror(errno)]. *)
Inductive log_msg : Type :=
| LogErrBadPortName
| LogInfoOpen (ip port : string)
| LogErrConnect (err : Z)
| LogErrOpen (err : Z)
| LogErrTcgetattr (err : Z)
| LogErrTcsetattr (err : Z)
| LogInfoBaudRate (ospeed : Z).

(** A [std::thread] object. *)
Record thread : Type := { tid : nat; joinable : bool }.

(** ** System and library calls *)

(** The calls the file makes, with the arguments it passes. *)
Inductive call : Type :=
| Socket (domain type protocol : Z)
| InetPton (af : Z) (src : string)
| Connect (fd : Z) (addr : sockaddr_in) (addrlen : Z)
| Fcntl (fd cmd arg : Z)
| OpenFile (path : string) (flags : Z)
| Tcgetattr (fd : Z)
| Tcsetattr (fd actions : Z) (options : termios)
| Tcflush (fd queue : Z)
| CloseFd (fd : Z)
| Pselect (nfds : Z) (readfds : fd_set) (timeout : timespec)
| ReadFd (fd : Z) (count : Z)
| WriteFd (fd : Z) (buf : list byte) (count : Z)
| Log (m : log_msg)
| ThreadStart
| ThreadJoin (t : thread)
| Callback (cb : nat) (buf : list byte) (len : Z).

(** What each call gives back.  [InetPton]: the address written to the
    destination, [None] when the text is not an address and the destination
    is left alone.  [Tcgetattr]: the result and the attributes stored.
    [ReadFd]: the [ssize_t] result and the bytes stored in the buffer.
    [ThreadStart]: the identifier of the thread running [RxThreadProc],
    [None] when no thread could be started.  [Callback]: [None] when the
    callback returns, the exception when it throws. *)
Definition resp (c : call) : Type :=
  match c with
  | Socket _ _ _ => sysret
  | InetPton _ _ => option Z
  | Connect _ _ _ => sysret
  | Fcntl _ _ _ => Z
  | OpenFile _ _ => sysret
  | Tcgetattr _ => sysret * termios
  | Tcsetattr _ _ _ => sysret
  | Tcflush _ _ => Z
  | CloseFd _ => Z
  | Pselect _ _ _ => pselect_ret
  | ReadFd _ _ => Z * list byte
  | WriteFd _ _ _ => sysret
  | Log _ => unit
  | ThreadStart => option nat
  | ThreadJoin _ => unit
  | Callback _ _ _ => option exn
  end.

(** A program: a finite tree of calls, each continued on its answer. *)
Inductive prog (A : Type) : Type :=
| Ret (a : A)
| Vis (c : call) (k : resp c -> prog A).

Arguments Ret {A} a.
Arguments Vis {A} c k.

Fixpoint pbind {A B : Type} (p : prog A) (f : A -> prog B) : prog B :=
  match p with
  | Ret a => f a
  | Vis c k => Vis c (fun r => pbind (k r) f)
  end.

(** A call together with its answer. *)
Definition event : Type := {c : call & resp c}.
Definition Ev (c : call) (r : resp c) : event := existT resp c r.

Section Run.

(** The state of the environment is any type; a handler answers a call
    from it. *)
Context {OS : Type}.

Definition handler : Type := forall c : call, OS -> resp c * OS.

(** Run a program against a handler: result, trace of the calls in the
    order they were made, final state of the environment. *)
Fixpoint run {A : Type} (h : handler) (p : prog A) (os : OS)
  : A * list event * OS :=
  match p with
  | Ret a => (a, [], os)
  | Vis c k =>
      let '(r, os1) := h c os in
      let '(a, tr, os2) := run h (k r) os1 in
      (a, Ev c r :: tr, os2)
  end.

End Run.

(** ** The object *)

(** The fields of [SerialInterfaceLinux].

    Modelled from the spec: the header that declares the fields is not
    among the sources.  The byte counter [rx_count_] is the spec's
    "monotonic counter of bytes ever delivered", an unbounded integer here;
    [read_callback_] holds the name of the registered function, [None] for
    [nullptr]. *)
Record SerialInterfaceLinux : Type :=
  { rx_thread_ : option thread;
    rx_count_ : Z;
    com_handle_ : Z;
    com_baudrate_ : Z;
    is_cmd_opened_ : bool;
    rx_thread_exit_flag_ : bool;
    read_callback_ : option nat }.

Definition set_rx_thread_ (v : option thread) (o : SerialInterfaceLinux) :=
  {| rx_thread_ := v; rx_count_ := rx_count_ o; com_handle_ := com_handle_ o;
     com_baudrate_ := com_baudrate_ o; is_cmd_opened_ := is_cmd_opened_ o;
     rx_thread_exit_flag_ := rx_thread_exit_flag_ o;
     read_callback_ := read_callback_ o |}.

Definition set_rx_count_ (v : Z) (o : SerialInterfaceLinux) :=
  {| rx_thread_ := rx_thread_ o; rx_count_ := v; com_handle_ := com_handle_ o;
     com_baudrate_ := com_baudrate_ o; is_cmd_opened_ := is_cmd_opened_ o;
     rx_thread_exit_flag_ := rx_thread_exit_flag_ o;
     read_callback_ := read_callback_ o |}.

Definition set_com_handle_ (v : Z) (o : SerialInterfaceLinux) :=
  {| rx_thread_ := rx_thread_ o; rx_count_ := rx_count_ o; com_handle_ := v;
     com_baudrate_ := com_baudrate_ o; is_cmd_opened_ := is_cmd_opened_ o;
     rx_thread_exit_flag_ := rx_thread_exit_flag_ o;
     read_callback_ := read_callback_ o |}.

Definition set_com_baudrate_ (v : Z) (o : SerialInterfaceLinux) :=
  {| rx_thread_ := rx_thread_ o; rx_count_ := rx_count_ o;
     com_handle_ := com_handle_ o; com_baudrate_ := v;
     is_cmd_opened_ := is_cmd_opened_ o;
     rx_thread_exit_flag_ := rx_thread_exit_flag_ o;
     read_callback_ := read_callback_ o |}.

Definition set_is_cmd_opened_ (v : bool) (o : SerialInterfaceLinux) :=
  {| rx_thread_ := rx_thread_ o; rx_count_ := rx_count_ o;
     com_handle_ := com_handle_ o; com_baudrate_ := com_baudrate_ o;
     is_cmd_opened_ := v; rx_thread_exit_flag_ := rx_thread_exit_flag_ o;
     read_callback_ := read_callback_ o |}.

Definition set_rx_thread_exit_flag_ (v : bool) (o : SerialInterfaceLinux) :=
  {| rx_thread_ := rx_thread_ o; rx_count_ := rx_count_ o;
     com_handle_ := com_handle_ o; com_baudrate_ := com_baudrate_ o;
     is_cmd_opened_ := is_cmd_opened_ o; rx_thread_exit_flag_ := v;
     read_callback_ := read_callback_ o |}.

Definition set_read_callback_ (v : option nat) (o : SerialInterfaceLinux) :=
  {| rx_thread_ := rx_thread_ o; rx_count_ := rx_count_ o;
     com_handle_ := com_handle_ o; com_baudrate_ := com_baudrate_ o;
     is_cmd_opened_ := is_cmd_opened_ o;
     rx_thread_exit_flag_ := rx_thread_exit_flag_ o; read_callback_ := v |}.

(** ** The monad of the methods: object state, calls, exceptions *)

Definition M (A : Type) : Type :=
  SerialInterfaceLinux -> prog (outcome A * SerialInterfaceLinux).

Definition mret {A : Type} (a : A) : M A := fun o => Ret (Normal a, o).

Definition mthrow {A : Type} (e : exn) : M A := fun o => Ret (Throw e, o).

Definition mabort {A : Type} : M A := fun o => Ret (Abort, o).

Definition mbind {A B : Type} (m : M A) (f : A -> M B) : M B :=
  fun o =>
    pbind (m o)
      (fun '(r, o1) =>
         match r with
         | Normal a => f a o1
         | Throw e => Ret (Throw e, o1)
         | Abort => Ret (Abort, o1)
         end).

(** A value or the exception of a pure library function. *)
Definition lift {A : Type} (r : outcome A) : M A := fun o => Ret (r, o).

(** One call. *)
Definition sys (c : call) : M (resp c) :=
  fun o => Vis c (fun r => Ret (Normal r, o)).

(** Read a field; apply a field update. *)
Definition get {A : Type} (f : SerialInterfaceLinux -> A) : M A :=
  fun o => Ret (Normal (f o), o).

Definition modify (f : SerialInterfaceLinux -> SerialInterfaceLinux) : M unit :=
  fun o => Ret (Normal tt, f o).

Declare Scope cpp_scope.
Delimit Scope cpp_scope with cpp.

Notation "x <- m ;; k" := (mbind m (fun x => k))
  (at level 100, m at next level, right associativity) : cpp_scope.
Notation "' p <- m ;; k" := (mbind m (fun p => k))
  (at level 100, p pattern, m at next level, right associativity) : cpp_scope.
Notation "m ;; k" := (mbind m (fun _ => k))
  (at level 100, right associativity) : cpp_scope.

Local Open Scope cpp_scope.

(** ** The methods *)

(** [SerialInterfaceLinux::SerialInterfaceLinux()].  The constructor's
    initialisers cover five fields; the two flags keep whatever value they
    start with, given here as arguments. *)
Definition new_SerialInterfaceLinux (opened exit_flag : bool)
  : SerialInterfaceLinux :=
  {| rx_thread_ := None; rx_count_ := 0; com_handle_ := -1;
     com_baudrate_ := 0; is_cmd_opened_ := opened;
     rx_thread_exit_flag_ := exit_flag; read_callback_ := None |}.

(** Modelled from the spec: [IsOpened] is defined in the header, which is
    not among the sources; by the spec's "No-op (fails) if not open" and
    its [isOpen] field it reads [is_cmd_opened_]. *)
Definition IsOpened : M bool := get is_cmd_opened_.

(** An out-parameter: [None] for a null pointer, [Some v] for a pointer to
    a cell that holds [v]. *)
Definition out_param : Type := option Z.

Definition nonnull (p : out_param) : bool :=
  match p with Some _ => true | None => false end.

(** [*p = v]. *)
Definition store (p : out_param) (v : Z) : out_param :=
  match p with Some _ => Some v | None => None end.

(** [if (com_handle_ != -1) { close(com_handle_); com_handle_ = -1; }] *)
Definition close_handle : M unit :=
  h <- get com_handle_ ;;
  if negb (h =? -1) then
    sys (CloseFd h) ;;
    modify (set_com_handle_ (-1))
  else mret tt.

(** The tail shared by both branches of [Open]: clear the exit flag, start
    the worker, mark the object open.  When [new std::thread] throws, the
    exception leaves [Open] with the exit flag already cleared. *)
Definition start_worker : M bool :=
  modify (set_rx_thread_exit_flag_ false) ;;
  t <- sys ThreadStart ;;
  match t with
  | Some id =>
      modify (set_rx_thread_ (Some {| tid := id; joinable := true |})) ;;
      modify (set_is_cmd_opened_ true) ;;
      mret true
  | None => mthrow system_error
  end.

(** The test [pos == std::string::npos || pos == ip_port.length()]. *)
Definition bad_separator (pos : option nat) (ip_port : string) : bool :=
  match pos with
  | None => true
  | Some p => (p =? String.length ip_port)%nat
  end.

(** [Open], the branch taken when [port_name] starts with the scheme. *)
Definition Open_tcp (port_name : string) : M bool :=
  ip_port <- lift (Str.substr_from port_name 6) ;;
  let pos := Str.find_char ":" ip_port in
  if bad_separator pos ip_port then
    sys (Log LogErrBadPortName) ;;
    mret false
  else
    let pos := match pos with Some p => p | None => O end in
    ip <- lift (Str.substr ip_port 0 pos) ;;
    port <- lift (Str.substr_from ip_port (pos + 1)) ;;
    s <- sys (Socket Sys.AF_INET Sys.SOCK_STREAM 0) ;;
    modify (set_com_handle_ (ret s)) ;;
    sys (Log (LogInfoOpen ip port)) ;;
    a <- sys (InetPton Sys.AF_INET ip) ;;
    let addr := match a with Some v => v | None => 0 end in
    p <- lift (Str.stoi port) ;;
    let remote :=
      {| sin_family := Sys.AF_INET;
         sin_port := htons (Int.to_uint16 p);
         sin_addr := addr |} in
    h <- get com_handle_ ;;
    c <- sys (Connect h remote Sys.sizeof_sockaddr_in) ;;
    if ret c <? 0 then
      sys (Log (LogErrConnect (errno c))) ;;
      mret false
    else
      flags <- sys (Fcntl h Sys.F_GETFL 0) ;;
      let flags := Z.lor flags Sys.O_NONBLOCK in
      sys (Fcntl h Sys.F_SETFL flags) ;;
      start_worker.

(** The line settings [Open] writes into the attributes it has read. *)
Definition raw_8N1 (options : termios) : termios :=
  let cflag :=
    Z.lor (c_cflag options)
      (Int.to_uint32 (Z.lor (Z.lor Sys.CLOCAL Sys.CREAD) Sys.CS8)) in
  let cflag :=
    Z.land cflag (Int.to_uint32 (Z.lnot (Z.lor Sys.CSTOPB Sys.PARENB))) in
  let lflag :=
    Z.land (c_lflag options)
      (Int.to_uint32
         (Z.lnot
            (Z.lor (Z.lor (Z.lor (Z.lor (Z.lor (Z.lor
               Sys.ICANON Sys.ECHO) Sys.ECHOE) Sys.ECHOK) Sys.ECHONL)
               Sys.ISIG) Sys.IEXTEN))) in
  let oflag :=
    Z.land (c_oflag options) (Int.to_uint32 (Z.lnot Sys.OPOST)) in
  let iflag :=
    Z.land (c_iflag options)
      (Int.to_uint32
         (Z.lnot
            (Z.lor (Z.lor (Z.lor (Z.lor (Z.lor
               Sys.IXON Sys.IXOFF) Sys.INLCR) Sys.IGNCR) Sys.ICRNL)
               Sys.IGNBRK))) in
  {| c_iflag := iflag; c_oflag := oflag; c_cflag := cflag; c_lflag := lflag;
     c_cc := array_set (array_set (c_cc options) Sys.VMIN 0) Sys.VTIME 0;
     c_ispeed := c_ispeed options; c_ospeed := c_ospeed options |}.

(** [Open], the branch for a device path (the block under [__APPLE__] is
    not compiled on Linux). *)
Definition Open_serial (port_name : string) (com_baudrate : Z) : M bool :=
  let flags := Z.lor (Z.lor Sys.O_RDWR Sys.O_NOCTTY) Sys.O_NONBLOCK in
  f <- sys (OpenFile port_name flags) ;;
  modify (set_com_handle_ (ret f)) ;;
  h <- get com_handle_ ;;
  if -1 =? h then
    sys (Log (LogErrOpen (errno f))) ;;
    mret false
  else
    modify (set_com_baudrate_ com_baudrate) ;;
    g <- sys (Tcgetattr h) ;;
    if -1 =? ret (fst g) then
      sys (Log (LogErrTcgetattr (errno (fst g)))) ;;
      close_handle ;;
      mret false
    else
      let options := raw_8N1 (snd g) in
      s <- sys (Tcsetattr h Sys.TCSANOW options) ;;
      if ret s <? 0 then
        sys (Log (LogErrTcsetattr (errno s))) ;;
        close_handle ;;
        mret false
      else
        sys (Log (LogInfoBaudRate (c_ospeed options))) ;;
        sys (Tcflush h Sys.TCIFLUSH) ;;
        start_worker.

(** [bool SerialInterfaceLinux::Open(std::string &port_name,
    uint32_t com_baudrate)] *)
Definition Open (port_name : string) (com_baudrate : Z) : M bool :=
  match Str.find "tcp://" port_name with
  | Some O => Open_tcp port_name
  | _ => Open_serial port_name com_baudrate
  end.

(** [bool SerialInterfaceLinux::Close()] *)
Definition Close : M bool :=
  opened <- get is_cmd_opened_ ;;
  if Bool.eqb opened false then mret true
  else
    modify (set_rx_thread_exit_flag_ true) ;;
    close_handle ;;
    t <- get rx_thread_ ;;
    match t with
    | Some th =>
        if joinable th then
          sys (ThreadJoin th) ;;
          modify (set_rx_thread_ None)
        else mret tt
    | None => mret tt
    end ;;
    modify (set_is_cmd_opened_ false) ;;
    mret true.

(** [SerialInterfaceLinux::~SerialInterfaceLinux()] *)
Definition delete_SerialInterfaceLinux : M bool := Close.

(** [static timespec timeout = {0, (long)(100 * 1e6)}]: 100 ms (the
    product is the double 1e8, exactly). *)
Definition timeout : timespec := {| tv_sec := 0; tv_nsec := 100 * 10 ^ 6 |}.

(** [ReadFromIO] from the test of the read set on: the read, the store
    into [*rx_len] and the final [return]. *)
Definition read_if_set (h : Z) (read_fds : fd_set) (len : Z)
    (rx_buf : list byte) (rx_buf_len : Z) (rx_len : out_param)
  : M (bool * list byte * out_param) :=
  match FD_ISSET h read_fds with
  | None => mabort
  | Some true =>
      r <- sys (ReadFd h rx_buf_len) ;;
      let len := Int.to_int32 (fst r) in
      let rx_buf := overwrite (snd r) rx_buf in
      let rx_len :=
        if negb (len =? -1) && nonnull rx_len
        then store rx_len (Int.to_uint32 len) else rx_len in
      mret (if len =? -1 then false else true, rx_buf, rx_len)
  | Some false =>
      mret (if len =? -1 then false else true, rx_buf, rx_len)
  end.

(** [bool SerialInterfaceLinux::ReadFromIO(uint8_t *rx_buf,
    uint32_t rx_buf_len, uint32_t *rx_len)]; the result carries the buffer
    and the out-parameter as the call leaves them. *)
Definition ReadFromIO (rx_buf : list byte) (rx_buf_len : Z)
    (rx_len : out_param) : M (bool * list byte * out_param) :=
  let len := -1 in
  opened <- IsOpened ;;
  if opened then
    h <- get com_handle_ ;;
    match FD_SET h FD_ZERO with
    | None => mabort
    | Some read_fds =>
        p <- sys (Pselect (h + 1) read_fds timeout) ;;
        let read_fds := ps_readfds p in
        if ps_ret p <? 0 then
          if ps_errno p =? Sys.EINTR then mret (false, rx_buf, rx_len)
          else read_if_set h read_fds len rx_buf rx_buf_len rx_len
        else if ps_ret p =? 0 then mret (false, rx_buf, rx_len)
        else read_if_set h read_fds len rx_buf rx_buf_len rx_len
    end
  else
    mret (if len =? -1 then false else true, rx_buf, rx_len).

(** [bool SerialInterfaceLinux::WriteToIo(const uint8_t *tx_buf,
    uint32_t tx_buf_len, uint32_t *tx_len)] *)
Definition WriteToIo (tx_buf : list byte) (tx_buf_len : Z)
    (tx_len : out_param) : M (bool * out_param) :=
  let len := -1 in
  opened <- IsOpened ;;
  if opened then
    h <- get com_handle_ ;;
    w <- sys (WriteFd h tx_buf tx_buf_len) ;;
    let len := Int.to_int32 (ret w) in
    let tx_len :=
      if negb (len =? -1) && nonnull tx_len
      then store tx_len (Int.to_uint32 len) else tx_len in
    mret (if len =? -1 then false else true, tx_len)
  else
    mret (if len =? -1 then false else true, tx_len).

(** The value of a local read back through its address. *)
Definition deref (p : out_param) : Z :=
  match p with Some v => v | None => 0 end.

(** One pass through the body of the [while] of [RxThreadProc].  The
    counter is updated before the callback is called; an exception of the
    callback leaves the pass, and the loop, at that point. *)
Definition RxThreadProc_body (rx_buf : list byte) : M (list byte) :=
  let readed := 0 in
  r <- ReadFromIO rx_buf MAX_ACK_BUF_LEN (Some readed) ;;
  let '(res, rx_buf, out) := r in
  let readed := deref out in
  if res && negb (readed =? 0) then
    n <- get rx_count_ ;;
    modify (set_rx_count_ (n + readed)) ;;
    cb <- get read_callback_ ;;
    match cb with
    | Some f =>
        c <- sys (Callback f rx_buf readed) ;;
        match c with
        | None => mret rx_buf
        | Some e => mthrow e
        end
    | None => mret rx_buf
    end
  else mret rx_buf.

(** [void SerialInterfaceLinux::RxThreadProc(void *param)], run for at
    most [fuel] passes: [Some] buffer when the loop has left on the exit
    flag, [None] when the passes are used up.  [rx_buf] is the content of
    the array the function allocates. *)
Fixpoint RxThreadProc (fuel : nat) (rx_buf : list byte)
  : M (option (list byte)) :=
  stop <- get rx_thread_exit_flag_ ;;
  if negb stop then
    match fuel with
    | O => mret None
    | S fuel' =>
        rx_buf <- RxThreadProc_body rx_buf ;;
        RxThreadProc fuel' rx_buf
    end
  else mret (Some rx_buf).

(** ** Concrete environments

    An environment that answers every call from a fixed table; used to
    evaluate the methods on concrete inputs. *)

Module Env.

Record table : Type :=
  { socket_r : sysret;
    inet_pton_r : option Z;
    connect_r : sysret;
    fcntl_r : Z;
    open_r : sysret;
    tcgetattr_r : sysret * termios;
    tcsetattr_r : sysret;
    close_r : Z;
    pselect_r : fd_set -> pselect_ret;
    read_r : Z * list byte;
    write_r : sysret;
    thread_r : option nat;
    callback_r : option exn }.

Definition ok : sysret := {| ret := 0; errno := 0 |}.
Definition fail (e : Z) : sysret := {| ret := -1; errno := e |}.
Definition fd (n : Z) : sysret := {| ret := n; errno := 0 |}.

Definition zero_termios : termios :=
  {| c_iflag := 0; c_oflag := 0; c_cflag := 0; c_lflag := 0;
     c_cc := repeat 0 32; c_ispeed := 0; c_ospeed := 0 |}.

(** The wait finds the descriptors it was given readable. *)
Definition readable (fds : fd_set) : pselect_ret :=
  {| ps_ret := Z.of_nat (List.length fds); ps_errno := 0;
     ps_readfds := fds |}.

(** The wait runs into its timeout: nothing ready, the set emptied. *)
Definition timed_out (fds : fd_set) : pselect_ret :=
  {| ps_ret := 0; ps_errno := 0; ps_readfds := [] |}.

(** The wait fails with [e]; the set is left as it was passed. *)
Definition wait_error (e : Z) (fds : fd_set) : pselect_ret :=
  {| ps_ret := -1; ps_errno := e; ps_readfds := fds |}.

(** Everything succeeds; descriptor 3 is handed out; reads find
    nothing to return before the timeout. *)
Definition default : table :=
  {| socket_r := fd 3;
     inet_pton_r := Some 0x7f000001;
     connect_r := ok;
     fcntl_r := 2;
     open_r := fd 3;
     tcgetattr_r := (ok, zero_termios);
     tcsetattr_r := ok;
     close_r := 0;
     pselect_r := timed_out;
     read_r := (0, []);
     write_r := ok;
     thread_r := Some 1%nat;
     callback_r := None |}.

Definition with_inet_pton (a : option Z) (t : table) : table :=
  {| socket_r := socket_r t; inet_pton_r := a; connect_r := connect_r t;
     fcntl_r := fcntl_r t; open_r := open_r t; tcgetattr_r := tcgetattr_r t;
     tcsetattr_r := tcsetattr_r t; close_r := close_r t;
     pselect_r := pselect_r t; read_r := read_r t; write_r := write_r t;
     thread_r := thread_r t; callback_r := callback_r t |}.

Definition with_connect (c : sysret) (t : table) : table :=
  {| socket_r := socket_r t; inet_pton_r := inet_pton_r t; connect_r := c;
     fcntl_r := fcntl_r t; open_r := open_r t; tcgetattr_r := tcgetattr_r t;
     tcsetattr_r := tcsetattr_r t; close_r := close_r t;
     pselect_r := pselect_r t; read_r := read_r t; write_r := write_r t;
     thread_r := thread_r t; callback_r := callback_r t |}.

Definition with_pselect (f : fd_set -> pselect_ret) (t : table) : table :=
  {| socket_r := socket_r t; inet_pton_r := inet_pton_r t;
     connect_r := connect_r t; fcntl_r := fcntl_r t; open_r := open_r t;
     tcgetattr_r := tcgetattr_r t; tcsetattr_r := tcsetattr_r t;
     close_r := close_r t; pselect_r := f; read_r := read_r t;
     write_r := write_r t; thread_r := thread_r t;
     callback_r := callback_r t |}.

Definition with_read (r : Z * list byte) (t : table) : table :=
  {| socket_r := socket_r t; inet_pton_r := inet_pton_r t;
     connect_r := connect_r t; fcntl_r := fcntl_r t; open_r := open_r t;
     tcgetattr_r := tcgetattr_r t; tcsetattr_r := tcsetattr_r t;
     close_r := close_r t; pselect_r := pselect_r t; read_r := r;
     write_r := write_r t; thread_r := thread_r t;
     callback_r := callback_r t |}.

Definition with_write (w : sysret) (t : table) : table :=
  {| socket_r := socket_r t; inet_pton_r := inet_pton_r t;
     connect_r := connect_r t; fcntl_r := fcntl_r t; open_r := open_r t;
     tcgetattr_r := tcgetattr_r t; tcsetattr_r := tcsetattr_r t;
     close_r := close_r t; pselect_r := pselect_r t; read_r := read_r t;
     write_r := w; thread_r := thread_r t; callback_r := callback_r t |}.

Definition with_tcgetattr (g : sysret * termios) (t : table) : table :=
  {| socket_r := socket_r t; inet_pton_r := inet_pton_r t;
     connect_r := connect_r t; fcntl_r := fcntl_r t; open_r := open_r t;
     tcgetattr_r := g; tcsetattr_r := tcsetattr_r t; close_r := close_r t;
     pselect_r := pselect_r t; read_r := read_r t; write_r := write_r t;
     thread_r := thread_r t; callback_r := callback_r t |}.

Definition with_thread (th : option nat) (t : table) : table :=
  {| socket_r := socket_r t; inet_pton_r := inet_pton_r t;
     connect_r := connect_r t; fcntl_r := fcntl_r t; open_r := open_r t;
     tcgetattr_r := tcgetattr_r t; tcsetattr_r := tcsetattr_r t;
     close_r := close_r t; pselect_r := pselect_r t; read_r := read_r t;
     write_r := write_r t; thread_r := th; callback_r := callback_r t |}.

Definition with_callback (cb : option exn) (t : table) : table :=
  {| socket_r := socket_r t; inet_pton_r := inet_pton_r t;
     connect_r := connect_r t; fcntl_r := fcntl_r t; open_r := open_r t;
     tcgetattr_r := tcgetattr_r t; tcsetattr_r := tcsetattr_r t;
     close_r := close_r t; pselect_r := pselect_r t; read_r := read_r t;
     write_r := write_r t; thread_r := thread_r t; callback_r := cb |}.

Definition answer (t : table) : @handler unit :=
  fun c =>
    match c return unit -> resp c * unit with
    | Socket _ _ _ => fun u => (socket_r t, u)
    | InetPton _ _ => fun u => (inet_pton_r t, u)
    | Connect _ _ _ => fun u => (connect_r t, u)
    | Fcntl _ _ _ => fun u => (fcntl_r t, u)
    | OpenFile _ _ => fun u => (open_r t, u)
    | Tcgetattr _ => fun u => (tcgetattr_r t, u)
    | Tcsetattr _ _ _ => fun u => (tcsetattr_r t, u)
    | Tcflush _ _ => fun u => (0, u)
    | CloseFd _ => fun u => (close_r t, u)
    | Pselect _ fds _ => fun u => (pselect_r t fds, u)
    | ReadFd _ _ => fun u => (read_r t, u)
    | WriteFd _ _ _ => fun u => (write_r t, u)
    | Log _ => fun u => (tt, u)
    | ThreadStart => fun u => (thread_r t, u)
    | ThreadJoin _ => fun u => (tt, u)
    | Callback _ _ _ => fun u => (callback_r t, u)
    end.

End Env.

(** The calls of a trace, without their answers. *)
Definition calls (tr : list event) : list call := map (@projT1 _ _) tr.

Definition closed0 : SerialInterfaceLinux :=
  new_SerialInterfaceLinux false false.

(** ** Resources held after a trace *)

(** The descriptor an event hands out: a non-negative result of [socket]
    or [open]. *)
Definition acquired (e : event) : option Z :=
  match e with
  | existT _ c r =>
      match c return resp c -> option Z with
      | Socket _ _ _ => fun s => if 0 <=? ret s then Some (ret s) else None
      | OpenFile _ _ => fun s => if 0 <=? ret s then Some (ret s) else None
      | _ => fun _ => None
      end r
  end.

(** The descriptor an event gives back. *)
Definition released (e : event) : option Z :=
  match projT1 e with
  | CloseFd fd => Some fd
  | _ => None
  end.

(** The descriptors still allocated once the trace has run, starting from
    [fds]. *)
Fixpoint allocated (tr : list event) (fds : list Z) : list Z :=
  match tr with
  | [] => fds
  | e :: tr' =>
      let fds :=
        match acquired e with Some fd => fd :: fds | None => fds end in
      let fds :=
        match released e with
        | Some fd => List.remove Z.eq_dec fd fds
        | None => fds
        end in
      allocated tr' fds
  end.

Definition is_callback (c : call) : bool :=
  match c with Callback _ _ _ => true | _ => false end.

(** The callback invocations of a trace. *)
Definition callbacks (tr : list event) : list call :=
  filter is_callback (calls tr).

(** ** Connection descriptors *)

(** The network form of a connection descriptor. *)
Definition descriptor (host port : string) : string :=
  ("tcp://" ++ host ++ ":" ++ port)%string.

(** [Open] turns [port_name] down as a bad address: it logs the bad port
    name and returns [false]; it makes no other call and leaves the object
    as it was. *)
Definition rejects_before_allocation (port_name : string) : Prop :=
  forall (baud : Z) (o : SerialInterfaceLinux),
    Open port_name baud o =
    Vis (Log LogErrBadPortName) (fun _ => Ret (Normal false, o)).

(** The wait [ReadFromIO] makes on an open object: [pselect] on the one
    handle, with the fixed timeout. *)
Definition wait_call (o : SerialInterfaceLinux) : call :=
  Pselect (com_handle_ o + 1) [com_handle_ o] timeout.

(** The handle indexes a descriptor set. *)
Definition handle_in_range (o : SerialInterfaceLinux) : Prop :=
  0 <= com_handle_ o < Sys.FD_SETSIZE.

(** [ReadFromIO] is defined on the object: it is not marked open, or its
    handle indexes a descriptor set. *)
Definition read_defined (o : SerialInterfaceLinux) : Prop :=
  is_cmd_opened_ o = true -> handle_in_range o.

(** The object with [n] more bytes counted, field by field. *)
Definition counted (o : SerialInterfaceLinux) (n : Z) : SerialInterfaceLinux :=
  {| rx_thread_ := rx_thread_ o;
     rx_count_ := rx_count_ o + n;
     com_handle_ := com_handle_ o;
     com_baudrate_ := com_baudrate_ o;
     is_cmd_opened_ := is_cmd_opened_ o;
     rx_thread_exit_flag_ := rx_thread_exit_flag_ o;
     read_callback_ := read_callback_ o |}.

(** Every field but the byte counter is the same in both objects. *)
Definition unchanged_but_count (o o1 : SerialInterfaceLinux) : Prop :=
  rx_thread_ o1 = rx_thread_ o /\
  com_handle_ o1 = com_handle_ o /\
  com_baudrate_ o1 = com_baudrate_ o /\
  is_cmd_opened_ o1 = is_cmd_opened_ o /\
  rx_thread_exit_flag_ o1 = rx_thread_exit_flag_ o /\
  read_callback_ o1 = read_callback_ o.

(** What a [read] or [write] on a 32-bit count can return without its
    conversion to [int32_t] meeting the error value: [-1] or a count other
    than [0xFFFFFFFF] (Linux transfers at most [0x7ffff000] bytes per
    call). *)
Definition io_result (n : Z) : Prop := -1 <= n < 2 ^ 32 - 1.

(** The first call of a program. *)
Definition first_call {A : Type} (p : prog A) : option call :=
  match p with
  | Vis c _ => Some c
  | Ret _ => None
  end.

Module Scenario.

Definition ECONNREFUSED : Z := 111.
Definition ENOMEM : Z := 12.

(** The text is no address for [inet_pton]; everything else succeeds. *)
Definition no_address : Env.table := Env.with_inet_pton None Env.default.

(** Nobody listens at the address: [connect] fails. *)
Definition refused : Env.table :=
  Env.with_connect (Env.fail ECONNREFUSED) Env.default.

(** The path opens but is no terminal: [tcgetattr] fails. *)
Definition ENOTTY : Z := 25.
Definition not_a_terminal : Env.table :=
  Env.with_tcgetattr (Env.fail ENOTTY, Env.zero_termios) Env.default.

Definition three_bytes : list byte := [x01; x02; x03].

(** Three bytes have arrived: the wait finds the handle readable and the
    read returns them. *)
Definition data_ready : Env.table :=
  Env.with_pselect Env.readable (Env.with_read (3, three_bytes) Env.default).

(** The handle is readable and the read fails. *)
Definition read_fails : Env.table :=
  Env.with_pselect Env.readable (Env.with_read (-1, []) Env.default).

(** The handle is readable at end of stream: the read returns 0. *)
Definition end_of_stream : Env.table :=
  Env.with_pselect Env.readable (Env.with_read (0, []) Env.default).

(** A signal interrupts the wait. *)
Definition interrupted : Env.table :=
  Env.with_pselect (Env.wait_error Sys.EINTR) Env.default.

(** The wait fails for want of memory, leaving the read set as it was
    passed; the three bytes that have arrived are there to be read. *)
Definition wait_fails_data_there : Env.table :=
  Env.with_pselect (Env.wait_error ENOMEM)
    (Env.with_read (3, three_bytes) Env.default).

(** Three bytes have arrived and the callback throws on them. *)
Definition callback_throws : Env.table :=
  Env.with_callback (Some (callback_error 1)) data_ready.

(** No thread can be started. *)
Definition no_thread : Env.table := Env.with_thread None Env.default.

(** The system accepts two of the bytes offered to a write. *)
Definition short_write : Env.table := Env.with_write (Env.fd 2) Env.default.

(** The write fails. *)
Definition write_fails : Env.table :=
  Env.with_write (Env.fail 5) Env.default.

(** The object after a successful [Open] that was handed descriptor 3,
    with [cb] registered as the callback. *)
Definition opened (cb : option nat) : SerialInterfaceLinux :=
  {| rx_thread_ := Some {| tid := 1; joinable := true |};
     rx_count_ := 0; com_handle_ := 3; com_baudrate_ := 0;
     is_cmd_opened_ := true; rx_thread_exit_flag_ := false;
     read_callback_ := cb |}.

End Scenario.

(** ** Measures on traces and states *)

Definition is_thread_start (c : call) : bool :=
  match c with ThreadStart => true | _ => false end.

Definition is_thread_join (c : call) : bool :=
  match c with ThreadJoin _ => true | _ => false end.

Definition is_close (c : call) : bool :=
  match c with CloseFd _ => true | _ => false end.

Definition is_wait (c : call) : bool :=
  match c with Pselect _ _ _ => true | _ => false end.

(** The count a call hands to the callback; zero for any other call. *)
Definition callback_len (c : call) : Z :=
  match c with Callback _ _ n => n | _ => 0 end.

(** The bytes a trace has handed to the callback, all invocations
    together. *)
Definition callback_bytes (tr : list event) : Z :=
  fold_right (fun e acc => callback_len (projT1 e) + acc) 0 tr.

(** The flags [Open] passes to [open]. *)
Definition open_flags : Z :=
  Z.lor (Z.lor Sys.O_RDWR Sys.O_NOCTTY) Sys.O_NONBLOCK.

(** The object a successful [Open] leaves: handle [fd], worker [t]
    started, exit flag clear, marked open. *)
Definition opened_with (fd : Z) (t : nat) (o : SerialInterfaceLinux)
  : SerialInterfaceLinux :=
  set_is_cmd_opened_ true
    (set_rx_thread_ (Some {| tid := t; joinable := true |})
       (set_rx_thread_exit_flag_ false (set_com_handle_ fd o))).

(** The thread an event starts: the answer of a [ThreadStart] that
    succeeded. *)
Definition started_by (e : event) : option nat :=
  match e with
  | existT _ c r =>
      match c return resp c -> option nat with
      | ThreadStart => fun t => t
      | _ => fun _ => None
      end r
  end.

(** The threads a trace has started, in order. *)
Fixpoint started (tr : list event) : list nat :=
  match tr with
  | [] => []
  | e :: tr' =>
      match started_by e with
      | Some t => t :: started tr'
      | None => started tr'
      end
  end.

(** What [Open] guarantees about its result [r], the object [o1] and the
    trace [tr] it leaves, having started from [o] with the descriptors
    [fds] allocated.  The byte counter and the callback are never touched
    and no worker is ever joined.
    A return of [true] goes with: marked open, exit flag clear, exactly
    one thread started, that very thread held in [rx_thread_], nothing
    closed, and the handle as the one descriptor acquired.
    [system_error] is the failure to start the thread: no thread has been
    started, the open mark and [rx_thread_] are as they were, but the exit
    flag has been cleared and the descriptor that was acquired is still
    allocated, in the handle.
    Any other outcome (a return of [false], an exception of the port
    parsing) goes with: no attempt to start a thread, and the open mark,
    the exit flag and [rx_thread_] as they were. *)
Definition Open_post (o : SerialInterfaceLinux) (fds : list Z)
    (r : outcome bool) (o1 : SerialInterfaceLinux) (tr : list event) : Prop :=
  rx_count_ o1 = rx_count_ o /\
  read_callback_ o1 = read_callback_ o /\
  filter is_thread_join (calls tr) = [] /\
  match r with
  | Normal true =>
      is_cmd_opened_ o1 = true /\
      rx_thread_exit_flag_ o1 = false /\
      (exists t, started tr = [t] /\
                 rx_thread_ o1 = Some {| tid := t; joinable := true |}) /\
      filter is_thread_start (calls tr) = [ThreadStart] /\
      filter is_close (calls tr) = [] /\
      allocated tr fds =
        (if 0 <=? com_handle_ o1 then com_handle_ o1 :: fds else fds)
  | Throw system_error =>
      is_cmd_opened_ o1 = is_cmd_opened_ o /\
      rx_thread_exit_flag_ o1 = false /\
      rx_thread_ o1 = rx_thread_ o /\
      started tr = [] /\
      filter is_thread_start (calls tr) = [ThreadStart] /\
      filter is_close (calls tr) = [] /\
      allocated tr fds =
        (if 0 <=? com_handle_ o1 then com_handle_ o1 :: fds else fds)
  | Abort => False
  | _ =>
      is_cmd_opened_ o1 = is_cmd_opened_ o /\
      rx_thread_exit_flag_ o1 = rx_thread_exit_flag_ o /\
      rx_thread_ o1 = rx_thread_ o /\
      started tr = [] /\
      filter is_thread_start (calls tr) = []
  end.

(** The calls [Close] makes on an object that is marked open: the handle
    is closed unless it is [-1], then the worker is joined if there is a
    joinable one. *)
Definition Close_calls (o : SerialInterfaceLinux) : list call :=
  (if com_handle_ o =? -1 then [] else [CloseFd (com_handle_ o)]) ++
  match rx_thread_ o with
  | Some th => if joinable th then [ThreadJoin th] else []
  | None => []
  end.

(** The object [Close] leaves when it started from [o] marked open. *)
Definition Close_state (o : SerialInterfaceLinux) : SerialInterfaceLinux :=
  {| rx_thread_ :=
       match rx_thread_ o with
       | Some th => if joinable th then None else Some th
       | None => None
       end;
     rx_count_ := rx_count_ o;
     com_handle_ := -1;
     com_baudrate_ := com_baudrate_ o;
     is_cmd_opened_ := false;
     rx_thread_exit_flag_ := true;
     read_callback_ := read_callback_ o |}.

(** A 32-bit flag word. *)
Definition word32 (z : Z) : Prop := 0 <= z < 2 ^ 32.

(** The flag groups of [Open]'s line settings. *)
Definition cflag_set : Z := Z.lor (Z.lor Sys.CLOCAL Sys.CREAD) Sys.CS8.
Definition cflag_clear : Z := Z.lor Sys.CSTOPB Sys.PARENB.
Definition lflag_clear : Z :=
  Z.lor (Z.lor (Z.lor (Z.lor (Z.lor (Z.lor
    Sys.ICANON Sys.ECHO) Sys.ECHOE) Sys.ECHOK) Sys.ECHONL)
    Sys.ISIG) Sys.IEXTEN.
Definition oflag_clear : Z := Sys.OPOST.
Definition iflag_clear : Z :=
  Z.lor (Z.lor (Z.lor (Z.lor (Z.lor
    Sys.IXON Sys.IXOFF) Sys.INLCR) Sys.IGNCR) Sys.ICRNL) Sys.IGNBRK.

Module SerialScenario.

Definition EACCES : Z := 13.
Definition EIO : Z := 5.

Definition with_open (f : sysret) (t : Env.table) : Env.table :=
  {| Env.socket_r := Env.socket_r t; Env.inet_pton_r := Env.inet_pton_r t;
     Env.connect_r := Env.connect_r t; Env.fcntl_r := Env.fcntl_r t;
     Env.open_r := f; Env.tcgetattr_r := Env.tcgetattr_r t;
     Env.tcsetattr_r := Env.tcsetattr_r t; Env.close_r := Env.close_r t;
     Env.pselect_r := Env.pselect_r t; Env.read_r := Env.read_r t;
     Env.write_r := Env.write_r t; Env.thread_r := Env.thread_r t;
     Env.callback_r := Env.callback_r t |}.

Definition with_tcsetattr (r : sysret) (t : Env.table) : Env.table :=
  {| Env.socket_r := Env.socket_r t; Env.inet_pton_r := Env.inet_pton_r t;
     Env.connect_r := Env.connect_r t; Env.fcntl_r := Env.fcntl_r t;
     Env.open_r := Env.open_r t; Env.tcgetattr_r := Env.tcgetattr_r t;
     Env.tcsetattr_r := r; Env.close_r := Env.close_r t;
     Env.pselect_r := Env.pselect_r t; Env.read_r := Env.read_r t;
     Env.write_r := Env.write_r t; Env.thread_r := Env.thread_r t;
     Env.callback_r := Env.callback_r t |}.

(** The device may not be opened. *)
Definition no_permission : Env.table := with_open (Env.fail EACCES) Env.default.

(** The attributes can be read but not written. *)
Definition cannot_set : Env.table := with_tcsetattr (Env.fail EIO) Env.default.

(** A terminal in its usual cooked state: canonical input with echo and
    signals, output processing, CR to NL and XON/XOFF on input, parity and
    two stop bits on a 7-bit character. *)
Definition cooked : termios :=
  {| c_iflag := 0x500; c_oflag := 0x5; c_cflag := 0x1e0; c_lflag := 0x8a3b;
     c_cc := [3; 28; 127; 21; 4; 7; 1; 0; 17; 19; 26; 0; 18; 15; 23; 22;
              0; 0; 0; 0; 0; 0; 0; 0; 0; 0; 0; 0; 0; 0; 0; 0];
     c_ispeed := 13; c_ospeed := 13 |}.

End SerialScenario.

(** An environment that numbers what it hands out: its state is the next
    number, given to each new descriptor and each new thread in turn; all
    other answers come from the table. *)
Module Fresh.

Definition answer (t : Env.table) : @handler Z :=
  fun c =>
    match c return Z -> resp c * Z with
    | Socket _ _ _ => fun n => (Env.fd n, n + 1)
    | OpenFile _ _ => fun n => (Env.fd n, n + 1)
    | ThreadStart => fun n => (Some (Z.to_nat n), n + 1)
    | InetPton _ _ => fun n => (Env.inet_pton_r t, n)
    | Connect _ _ _ => fun n => (Env.connect_r t, n)
    | Fcntl _ _ _ => fun n => (Env.fcntl_r t, n)
    | Tcgetattr _ => fun n => (Env.tcgetattr_r t, n)
    | Tcsetattr _ _ _ => fun n => (Env.tcsetattr_r t, n)
    | Tcflush _ _ => fun n => (0, n)
    | CloseFd _ => fun n => (Env.close_r t, n)
    | Pselect _ fds _ => fun n => (Env.pselect_r t fds, n)
    | ReadFd _ _ => fun n => (Env.read_r t, n)
    | WriteFd _ _ _ => fun n => (Env.write_r t, n)
    | Log _ => fun n => (tt, n)
    | ThreadJoin _ => fun n => (tt, n)
    | Callback _ _ _ => fun n => (Env.callback_r t, n)
    end.

End Fresh.

(** ** Running composed programs *)

Section RunFacts.

Context {OS : Type}.
Variable h : @handler OS.

Lemma run_Vis {A : Type} (c : call) (k : resp c -> prog A) (os : OS) :
  run h (Vis c k) os =
  (let '(r, os1) := h c os in
   let '(a, tr, os2) := run h (k r) os1 in
   (a, Ev c r :: tr, os2)).
Proof. reflexivity. Qed.

Lemma run_pbind {A B : Type} (p : prog A) (f : A -> prog B) (os : OS) :
  run h (pbind p f) os =
  (let '(a, tr1, os1) := run h p os in
   let '(b, tr2, os2) := run h (f a) os1 in
   (b, tr1 ++ tr2, os2)).
Proof.
  revert os. induction p as [a | c k IH]; intros os; simpl.
  - destruct (run h (f a) os) as [[b tr2] os2]. reflexivity.
  - destruct (h c os) as [r os1]. rewrite IH.
    destruct (run h (k r) os1) as [[a tr1] os2].
    destruct (run h (f a) os2) as [[b tr2] os3]. reflexivity.
Qed.

(** A method that returns normally, followed by its continuation. *)
Lemma run_mbind_normal {A B : Type} (m : M A) (f : A -> M B)
    (o o1 : SerialInterfaceLinux) (os os1 : OS) (a : A) (tr : list event) :
  run h (m o) os = ((Normal a, o1), tr, os1) ->
  run h (mbind m f o) os =
  (let '(b, tr2, os2) := run h (f a o1) os1 in (b, tr ++ tr2, os2)).
Proof.
  intros Hm. unfold mbind. rewrite run_pbind, Hm. reflexivity.
Qed.

(** A method that throws: the continuation does not run. *)
Lemma run_mbind_throw {A B : Type} (m : M A) (f : A -> M B)
    (o o1 : SerialInterfaceLinux) (os os1 : OS) (e : exn) (tr : list event) :
  run h (m o) os = ((Throw e, o1), tr, os1) ->
  run h (mbind m f o) os = ((Throw e, o1), tr, os1).
Proof.
  intros Hm. unfold mbind. rewrite run_pbind, Hm. simpl.
  rewrite app_nil_r. reflexivity.
Qed.

(** A method that does not return: the continuation does not run. *)
Lemma run_mbind_abort {A B : Type} (m : M A) (f : A -> M B)
    (o o1 : SerialInterfaceLinux) (os os1 : OS) (tr : list event) :
  run h (m o) os = ((Abort, o1), tr, os1) ->
  run h (mbind m f o) os = ((Abort, o1), tr, os1).
Proof.
  intros Hm. unfold mbind. rewrite run_pbind, Hm. simpl.
  rewrite app_nil_r. reflexivity.
Qed.

End RunFacts.

(** Name the answer of the handler to each call the goal runs into. *)
Ltac answer_calls h :=
  repeat match goal with
         | |- context [h ?c ?s] =>
             let r := fresh "r" in
             let os := fresh "os" in
             destruct (h c s) as [r os]; cbn
         end.

(** ** Laws of the monad *)

Lemma mbind_mret {A B : Type} (a : A) (f : A -> M B) :
  mbind (mret a) f = f a.
Proof. reflexivity. Qed.

Lemma mbind_lift_normal {A B : Type} (a : A) (f : A -> M B) :
  mbind (lift (Normal a)) f = f a.
Proof. reflexivity. Qed.

Lemma mbind_lift_throw {A B : Type} (e : exn) (f : A -> M B) :
  mbind (lift (Throw e)) f = mthrow e.
Proof. reflexivity. Qed.

Lemma mbind_get {A B : Type} (g : SerialInterfaceLinux -> A) (f : A -> M B)
    (o : SerialInterfaceLinux) :
  mbind (get g) f o = f (g o) o.
Proof. reflexivity. Qed.

Lemma mbind_modify {B : Type} (g : SerialInterfaceLinux -> SerialInterfaceLinux)
    (f : unit -> M B) (o : SerialInterfaceLinux) :
  mbind (modify g) f o = f tt (g o).
Proof. reflexivity. Qed.

Lemma mbind_sys {B : Type} (c : call) (f : resp c -> M B)
    (o : SerialInterfaceLinux) :
  mbind (sys c) f o = Vis c (fun r => f r o).
Proof. reflexivity. Qed.

(** ** Facts about the string functions *)

Lemma find_char_absent (c : ascii) (s : string) :
  ~ In c (list_ascii_of_string s) -> Str.find_char c s = None.
Proof.
  unfold Str.find_char.
  induction s as [| a s IH]; intros Hin; simpl.
  - reflexivity.
  - destruct (Ascii.ascii_dec c a) as [-> | Hne].
    + exfalso. apply Hin. simpl. auto.
    + destruct (Ascii.ascii_dec c a) as [E | _]; [contradiction |].
      rewrite IH; [reflexivity |]. intros H. apply Hin. simpl. auto.
Qed.

Lemma find_char_head (c : ascii) (s : string) :
  Str.find_char c (String c s) = Some 0%nat.
Proof.
  unfold Str.find_char. simpl.
  destruct (Ascii.ascii_dec c c) as [_ | Hne]; [| contradiction].
  destruct s; reflexivity.
Qed.

Lemma prefix_append (p s : string) : String.prefix p (p ++ s)%string = true.
Proof.
  induction p as [| a p IH]; simpl.
  - destruct s; reflexivity.
  - destruct (Ascii.ascii_dec a a) as [_ | Hne]; [exact IH | contradiction].
Qed.

Lemma find_append (p s : string) : Str.find p (p ++ s)%string = Some 0%nat.
Proof.
  destruct p as [| a p]; simpl.
  - destruct s; reflexivity.
  - destruct (Ascii.ascii_dec a a) as [_ | Hne]; [| contradiction].
    rewrite prefix_append. reflexivity.
Qed.

(** A descriptor that starts with the scheme takes the network branch,
    with the remainder as [ip_port]. *)
Lemma Open_scheme (rest : string) (baud : Z) :
  Open ("tcp://" ++ rest)%string baud = Open_tcp ("tcp://" ++ rest)%string.
Proof. unfold Open. rewrite find_append. reflexivity. Qed.

(** ** Open: malformed network descriptors *)

(** C1, as the claim states it, fails on the code: the descriptor
    "tcp://:9000" has an empty host, yet [Open] does not turn it down.  It
    creates the socket, connects (to the zero address, since the empty text
    is no address) and, when the connect succeeds, returns [true] with
    descriptor 3 allocated and the worker started. *)
Lemma Open_empty_host_counterexample :
  descriptor "" "9000" = "tcp://:9000" /\
  (let '(r, tr, _) :=
     run (Env.answer Scenario.no_address)
         (Open (descriptor "" "9000") 0 closed0) tt in
   r = (Normal true, Scenario.opened None) /\
   calls tr =
     [Socket 2 1 0; Log (LogInfoOpen "" "9000"); InetPton 2 "";
      Connect 3 {| sin_family := 2; sin_port := (35, 40); sin_addr := 0 |} 16;
      Fcntl 3 3 0; Fcntl 3 4 2050; ThreadStart] /\
   allocated tr [] = [3]) /\
  ~ rejects_before_allocation (descriptor "" "9000").
Proof.
  split; [reflexivity |]. split.
  - vm_compute. repeat split.
  - intros H. specialize (H 0 closed0).
    apply (f_equal first_call) in H. vm_compute in H. discriminate H.
Qed.

(** C1 (amended): a descriptor that starts with "tcp://" and has no ':' in
    the remainder is turned down before any system call: [Open] logs the
    bad port name and returns [false], the object unchanged, nothing
    allocated.  An empty host with a non-empty port is not turned down: the
    first thing [Open] does with it is create the stream socket. *)
Theorem Open_missing_separator_rejected :
  (forall rest : string,
      ~ In ":"%char (list_ascii_of_string rest) ->
      rejects_before_allocation ("tcp://" ++ rest)%string) /\
  (forall (c : ascii) (port : string) (baud : Z) (o : SerialInterfaceLinux),
      exists k,
        Open (descriptor "" (String c port)) baud o =
        Vis (Socket Sys.AF_INET Sys.SOCK_STREAM 0) k).
Proof.
  split.
  - intros rest Hrest baud o.
    rewrite Open_scheme. unfold Open_tcp.
    change (Str.substr_from ("tcp://" ++ rest)%string 6) with (Normal rest).
    rewrite mbind_lift_normal, (find_char_absent _ _ Hrest).
    reflexivity.
  - intros c port baud o. unfold descriptor.
    rewrite Open_scheme. unfold Open_tcp.
    change (Str.substr_from ("tcp://" ++ "" ++ ":" ++ String c port)%string 6)
      with (Normal (String ":" (String c port))).
    rewrite mbind_lift_normal, find_char_head.
    eexists. reflexivity.
Qed.

Lemma Open_missing_separator_rejected_witness :
  rejects_before_allocation "tcp://localhost".
Proof.
  apply (proj1 Open_missing_separator_rejected "localhost").
  simpl. intros H.
  repeat (destruct H as [H | H]; [discriminate H |]). exact H.
Defined.

(** A separator that [find] reports lies inside the text, so the second
    half of [bad_separator], [pos == ip_port.length()], never fires: a
    trailing separator (an empty port) is not caught by it. *)
Lemma find_char_bound (c : ascii) (s : string) (p : nat) :
  Str.find_char c s = Some p -> (p < String.length s)%nat.
Proof.
  unfold Str.find_char. revert p.
  induction s as [| a s IH]; intros p; simpl.
  - discriminate.
  - destruct (Ascii.ascii_dec c a) as [_ | _].
    + destruct s; intros H; injection H as <-; lia.
    + destruct (Str.find (String c "") s) as [q |]; simpl; [| discriminate].
      intros H. injection H as <-. specialize (IH q eq_refl). lia.
Qed.

Lemma bad_separator_is_absence (c : ascii) (s : string) :
  bad_separator (Str.find_char c s) s = true <-> Str.find_char c s = None.
Proof.
  destruct (Str.find_char c s) as [p |] eqn:E; simpl.
  - apply find_char_bound in E. split; [| discriminate].
    intros H. apply Nat.eqb_eq in H. lia.
  - split; reflexivity.
Qed.

(** With an empty port the descriptor passes the separator test; the
    socket is created, and [std::stoi] then throws on the empty text, the
    socket still allocated. *)
Lemma Open_empty_port_throws :
  let '(r, tr, _) :=
    run (Env.answer Env.default) (Open (descriptor "host" "") 0 closed0) tt in
  r = (Throw invalid_argument, set_com_handle_ 3 closed0) /\
  calls tr = [Socket 2 1 0; Log (LogInfoOpen "host" ""); InetPton 2 "host"] /\
  allocated tr [] = [3].
Proof. vm_compute. repeat split. Qed.

(** *** Splitting a well-formed descriptor *)

Lemma find_char_separator (c : ascii) (host rest : string) :
  ~ In c (list_ascii_of_string host) ->
  Str.find_char c (host ++ String c rest)%string = Some (String.length host).
Proof.
  induction host as [| a host IH]; intros Hin.
  - apply find_char_head.
  - unfold Str.find_char in *. simpl.
    destruct (Ascii.ascii_dec c a) as [-> | Hne].
    + exfalso. apply Hin. simpl. auto.
    + rewrite IH; [reflexivity |]. intros H. apply Hin. simpl. auto.
Qed.

Lemma length_append (s t : string) :
  String.length (s ++ t)%string = (String.length s + String.length t)%nat.
Proof. induction s as [| a s IH]; simpl; [| rewrite IH]; reflexivity. Qed.

Lemma drop_append (s t : string) : Str.drop (String.length s) (s ++ t)%string = t.
Proof. induction s as [| a s IH]; simpl; [destruct t |]; auto. Qed.

Lemma take_append (s t : string) : Str.take (String.length s) (s ++ t)%string = s.
Proof.
  induction s as [| a s IH]; simpl; [destruct t; reflexivity |].
  rewrite IH. reflexivity.
Qed.

(** [Open_tcp] on host ":" port, up to the creation of the socket. *)
Lemma Open_tcp_split (host port : string) (o : SerialInterfaceLinux) :
  ~ In ":"%char (list_ascii_of_string host) ->
  Open_tcp (descriptor host port) o =
  Vis (Socket Sys.AF_INET Sys.SOCK_STREAM 0)
    (fun s =>
       (sys (Log (LogInfoOpen host port)) ;;
        a <- sys (InetPton Sys.AF_INET host) ;;
        let addr := match a with Some v => v | None => 0 end in
        p <- lift (Str.stoi port) ;;
        let remote :=
          {| sin_family := Sys.AF_INET;
             sin_port := htons (Int.to_uint16 p);
             sin_addr := addr |} in
        h <- get com_handle_ ;;
        c <- sys (Connect h remote Sys.sizeof_sockaddr_in) ;;
        if ret c <? 0 then
          sys (Log (LogErrConnect (errno c))) ;;
          mret false
        else
          flags <- sys (Fcntl h Sys.F_GETFL 0) ;;
          let flags := Z.lor flags Sys.O_NONBLOCK in
          sys (Fcntl h Sys.F_SETFL flags) ;;
          start_worker)%cpp (set_com_handle_ (ret s) o)).
Proof.
  intros Hhost. unfold Open_tcp, descriptor.
  change (Str.substr_from ("tcp://" ++ host ++ ":" ++ port)%string 6)
    with (Normal (host ++ String ":" port)%string).
  rewrite mbind_lift_normal, (find_char_separator _ _ port Hhost).
  assert (Hbad : bad_separator (Some (String.length host))
                   (host ++ String ":" port)%string = false).
  { simpl. rewrite length_append. simpl. apply Nat.eqb_neq. lia. }
  rewrite Hbad.
  assert (Hip : Str.substr (host ++ String ":" port)%string 0
                  (String.length host) = Normal host).
  { unfold Str.substr. simpl. rewrite take_append. reflexivity. }
  assert (Hport : Str.substr_from (host ++ String ":" port)%string
                    (String.length host + 1) = Normal port).
  { unfold Str.substr_from. rewrite length_append. simpl.
    assert ((String.length host + 1 <=?
             String.length host + S (String.length port))%nat = true) as ->
        by (apply Nat.leb_le; lia).
    f_equal. rewrite Nat.add_1_r.
    clear. induction host as [| a host IH]; simpl; auto. }
  rewrite Hip, mbind_lift_normal, Hport, mbind_lift_normal.
  reflexivity.
Qed.

(** ** Open: a failed connect *)

(** C2 (the code departs from the claim): with nobody listening at
    127.0.0.1:9000 the connect fails and [Open] returns [false] after
    logging the connect error, but it makes no [close]: descriptor 3
    stays allocated and stays in [com_handle_], while the object is not
    marked open. *)
Theorem Open_connect_failure_keeps_socket :
  let '(r, tr, _) :=
    run (Env.answer Scenario.refused)
        (Open "tcp://127.0.0.1:9000" 0 closed0) tt in
  r = (Normal false, set_com_handle_ 3 closed0) /\
  calls tr =
    [Socket 2 1 0; Log (LogInfoOpen "127.0.0.1" "9000");
     InetPton 2 "127.0.0.1";
     Connect 3
       {| sin_family := 2; sin_port := (35, 40); sin_addr := 0x7f000001 |} 16;
     Log (LogErrConnect Scenario.ECONNREFUSED)] /\
  allocated tr [] = [3].
Proof. vm_compute. repeat split. Qed.

(** The same for every host, port and environment: when the connect
    fails, [Open] logs the error and returns [false]; it does not close the
    socket, whose descriptor stays in [com_handle_]. *)
Lemma Open_connect_failure_general {OS : Type} (h : @handler OS)
    (host port : string) (baud p : Z) (o : SerialInterfaceLinux)
    (os os1 os2 os3 os4 os5 : OS) (s c : sysret) (a : option Z) :
  ~ In ":"%char (list_ascii_of_string host) ->
  Str.stoi port = Normal p ->
  h (Socket Sys.AF_INET Sys.SOCK_STREAM 0) os = (s, os1) ->
  h (Log (LogInfoOpen host port)) os1 = (tt, os2) ->
  h (InetPton Sys.AF_INET host) os2 = (a, os3) ->
  let remote :=
    {| sin_family := Sys.AF_INET;
       sin_port := htons (Int.to_uint16 p);
       sin_addr := match a with Some v => v | None => 0 end |} in
  h (Connect (ret s) remote Sys.sizeof_sockaddr_in) os3 = (c, os4) ->
  ret c < 0 ->
  h (Log (LogErrConnect (errno c))) os4 = (tt, os5) ->
  let tr :=
    [Ev (Socket Sys.AF_INET Sys.SOCK_STREAM 0) s;
     Ev (Log (LogInfoOpen host port)) tt;
     Ev (InetPton Sys.AF_INET host) a;
     Ev (Connect (ret s) remote Sys.sizeof_sockaddr_in) c;
     Ev (Log (LogErrConnect (errno c))) tt] in
  run h (Open (descriptor host port) baud o) os =
  ((Normal false, set_com_handle_ (ret s) o), tr, os5) /\
  (0 <= ret s -> allocated tr [] = [ret s]).
Proof.
  intros Hhost Hport Hsock Hlog Hpton remote Hconn Hfail Hlog2 tr. split.
  - rewrite (Open_scheme (host ++ ":" ++ port) baud
               : Open (descriptor host port) baud =
                 Open_tcp (descriptor host port)).
    rewrite (Open_tcp_split host port o Hhost).
    rewrite run_Vis, Hsock.
    rewrite mbind_sys, run_Vis, Hlog.
    rewrite mbind_sys, run_Vis, Hpton.
    rewrite Hport, mbind_lift_normal, mbind_get, mbind_sys.
    cbn [com_handle_ set_com_handle_].
    rewrite run_Vis. fold remote. rewrite Hconn.
    apply Z.ltb_lt in Hfail. rewrite Hfail.
    rewrite mbind_sys, run_Vis, Hlog2. reflexivity.
  - intros Hfd. subst tr. cbn.
    apply Z.leb_le in Hfd. rewrite Hfd. reflexivity.
Qed.

(** The serial branch, for comparison, gives its descriptor back when
    it fails after the open: here [tcgetattr] fails, the handle is closed
    and [com_handle_] is back at [-1]. *)
Lemma Open_serial_failure_releases :
  let '(r, tr, _) :=
    run (Env.answer Scenario.not_a_terminal)
        (Open "/dev/ttyUSB0" 230400 closed0) tt in
  r = (Normal false, set_com_baudrate_ 230400 closed0) /\
  calls tr =
    [OpenFile "/dev/ttyUSB0" 0x902; Tcgetattr 3;
     Log (LogErrTcgetattr Scenario.ENOTTY); CloseFd 3] /\
  allocated tr [] = [].
Proof. vm_compute. repeat split. Qed.

(** The later [Close] does not give the descriptor back either: the
    object is not marked open, so [Close] returns at once. *)
Lemma Close_after_connect_failure :
  Close (set_com_handle_ 3 closed0) =
  Ret (Normal true, set_com_handle_ 3 closed0).
Proof. reflexivity. Qed.

(** ** Close *)

Lemma Close_when_closed (o : SerialInterfaceLinux) :
  is_cmd_opened_ o = false -> Close o = Ret (Normal true, o).
Proof.
  intros H. unfold Close. rewrite mbind_get, H. reflexivity.
Qed.

(** [Close] returns [true] in every state and environment, and leaves the
    object marked closed. *)
Lemma Close_returns_true {OS : Type} (h : @handler OS) (os : OS)
    (o : SerialInterfaceLinux) :
  exists o1 tr os1,
    run h (Close o) os = ((Normal true, o1), tr, os1) /\
    is_cmd_opened_ o1 = false.
Proof.
  destruct o as [t n fd baud opened stop cb].
  destruct opened.
  - unfold Close, close_handle, mbind, get, modify, mret, sys. cbn.
    destruct (fd =? -1); (destruct t as [[i j] |]; [destruct j |]); cbn;
      answer_calls h; do 3 eexists; split; reflexivity.
  - rewrite Close_when_closed by reflexivity. cbn.
    do 3 eexists. split; reflexivity.
Qed.

(** C6: [Close] returns success in every state and whatever the
    environment answers; on an object that is already closed it returns
    success at once, with no call made and the object unchanged; and after
    any first [Close] a second one is such a call without effect. *)
Theorem Close_idempotent :
  (forall (OS : Type) (h : @handler OS) (os : OS) (o : SerialInterfaceLinux),
      fst (fst (fst (run h (Close o) os))) = Normal true) /\
  (forall o : SerialInterfaceLinux,
      is_cmd_opened_ o = false -> Close o = Ret (Normal true, o)) /\
  (forall (OS : Type) (h : @handler OS) (os : OS) (o : SerialInterfaceLinux),
      let o1 := snd (fst (fst (run h (Close o) os))) in
      Close o1 = Ret (Normal true, o1)).
Proof.
  split; [| split].
  - intros OS h os o.
    destruct (Close_returns_true h os o) as (o1 & tr & os1 & -> & _).
    reflexivity.
  - exact Close_when_closed.
  - intros OS h os o.
    destruct (Close_returns_true h os o) as (o1 & tr & os1 & -> & Hc).
    cbn. apply Close_when_closed, Hc.
Qed.

Lemma Close_idempotent_witness :
  Close closed0 = Ret (Normal true, closed0) /\
  (let o1 :=
     snd (fst (fst (run (Env.answer Env.default)
                        (Close (Scenario.opened None)) tt))) in
   Close o1 = Ret (Normal true, o1)).
Proof.
  split.
  - apply (proj1 (proj2 Close_idempotent) closed0). reflexivity.
  - apply (proj2 (proj2 Close_idempotent)).
Defined.

(** ** The conversions of a transfer count *)

Lemma to_int32_sentinel (n : Z) :
  io_result n -> (Int.to_int32 n =? -1) = (n =? -1).
Proof.
  unfold io_result, Int.to_int32.
  change (2 ^ 32) with 4294967296. change (2 ^ 31) with 2147483648.
  intros Hn.
  destruct (Z.eqb_spec n (-1)) as [-> | Hne].
  - reflexivity.
  - apply Z.eqb_neq.
    pose proof (Z.mod_pos_bound (n + 2147483648) 4294967296 eq_refl) as Hb.
    destruct (Z_lt_le_dec n 2147483648) as [Hlt | Hge].
    + rewrite Z.mod_small by lia. lia.
    + replace (n + 2147483648) with (n - 2147483648 + 1 * 4294967296) by lia.
      rewrite Z.mod_add by lia. rewrite Z.mod_small by lia. lia.
Qed.

Lemma to_uint32_to_int32 (n : Z) :
  0 <= n < 2 ^ 32 -> Int.to_uint32 (Int.to_int32 n) = n.
Proof.
  unfold Int.to_uint32, Int.to_int32.
  change (2 ^ 32) with 4294967296. change (2 ^ 31) with 2147483648.
  intros Hn.
  destruct (Z_lt_le_dec n 2147483648) as [Hlt | Hge].
  - rewrite (Z.mod_small (n + 2147483648)) by lia.
    replace (n + 2147483648 - 2147483648) with n by lia.
    apply Z.mod_small. lia.
  - replace (n + 2147483648) with (n - 2147483648 + 1 * 4294967296) by lia.
    rewrite Z.mod_add by lia. rewrite (Z.mod_small (n - 2147483648)) by lia.
    replace (n - 2147483648 - 2147483648) with (n + (-1) * 4294967296) by lia.
    rewrite Z.mod_add by lia. apply Z.mod_small. lia.
Qed.

(** The out-parameter after a transfer that returned [n]. *)
Lemma stored_count (n : Z) (p : out_param) :
  io_result n ->
  (if negb (Int.to_int32 n =? -1) && nonnull p
   then store p (Int.to_uint32 (Int.to_int32 n)) else p) =
  (if n =? -1 then p else store p n).
Proof.
  intros Hn. rewrite (to_int32_sentinel n Hn).
  destruct (Z.eqb_spec n (-1)) as [-> | Hne]; [reflexivity |].
  unfold io_result in Hn.
  rewrite to_uint32_to_int32 by lia.
  destruct p; reflexivity.
Qed.

(** ** ReadFromIO *)

Lemma fd_in_range_true (fd : Z) :
  0 <= fd < Sys.FD_SETSIZE -> fd_in_range fd = true.
Proof.
  intros [Hlo Hhi]. unfold fd_in_range.
  apply andb_true_iff. split; [apply Z.leb_le | apply Z.ltb_lt]; assumption.
Qed.

Lemma fd_in_range_false (fd : Z) :
  ~ (0 <= fd < Sys.FD_SETSIZE) -> fd_in_range fd = false.
Proof.
  intros Hout. unfold fd_in_range.
  destruct (Z.leb_spec 0 fd) as [Hlo | Hlo]; [| reflexivity].
  destruct (Z.ltb_spec fd Sys.FD_SETSIZE) as [Hhi | Hhi]; [| reflexivity].
  exfalso. apply Hout. split; assumption.
Qed.

(** A handle for which [FD_ISSET] is defined indexes the set. *)
Lemma FD_ISSET_in_range (fd : Z) (s : fd_set) (b : bool) :
  FD_ISSET fd s = Some b -> fd_in_range fd = true.
Proof.
  unfold FD_ISSET. destruct (fd_in_range fd); [reflexivity | discriminate].
Qed.

Section ReadFromIO_facts.

Context {OS : Type}.
Variable h : @handler OS.
Variables (rx_buf : list byte) (rx_buf_len : Z) (rx_len : out_param).
Variable o : SerialInterfaceLinux.

(** The read set says the handle is ready: one [read], whose result
    decides the call. *)
Lemma run_read_if_set_ready (fds : fd_set) (os os1 : OS) (n : Z)
    (data : list byte) :
  FD_ISSET (com_handle_ o) fds = Some true ->
  h (ReadFd (com_handle_ o) rx_buf_len) os = ((n, data), os1) ->
  io_result n ->
  run h (read_if_set (com_handle_ o) fds (-1) rx_buf rx_buf_len rx_len o) os =
  ((Normal (negb (n =? -1), overwrite data rx_buf,
            if n =? -1 then rx_len else store rx_len n), o),
   [Ev (ReadFd (com_handle_ o) rx_buf_len) (n, data)], os1).
Proof.
  intros Hset Hread Hn. unfold read_if_set. rewrite Hset.
  rewrite mbind_sys, run_Vis, Hread. cbn.
  rewrite (stored_count n rx_len Hn), (to_int32_sentinel n Hn).
  destruct (n =? -1); reflexivity.
Qed.

(** The read set does not hold the handle: no [read], failure. *)
Lemma run_read_if_set_not_ready (fds : fd_set) (os : OS) :
  FD_ISSET (com_handle_ o) fds = Some false ->
  run h (read_if_set (com_handle_ o) fds (-1) rx_buf rx_buf_len rx_len o) os =
  ((Normal (false, rx_buf, rx_len), o), [], os).
Proof.
  intros Hset. unfold read_if_set. rewrite Hset. reflexivity.
Qed.

Hypothesis Hopen : is_cmd_opened_ o = true.

(** An open object whose handle does not index a descriptor set: the
    call ends in [FD_SET], before any wait. *)
Lemma ReadFromIO_out_of_range :
  ~ handle_in_range o ->
  ReadFromIO rx_buf rx_buf_len rx_len o = Ret (Abort, o).
Proof.
  intros Hout. unfold ReadFromIO, IsOpened.
  rewrite mbind_get, Hopen, mbind_get. unfold FD_SET.
  rewrite (fd_in_range_false _ Hout). reflexivity.
Qed.

Hypothesis Hrange : handle_in_range o.

(** An open object with a handle in range: the call starts with the wait
    and goes on from its answer. *)
Lemma ReadFromIO_open :
  exists k,
    ReadFromIO rx_buf rx_buf_len rx_len o = Vis (wait_call o) k /\
    forall p,
      k p =
      if ps_ret p <? 0 then
        if ps_errno p =? Sys.EINTR
        then Ret (Normal (false, rx_buf, rx_len), o)
        else read_if_set (com_handle_ o) (ps_readfds p) (-1)
               rx_buf rx_buf_len rx_len o
      else if ps_ret p =? 0 then Ret (Normal (false, rx_buf, rx_len), o)
      else read_if_set (com_handle_ o) (ps_readfds p) (-1)
             rx_buf rx_buf_len rx_len o.
Proof.
  unfold ReadFromIO, IsOpened. rewrite mbind_get, Hopen, mbind_get.
  unfold FD_SET. rewrite (fd_in_range_true _ Hrange).
  rewrite mbind_sys. eexists. split; [reflexivity |].
  intros p. cbn beta.
  destruct (ps_ret p <? 0); [destruct (ps_errno p =? Sys.EINTR) |
                             destruct (ps_ret p =? 0)]; reflexivity.
Qed.

(** The wait returned without going on to the read set. *)
Lemma run_ReadFromIO_no_read (os os1 : OS) (p : pselect_ret) :
  h (wait_call o) os = (p, os1) ->
  (ps_ret p < 0 /\ ps_errno p = Sys.EINTR) \/ ps_ret p = 0 ->
  run h (ReadFromIO rx_buf rx_buf_len rx_len o) os =
  ((Normal (false, rx_buf, rx_len), o), [Ev (wait_call o) p], os1).
Proof.
  intros Hwait Hp. destruct ReadFromIO_open as (k & -> & Hk).
  rewrite run_Vis, Hwait, Hk.
  destruct Hp as [[Hneg Hintr] | Hzero].
  - apply Z.ltb_lt in Hneg. rewrite Hneg, Hintr. reflexivity.
  - rewrite Hzero. reflexivity.
Qed.

(** The wait went on to the read set. *)
Lemma run_ReadFromIO_read_set (os os1 : OS) (p : pselect_ret) :
  h (wait_call o) os = (p, os1) ->
  (ps_ret p < 0 /\ ps_errno p <> Sys.EINTR) \/ 0 < ps_ret p ->
  run h (ReadFromIO rx_buf rx_buf_len rx_len o) os =
  (let '(r, tr, os2) :=
     run h (read_if_set (com_handle_ o) (ps_readfds p) (-1)
              rx_buf rx_buf_len rx_len o) os1 in
   (r, Ev (wait_call o) p :: tr, os2)).
Proof.
  intros Hwait Hp. destruct ReadFromIO_open as (k & -> & Hk).
  rewrite run_Vis, Hwait, Hk.
  destruct Hp as [[Hneg Herr] | Hpos].
  - apply Z.ltb_lt in Hneg. apply Z.eqb_neq in Herr.
    rewrite Hneg, Herr. reflexivity.
  - assert ((ps_ret p <? 0) = false) as -> by (apply Z.ltb_ge; lia).
    assert ((ps_ret p =? 0) = false) as -> by (apply Z.eqb_neq; lia).
    reflexivity.
Qed.

End ReadFromIO_facts.

Lemma ReadFromIO_closed (rx_buf : list byte) (rx_buf_len : Z)
    (rx_len : out_param) (o : SerialInterfaceLinux) :
  is_cmd_opened_ o = false ->
  ReadFromIO rx_buf rx_buf_len rx_len o =
  Ret (Normal (false, rx_buf, rx_len), o).
Proof.
  intros Hclosed. unfold ReadFromIO, IsOpened.
  rewrite mbind_get, Hclosed. reflexivity.
Qed.

(** C8: on an object that is not open [ReadFromIO] is a bare return of
    [false]: it makes no call at all (no wait, no read), and the buffer,
    the out-parameter and the object are as they were. *)
Theorem ReadFromIO_not_open (rx_buf : list byte) (rx_buf_len : Z)
    (rx_len : out_param) (o : SerialInterfaceLinux) :
  is_cmd_opened_ o = false ->
  ReadFromIO rx_buf rx_buf_len rx_len o =
  Ret (Normal (false, rx_buf, rx_len), o).
Proof. apply ReadFromIO_closed. Qed.

Lemma ReadFromIO_not_open_witness :
  ReadFromIO [x00; x00] 2 (Some 7) closed0 =
  Ret (Normal (false, [x00; x00], Some 7), closed0).
Proof. apply ReadFromIO_not_open. reflexivity. Defined.

(** C3, as the claim states it, fails on the code: the wait fails with
    [ENOMEM], which is no interrupting signal, and the call is not a
    failure.  The read set still holds the handle, so the read is made;
    it returns the three bytes that are there and the call returns [true]
    with the out-parameter at 3. *)
Lemma ReadFromIO_wait_error_counterexample :
  Scenario.ENOMEM <> Sys.EINTR /\
  run (Env.answer Scenario.wait_fails_data_there)
      (ReadFromIO (repeat x00 8) 8 (Some 0) (Scenario.opened None)) tt =
  ((Normal (true, Scenario.three_bytes ++ repeat x00 5, Some 3),
    Scenario.opened None),
   [Ev (wait_call (Scenario.opened None))
       (Env.wait_error Scenario.ENOMEM [3]);
    Ev (ReadFd 3 8) (3, Scenario.three_bytes)],
   tt).
Proof. split; [discriminate | reflexivity]. Qed.

(** C3 (amended): on an open object whose handle indexes a descriptor set
    (from 0 to [FD_SETSIZE - 1]; with any other handle the call ends in
    [FD_SET] before any wait), [ReadFromIO] first waits on its one handle,
    with the fixed timeout of 100 ms.  A wait interrupted by a signal, or
    one that times out with nothing ready, ends the call with [false]: no
    read is made, the buffer, the out-parameter and the object are
    unchanged.  A wait that fails otherwise does not end the call: it
    goes on to test the read set as the wait left it; with the handle not
    in the set it returns [false] without a read, with the handle in the
    set it makes the read and returns [false] only when the read fails. *)
Theorem ReadFromIO_wait_outcomes {OS : Type} (h : @handler OS)
    (rx_buf : list byte) (rx_buf_len : Z) (rx_len : out_param)
    (o : SerialInterfaceLinux) (os os1 : OS) (p : pselect_ret) :
  is_cmd_opened_ o = true ->
  0 <= com_handle_ o < Sys.FD_SETSIZE ->
  h (wait_call o) os = (p, os1) ->
  (timeout = {| tv_sec := 0; tv_nsec := 100000000 |} /\
   exists k, ReadFromIO rx_buf rx_buf_len rx_len o = Vis (wait_call o) k) /\
  (ps_ret p < 0 -> ps_errno p = Sys.EINTR ->
   run h (ReadFromIO rx_buf rx_buf_len rx_len o) os =
   ((Normal (false, rx_buf, rx_len), o), [Ev (wait_call o) p], os1)) /\
  (ps_ret p = 0 ->
   run h (ReadFromIO rx_buf rx_buf_len rx_len o) os =
   ((Normal (false, rx_buf, rx_len), o), [Ev (wait_call o) p], os1)) /\
  (ps_ret p < 0 -> ps_errno p <> Sys.EINTR ->
   FD_ISSET (com_handle_ o) (ps_readfds p) = Some false ->
   run h (ReadFromIO rx_buf rx_buf_len rx_len o) os =
   ((Normal (false, rx_buf, rx_len), o), [Ev (wait_call o) p], os1)) /\
  (forall (n : Z) (data : list byte) (os2 : OS),
      ps_ret p < 0 -> ps_errno p <> Sys.EINTR ->
      FD_ISSET (com_handle_ o) (ps_readfds p) = Some true ->
      h (ReadFd (com_handle_ o) rx_buf_len) os1 = ((n, data), os2) ->
      io_result n ->
      run h (ReadFromIO rx_buf rx_buf_len rx_len o) os =
      ((Normal (negb (n =? -1), overwrite data rx_buf,
                if n =? -1 then rx_len else store rx_len n), o),
       [Ev (wait_call o) p; Ev (ReadFd (com_handle_ o) rx_buf_len) (n, data)],
       os2)).
Proof.
  intros Hopen Hrange Hwait. repeat split.
  - destruct (ReadFromIO_open rx_buf rx_buf_len rx_len o Hopen Hrange)
      as (k & Hk & _).
    exists k. exact Hk.
  - intros Hneg Hintr. apply run_ReadFromIO_no_read; auto.
  - intros Hzero. apply run_ReadFromIO_no_read; auto.
  - intros Hneg Herr Hset.
    rewrite (run_ReadFromIO_read_set h _ _ _ o Hopen Hrange os os1 p) by auto.
    rewrite run_read_if_set_not_ready by exact Hset. reflexivity.
  - intros n data os2 Hneg Herr Hset Hread Hn.
    rewrite (run_ReadFromIO_read_set h _ _ _ o Hopen Hrange os os1 p) by auto.
    rewrite (run_read_if_set_ready h _ _ _ o _ os1 os2 n data) by assumption.
    reflexivity.
Qed.

Lemma ReadFromIO_wait_outcomes_witness :
  run (Env.answer Scenario.interrupted)
      (ReadFromIO (repeat x00 8) 8 (Some 0) (Scenario.opened None)) tt =
  ((Normal (false, repeat x00 8, Some 0), Scenario.opened None),
   [Ev (wait_call (Scenario.opened None)) (Env.wait_error Sys.EINTR [3])], tt)
  /\
  run (Env.answer Env.default)
      (ReadFromIO (repeat x00 8) 8 (Some 0) (Scenario.opened None)) tt =
  ((Normal (false, repeat x00 8, Some 0), Scenario.opened None),
   [Ev (wait_call (Scenario.opened None)) (Env.timed_out [3])], tt)
  /\
  run (Env.answer Scenario.wait_fails_data_there)
      (ReadFromIO (repeat x00 8) 8 (Some 0) (Scenario.opened None)) tt =
  ((Normal (negb (3 =? -1), overwrite Scenario.three_bytes (repeat x00 8),
            if 3 =? -1 then Some 0 else store (Some 0) 3),
    Scenario.opened None),
   [Ev (wait_call (Scenario.opened None)) (Env.wait_error Scenario.ENOMEM [3]);
    Ev (ReadFd 3 8) (3, Scenario.three_bytes)], tt).
Proof.
  assert (Hrange : 0 <= com_handle_ (Scenario.opened None) < Sys.FD_SETSIZE)
    by (split; [discriminate | reflexivity]).
  split; [| split].
  - apply (proj1 (proj2
             (ReadFromIO_wait_outcomes (Env.answer Scenario.interrupted)
                (repeat x00 8) 8 (Some 0) (Scenario.opened None) tt tt
                (Env.wait_error Sys.EINTR [3]) eq_refl Hrange eq_refl)));
      reflexivity.
  - apply (proj1 (proj2 (proj2
             (ReadFromIO_wait_outcomes (Env.answer Env.default)
                (repeat x00 8) 8 (Some 0) (Scenario.opened None) tt tt
                (Env.timed_out [3]) eq_refl Hrange eq_refl)))).
    reflexivity.
  - apply (proj2 (proj2 (proj2 (proj2
             (ReadFromIO_wait_outcomes
                (Env.answer Scenario.wait_fails_data_there)
                (repeat x00 8) 8 (Some 0) (Scenario.opened None) tt tt
                (Env.wait_error Scenario.ENOMEM [3]) eq_refl Hrange
                eq_refl)))));
      [reflexivity | discriminate | reflexivity | reflexivity |
       unfold io_result; lia].
Defined.

(** C4: on an open object whose handle indexes a descriptor set and is
    reported readable by the wait, [ReadFromIO] makes exactly one read, on
    the handle and into the caller's buffer, for the length it was given.
    It returns [true] unless that read returned the error value; the
    out-parameter then holds the count the read returned, and is
    untouched when the read failed. *)
Theorem ReadFromIO_readable {OS : Type} (h : @handler OS)
    (rx_buf : list byte) (rx_buf_len : Z) (rx_len : out_param)
    (o : SerialInterfaceLinux) (os os1 os2 : OS) (p : pselect_ret)
    (n : Z) (data : list byte) :
  is_cmd_opened_ o = true ->
  0 <= com_handle_ o < Sys.FD_SETSIZE ->
  h (wait_call o) os = (p, os1) ->
  0 < ps_ret p ->
  FD_ISSET (com_handle_ o) (ps_readfds p) = Some true ->
  h (ReadFd (com_handle_ o) rx_buf_len) os1 = ((n, data), os2) ->
  io_result n ->
  run h (ReadFromIO rx_buf rx_buf_len rx_len o) os =
  ((Normal (negb (n =? -1), overwrite data rx_buf,
            if n =? -1 then rx_len else store rx_len n), o),
   [Ev (wait_call o) p; Ev (ReadFd (com_handle_ o) rx_buf_len) (n, data)],
   os2).
Proof.
  intros Hopen Hrange Hwait Hpos Hset Hread Hn.
  rewrite (run_ReadFromIO_read_set h _ _ _ o Hopen Hrange os os1 p) by auto.
  rewrite (run_read_if_set_ready h _ _ _ o _ os1 os2 n data) by assumption.
  reflexivity.
Qed.

Lemma ReadFromIO_readable_witness :
  run (Env.answer Scenario.data_ready)
      (ReadFromIO (repeat x00 8) 8 (Some 0) (Scenario.opened None)) tt =
  ((Normal (true, Scenario.three_bytes ++ repeat x00 5, Some 3),
    Scenario.opened None),
   [Ev (wait_call (Scenario.opened None)) (Env.readable [3]);
    Ev (ReadFd 3 8) (3, Scenario.three_bytes)], tt)
  /\
  run (Env.answer Scenario.read_fails)
      (ReadFromIO (repeat x00 8) 8 (Some 0) (Scenario.opened None)) tt =
  ((Normal (false, repeat x00 8, Some 0), Scenario.opened None),
   [Ev (wait_call (Scenario.opened None)) (Env.readable [3]);
    Ev (ReadFd 3 8) (-1, [])], tt).
Proof.
  assert (Hrange : 0 <= com_handle_ (Scenario.opened None) < Sys.FD_SETSIZE)
    by (split; [discriminate | reflexivity]).
  split.
  - apply (ReadFromIO_readable (Env.answer Scenario.data_ready)
             (repeat x00 8) 8 (Some 0) (Scenario.opened None) tt tt tt
             (Env.readable [3]) 3 Scenario.three_bytes);
      [reflexivity | exact Hrange | reflexivity | reflexivity | reflexivity |
       reflexivity | unfold io_result; lia].
  - apply (ReadFromIO_readable (Env.answer Scenario.read_fails)
             (repeat x00 8) 8 (Some 0) (Scenario.opened None) tt tt tt
             (Env.readable [3]) (-1) []);
      [reflexivity | exact Hrange | reflexivity | reflexivity | reflexivity |
       reflexivity | unfold io_result; lia].
Defined.

(** With a handle outside the descriptor set there is no wait and no
    read: an open object at handle 1100, or at [-1], ends the call in
    [FD_SET]. *)
Lemma ReadFromIO_bad_handle_aborts :
  ReadFromIO (repeat x00 8) 8 (Some 0)
    (set_com_handle_ 1100 (Scenario.opened None)) =
  Ret (Abort, set_com_handle_ 1100 (Scenario.opened None)) /\
  ReadFromIO (repeat x00 8) 8 (Some 0)
    (set_com_handle_ (-1) (Scenario.opened None)) =
  Ret (Abort, set_com_handle_ (-1) (Scenario.opened None)).
Proof. split; reflexivity. Qed.

(** ** WriteToIo *)

(** C5: on an object that is not open [WriteToIo] is a bare return of
    [false], with no call made and the out-parameter unchanged.  On an
    open object it makes exactly one write, of the buffer and length it
    was given; it returns [false] exactly when that write returned the
    error value, and otherwise stores the count the write returned, be it
    less than the length, without a second write. *)
Theorem WriteToIo_single_write :
  (forall (tx_buf : list byte) (tx_buf_len : Z) (tx_len : out_param)
          (o : SerialInterfaceLinux),
      is_cmd_opened_ o = false ->
      WriteToIo tx_buf tx_buf_len tx_len o = Ret (Normal (false, tx_len), o)) /\
  (forall (OS : Type) (h : @handler OS) (tx_buf : list byte) (tx_buf_len : Z)
          (tx_len : out_param) (o : SerialInterfaceLinux) (os os1 : OS)
          (w : sysret),
      is_cmd_opened_ o = true ->
      h (WriteFd (com_handle_ o) tx_buf tx_buf_len) os = (w, os1) ->
      io_result (ret w) ->
      run h (WriteToIo tx_buf tx_buf_len tx_len o) os =
      ((Normal (negb (ret w =? -1),
                if ret w =? -1 then tx_len else store tx_len (ret w)), o),
       [Ev (WriteFd (com_handle_ o) tx_buf tx_buf_len) w], os1)).
Proof.
  split.
  - intros tx_buf tx_buf_len tx_len o Hclosed.
    unfold WriteToIo, IsOpened. rewrite mbind_get, Hclosed. reflexivity.
  - intros OS h tx_buf tx_buf_len tx_len o os os1 w Hopen Hwrite Hw.
    unfold WriteToIo, IsOpened. rewrite mbind_get, Hopen, mbind_get.
    rewrite mbind_sys, run_Vis, Hwrite. cbn.
    rewrite (stored_count (ret w) tx_len Hw), (to_int32_sentinel (ret w) Hw).
    destruct (ret w =? -1); reflexivity.
Qed.

Lemma WriteToIo_single_write_witness :
  WriteToIo Scenario.three_bytes 3 (Some 0) closed0 =
  Ret (Normal (false, Some 0), closed0)
  /\
  run (Env.answer Scenario.short_write)
      (WriteToIo Scenario.three_bytes 3 (Some 0) (Scenario.opened None)) tt =
  ((Normal (true, Some 2), Scenario.opened None),
   [Ev (WriteFd 3 Scenario.three_bytes 3) (Env.fd 2)], tt)
  /\
  run (Env.answer Scenario.write_fails)
      (WriteToIo Scenario.three_bytes 3 (Some 0) (Scenario.opened None)) tt =
  ((Normal (false, Some 0), Scenario.opened None),
   [Ev (WriteFd 3 Scenario.three_bytes 3) (Env.fail 5)], tt).
Proof.
  split; [| split].
  - apply (proj1 WriteToIo_single_write). reflexivity.
  - apply (proj2 WriteToIo_single_write unit
             (Env.answer Scenario.short_write) Scenario.three_bytes 3
             (Some 0) (Scenario.opened None) tt tt (Env.fd 2));
      [reflexivity | reflexivity | unfold io_result; simpl; lia].
  - apply (proj2 WriteToIo_single_write unit
             (Env.answer Scenario.write_fails) Scenario.three_bytes 3
             (Some 0) (Scenario.opened None) tt tt (Env.fail 5));
      [reflexivity | reflexivity | unfold io_result; simpl; lia].
Defined.

(** ** The receiver loop *)

(** On an object where [ReadFromIO] is defined, it returns, never throws,
    never changes the object and never invokes the callback; a non-null
    out-parameter stays non-null. *)
Lemma ReadFromIO_returns {OS : Type} (h : @handler OS) (rx_buf : list byte)
    (rx_buf_len : Z) (rx_len : out_param) (o : SerialInterfaceLinux) (os : OS) :
  read_defined o ->
  exists res buf' out tr os1,
    run h (ReadFromIO rx_buf rx_buf_len rx_len o) os =
    ((Normal (res, buf', out), o), tr, os1) /\
    callbacks tr = [] /\
    nonnull out = nonnull rx_len.
Proof.
  intros Hdef. destruct (is_cmd_opened_ o) eqn:Hopen.
  - specialize (Hdef Hopen).
    destruct (ReadFromIO_open rx_buf rx_buf_len rx_len o Hopen Hdef)
      as (k & -> & Hk).
    rewrite run_Vis. destruct (h (wait_call o) os) as [p os1]. rewrite Hk.
    assert (Hrd : exists res buf' out tr os2,
               run h (read_if_set (com_handle_ o) (ps_readfds p) (-1)
                        rx_buf rx_buf_len rx_len o) os1 =
               ((Normal (res, buf', out), o), tr, os2) /\
               callbacks tr = [] /\ nonnull out = nonnull rx_len).
    { unfold read_if_set, FD_ISSET. rewrite (fd_in_range_true _ Hdef).
      destruct (existsb (Z.eqb (com_handle_ o)) (ps_readfds p)).
      - rewrite mbind_sys, run_Vis.
        destruct (h (ReadFd (com_handle_ o) rx_buf_len) os1) as [[n data] os2].
        cbn. do 5 eexists. split; [reflexivity |]. split; [reflexivity |].
        destruct (negb (Int.to_int32 n =? -1)), rx_len; reflexivity.
      - cbn. do 5 eexists. repeat split. }
    destruct (ps_ret p <? 0); [destruct (ps_errno p =? Sys.EINTR) |
                               destruct (ps_ret p =? 0)]; cbn;
      try (do 5 eexists; repeat split; fail);
      destruct Hrd as (res & buf' & out & tr & os2 & -> & Hcb & Hnn);
      do 5 eexists; (split; [reflexivity |]); (split; [exact Hcb | exact Hnn]).
  - rewrite ReadFromIO_closed by exact Hopen. cbn.
    do 5 eexists. repeat split.
Qed.

Section Body.

Context {OS : Type}.
Variable h : @handler OS.
Variables (rx_buf buf' : list byte) (o : SerialInterfaceLinux).
Variables (os os1 : OS) (res : bool) (n : Z) (tr : list event).

Hypothesis Hread :
  run h (ReadFromIO rx_buf MAX_ACK_BUF_LEN (Some 0) o) os =
  ((Normal (res, buf', Some n), o), tr, os1).

(** The read of the pass did not deliver: the pass ends there. *)
Lemma run_body_idle :
  res = false \/ n = 0 ->
  run h (RxThreadProc_body rx_buf o) os = ((Normal buf', o), tr, os1).
Proof.
  intros Hidle. unfold RxThreadProc_body.
  rewrite (run_mbind_normal h _ _ _ _ _ _ _ _ Hread). cbn [deref].
  assert (res && negb (n =? 0) = false) as ->.
  { destruct Hidle as [-> | ->]; [reflexivity |]. apply andb_false_r. }
  cbn. rewrite app_nil_r. reflexivity.
Qed.

(** The read delivered [n] bytes: they are counted first; then the
    callback, when there is one, is handed them, and the pass ends as the
    callback does. *)
Lemma run_body_delivery :
  res = true -> n <> 0 ->
  run h (RxThreadProc_body rx_buf o) os =
  match read_callback_ o with
  | Some f =>
      ((match fst (h (Callback f buf' n) os1) with
        | None => Normal buf'
        | Some e => Throw e
        end,
        counted o n),
       tr ++ [Ev (Callback f buf' n) (fst (h (Callback f buf' n) os1))],
       snd (h (Callback f buf' n) os1))
  | None => ((Normal buf', counted o n), tr, os1)
  end.
Proof.
  intros -> Hn. unfold RxThreadProc_body.
  rewrite (run_mbind_normal h _ _ _ _ _ _ _ _ Hread). cbn [deref].
  apply Z.eqb_neq in Hn. rewrite Hn. cbn [andb negb].
  rewrite mbind_get, mbind_modify, mbind_get.
  cbn [read_callback_ set_rx_count_].
  destruct (read_callback_ o) as [f |].
  - rewrite mbind_sys, run_Vis.
    destruct (h (Callback f buf' n) os1) as [[e |] os2]; reflexivity.
  - cbn. rewrite app_nil_r. reflexivity.
Qed.

End Body.

(** One pass of the loop, then the rest of the loop on what the pass
    left; a pass that does not return ends the loop. *)
Lemma run_RxThreadProc_step {OS : Type} (h : @handler OS) (fuel : nat)
    (rx_buf : list byte) (o : SerialInterfaceLinux) (os : OS) :
  rx_thread_exit_flag_ o = false ->
  run h (RxThreadProc (S fuel) rx_buf o) os =
  (let '((r, o1), tr1, os1) := run h (RxThreadProc_body rx_buf o) os in
   match r with
   | Normal b =>
       let '(x, tr2, os2) := run h (RxThreadProc fuel b o1) os1 in
       (x, tr1 ++ tr2, os2)
   | Throw e => ((Throw e, o1), tr1, os1)
   | Abort => ((Abort, o1), tr1, os1)
   end).
Proof.
  intros Hflag. cbn [RxThreadProc]. rewrite mbind_get, Hflag. cbn [negb].
  destruct (run h (RxThreadProc_body rx_buf o) os) as [[[r o1] tr1] os1] eqn:E.
  destruct r as [b | e |].
  - rewrite (run_mbind_normal h _ _ _ _ _ _ _ _ E). reflexivity.
  - rewrite (run_mbind_throw h _ _ _ _ _ _ _ _ E). reflexivity.
  - rewrite (run_mbind_abort h _ _ _ _ _ _ _ E). reflexivity.
Qed.

(** C7: on an object where the read is defined (not open, or open with a
    handle that indexes a descriptor set), every pass of the receiver loop
    makes its bounded-wait read, which returns.  When that read succeeds
    with a count [n] other than zero, the pass leaves the byte counter at
    its old value plus exactly [n], every other field as it was, and
    invokes the registered callback on the buffer and [n] as the last
    call of the pass.  The counter is incremented before the callback is
    called: when the callback throws, the exception leaves the pass with
    the counter already incremented.  With no callback registered the
    bytes are counted and nothing else is done with them.  When the read
    fails or its count is zero the pass changes nothing in the object
    and invokes no callback.  The calls of a pass all precede those of
    the passes after it, and there is a next pass only when the pass
    returns. *)
Theorem RxThreadProc_body_delivers :
  (forall (OS : Type) (h : @handler OS) (rx_buf : list byte)
          (o : SerialInterfaceLinux) (os : OS),
      (is_cmd_opened_ o = true -> 0 <= com_handle_ o < Sys.FD_SETSIZE) ->
      exists res buf' n tr os1,
        run h (ReadFromIO rx_buf MAX_ACK_BUF_LEN (Some 0) o) os =
        ((Normal (res, buf', Some n), o), tr, os1) /\
        callbacks tr = []) /\
  (forall (OS : Type) (h : @handler OS) (rx_buf buf' : list byte)
          (o : SerialInterfaceLinux) (os os1 : OS) (res : bool) (n : Z)
          (tr : list event),
      run h (ReadFromIO rx_buf MAX_ACK_BUF_LEN (Some 0) o) os =
      ((Normal (res, buf', Some n), o), tr, os1) ->
      (res = true -> n <> 0 ->
       forall f, read_callback_ o = Some f ->
         let '((r, o1), tr', os') := run h (RxThreadProc_body rx_buf o) os in
         let '(c, os2) := h (Callback f buf' n) os1 in
         rx_count_ o1 = rx_count_ o + n /\
         unchanged_but_count o o1 /\
         tr' = tr ++ [Ev (Callback f buf' n) c] /\
         os' = os2 /\
         r = match c with None => Normal buf' | Some e => Throw e end) /\
      (res = true -> n <> 0 ->
       read_callback_ o = None ->
         let '((r, o1), tr', os') := run h (RxThreadProc_body rx_buf o) os in
         rx_count_ o1 = rx_count_ o + n /\
         unchanged_but_count o o1 /\
         tr' = tr /\ os' = os1 /\ r = Normal buf') /\
      (res = false \/ n = 0 ->
         run h (RxThreadProc_body rx_buf o) os = ((Normal buf', o), tr, os1))) /\
  (forall (OS : Type) (h : @handler OS) (fuel : nat) (rx_buf : list byte)
          (o : SerialInterfaceLinux) (os : OS),
      rx_thread_exit_flag_ o = false ->
      run h (RxThreadProc (S fuel) rx_buf o) os =
      (let '((r, o1), tr1, os1) := run h (RxThreadProc_body rx_buf o) os in
       match r with
       | Normal b =>
           let '(x, tr2, os2) := run h (RxThreadProc fuel b o1) os1 in
           (x, tr1 ++ tr2, os2)
       | Throw e => ((Throw e, o1), tr1, os1)
       | Abort => ((Abort, o1), tr1, os1)
       end)).
Proof.
  split; [| split].
  - intros OS h rx_buf o os Hdef.
    destruct (ReadFromIO_returns h rx_buf MAX_ACK_BUF_LEN (Some 0) o os Hdef)
      as (res & buf' & out & tr & os1 & Hrun & Hcb & Hnn).
    destruct out as [n |]; [| discriminate Hnn].
    exists res, buf', n, tr, os1. split; assumption.
  - intros OS h rx_buf buf' o os os1 res n tr Hread. repeat split.
    + intros Hres Hn f Hf.
      rewrite (run_body_delivery h _ _ _ _ _ _ _ _ Hread Hres Hn), Hf.
      destruct (h (Callback f buf' n) os1) as [c os2].
      repeat split.
    + intros Hres Hn Hf.
      rewrite (run_body_delivery h _ _ _ _ _ _ _ _ Hread Hres Hn), Hf.
      repeat split.
    + apply (run_body_idle h _ _ _ _ _ _ _ _ Hread).
  - intros OS h fuel rx_buf o os. apply run_RxThreadProc_step.
Qed.

Lemma RxThreadProc_body_delivers_witness :
  (let '((r, o1), tr', os') :=
     run (Env.answer Scenario.data_ready)
         (RxThreadProc_body (repeat x00 8) (Scenario.opened (Some 7%nat))) tt in
   let '(c, os2) :=
     Env.answer Scenario.data_ready
       (Callback 7 (Scenario.three_bytes ++ repeat x00 5) 3) tt in
   rx_count_ o1 = rx_count_ (Scenario.opened (Some 7%nat)) + 3 /\
   unchanged_but_count (Scenario.opened (Some 7%nat)) o1 /\
   tr' =
     [Ev (wait_call (Scenario.opened None)) (Env.readable [3]);
      Ev (ReadFd 3 4096) (3, Scenario.three_bytes)] ++
     [Ev (Callback 7 (Scenario.three_bytes ++ repeat x00 5) 3) c] /\
   os' = os2 /\
   r = match c with
       | None => Normal (Scenario.three_bytes ++ repeat x00 5)
       | Some e => Throw e
       end)
  /\
  (let '((r, o1), tr', os') :=
     run (Env.answer Scenario.callback_throws)
         (RxThreadProc_body (repeat x00 8) (Scenario.opened (Some 7%nat))) tt in
   let '(c, os2) :=
     Env.answer Scenario.callback_throws
       (Callback 7 (Scenario.three_bytes ++ repeat x00 5) 3) tt in
   rx_count_ o1 = rx_count_ (Scenario.opened (Some 7%nat)) + 3 /\
   unchanged_but_count (Scenario.opened (Some 7%nat)) o1 /\
   tr' =
     [Ev (wait_call (Scenario.opened None)) (Env.readable [3]);
      Ev (ReadFd 3 4096) (3, Scenario.three_bytes)] ++
     [Ev (Callback 7 (Scenario.three_bytes ++ repeat x00 5) 3) c] /\
   os' = os2 /\
   r = match c with
       | None => Normal (Scenario.three_bytes ++ repeat x00 5)
       | Some e => Throw e
       end)
  /\
  (let '((r, o1), tr', os') :=
     run (Env.answer Scenario.data_ready)
         (RxThreadProc_body (repeat x00 8) (Scenario.opened None)) tt in
   rx_count_ o1 = rx_count_ (Scenario.opened None) + 3 /\
   unchanged_but_count (Scenario.opened None) o1 /\
   tr' =
     [Ev (wait_call (Scenario.opened None)) (Env.readable [3]);
      Ev (ReadFd 3 4096) (3, Scenario.three_bytes)] /\
   os' = tt /\
   r = Normal (Scenario.three_bytes ++ repeat x00 5))
  /\
  run (Env.answer Env.default)
      (RxThreadProc_body (repeat x00 8) (Scenario.opened (Some 7%nat))) tt =
  ((Normal (repeat x00 8), Scenario.opened (Some 7%nat)),
   [Ev (wait_call (Scenario.opened None)) (Env.timed_out [3])], tt)
  /\
  run (Env.answer Env.default)
      (RxThreadProc 1 (repeat x00 8) (Scenario.opened None)) tt =
  ((Normal None, Scenario.opened None),
   [Ev (wait_call (Scenario.opened None)) (Env.timed_out [3])], tt)
  /\
  (exists res buf' n tr os1,
      run (Env.answer Scenario.data_ready)
          (ReadFromIO (repeat x00 8) MAX_ACK_BUF_LEN (Some 0)
             (Scenario.opened None)) tt =
      ((Normal (res, buf', Some n), Scenario.opened None), tr, os1) /\
      callbacks tr = []).
Proof.
  split; [| split; [| split; [| split; [| split]]]].
  - apply (proj1 (proj1 (proj2 RxThreadProc_body_delivers) unit
             (Env.answer Scenario.data_ready) (repeat x00 8)
             (Scenario.three_bytes ++ repeat x00 5)
             (Scenario.opened (Some 7%nat)) tt tt true 3
             [Ev (wait_call (Scenario.opened None)) (Env.readable [3]);
              Ev (ReadFd 3 4096) (3, Scenario.three_bytes)]
             eq_refl));
      [reflexivity | discriminate | reflexivity].
  - apply (proj1 (proj1 (proj2 RxThreadProc_body_delivers) unit
             (Env.answer Scenario.callback_throws) (repeat x00 8)
             (Scenario.three_bytes ++ repeat x00 5)
             (Scenario.opened (Some 7%nat)) tt tt true 3
             [Ev (wait_call (Scenario.opened None)) (Env.readable [3]);
              Ev (ReadFd 3 4096) (3, Scenario.three_bytes)]
             eq_refl));
      [reflexivity | discriminate | reflexivity].
  - apply (proj1 (proj2 (proj1 (proj2 RxThreadProc_body_delivers) unit
             (Env.answer Scenario.data_ready) (repeat x00 8)
             (Scenario.three_bytes ++ repeat x00 5)
             (Scenario.opened None) tt tt true 3
             [Ev (wait_call (Scenario.opened None)) (Env.readable [3]);
              Ev (ReadFd 3 4096) (3, Scenario.three_bytes)]
             eq_refl)));
      [reflexivity | discriminate | reflexivity].
  - apply (proj2 (proj2 (proj1 (proj2 RxThreadProc_body_delivers) unit
             (Env.answer Env.default) (repeat x00 8) (repeat x00 8)
             (Scenario.opened (Some 7%nat)) tt tt false 0
             [Ev (wait_call (Scenario.opened None)) (Env.timed_out [3])]
             eq_refl))).
    left. reflexivity.
  - apply (proj2 (proj2 RxThreadProc_body_delivers) unit
             (Env.answer Env.default) 0%nat (repeat x00 8)
             (Scenario.opened None) tt).
    reflexivity.
  - apply (proj1 RxThreadProc_body_delivers unit
             (Env.answer Scenario.data_ready) (repeat x00 8)
             (Scenario.opened None) tt).
    intros _. split; [discriminate | reflexivity].
Defined.

(** A pass whose callback throws: the three bytes are counted, the
    callback is the last call, and the exception leaves the pass. *)
Lemma RxThreadProc_body_callback_throws :
  run (Env.answer Scenario.callback_throws)
      (RxThreadProc_body (repeat x00 8) (Scenario.opened (Some 7%nat))) tt =
  ((Throw (callback_error 1),
    {| rx_thread_ := Some {| tid := 1; joinable := true |};
       rx_count_ := 3; com_handle_ := 3; com_baudrate_ := 0;
       is_cmd_opened_ := true; rx_thread_exit_flag_ := false;
       read_callback_ := Some 7%nat |}),
   [Ev (wait_call (Scenario.opened None)) (Env.readable [3]);
    Ev (ReadFd 3 4096) (3, Scenario.three_bytes);
    Ev (Callback 7 (Scenario.three_bytes ++ repeat x00 5) 3)
       (Some (callback_error 1))],
   tt).
Proof. reflexivity. Qed.

(** C10: on an open object whose handle indexes a descriptor set and is
    reported readable by the wait, a read that returns zero makes
    [ReadFromIO] return [true] with the out-parameter at zero.  A pass of
    the receiver loop over such a read leaves the object, byte counter
    included, as it was and invokes no callback; so does a pass whose
    wait times out.  At the callback and in the object the two passes
    cannot be told apart. *)
Theorem end_of_stream_like_idle :
  (forall (OS : Type) (h : @handler OS) (rx_buf : list byte) (rx_buf_len : Z)
          (rx_len : out_param) (o : SerialInterfaceLinux) (os os1 os2 : OS)
          (p : pselect_ret) (data : list byte),
      is_cmd_opened_ o = true ->
      0 <= com_handle_ o < Sys.FD_SETSIZE ->
      h (wait_call o) os = (p, os1) ->
      0 < ps_ret p ->
      FD_ISSET (com_handle_ o) (ps_readfds p) = Some true ->
      h (ReadFd (com_handle_ o) rx_buf_len) os1 = ((0, data), os2) ->
      run h (ReadFromIO rx_buf rx_buf_len rx_len o) os =
      ((Normal (true, overwrite data rx_buf, store rx_len 0), o),
       [Ev (wait_call o) p; Ev (ReadFd (com_handle_ o) rx_buf_len) (0, data)],
       os2)) /\
  (forall (OS : Type) (h : @handler OS) (rx_buf : list byte)
          (o : SerialInterfaceLinux) (os os1 os2 : OS)
          (p : pselect_ret) (data : list byte),
      is_cmd_opened_ o = true ->
      0 <= com_handle_ o < Sys.FD_SETSIZE ->
      h (wait_call o) os = (p, os1) ->
      0 < ps_ret p ->
      FD_ISSET (com_handle_ o) (ps_readfds p) = Some true ->
      h (ReadFd (com_handle_ o) MAX_ACK_BUF_LEN) os1 = ((0, data), os2) ->
      exists tr,
        run h (RxThreadProc_body rx_buf o) os =
        ((Normal (overwrite data rx_buf), o), tr, os2) /\
        callbacks tr = []) /\
  (forall (OS : Type) (h : @handler OS) (rx_buf : list byte)
          (o : SerialInterfaceLinux) (os os1 : OS) (p : pselect_ret),
      is_cmd_opened_ o = true ->
      0 <= com_handle_ o < Sys.FD_SETSIZE ->
      h (wait_call o) os = (p, os1) ->
      ps_ret p = 0 ->
      exists tr,
        run h (RxThreadProc_body rx_buf o) os = ((Normal rx_buf, o), tr, os1) /\
        callbacks tr = []).
Proof.
  assert (Hzero : io_result 0) by (unfold io_result; lia).
  split; [| split].
  - intros OS h rx_buf rx_buf_len rx_len o os os1 os2 p data
      Hopen Hrange Hwait Hpos Hset Hread.
    rewrite (run_ReadFromIO_read_set h _ _ _ o Hopen Hrange os os1 p) by auto.
    rewrite (run_read_if_set_ready h _ _ _ o _ os1 os2 0 data) by assumption.
    reflexivity.
  - intros OS h rx_buf o os os1 os2 p data Hopen Hrange Hwait Hpos Hset Hread.
    eexists. split.
    + apply (run_body_idle h rx_buf (overwrite data rx_buf) o os os2 true 0).
      * rewrite (run_ReadFromIO_read_set h _ _ _ o Hopen Hrange os os1 p)
          by auto.
        rewrite (run_read_if_set_ready h _ _ _ o _ os1 os2 0 data)
          by assumption.
        reflexivity.
      * right. reflexivity.
    + reflexivity.
  - intros OS h rx_buf o os os1 p Hopen Hrange Hwait Hp.
    eexists. split.
    + apply (run_body_idle h rx_buf rx_buf o os os1 false 0).
      * apply (run_ReadFromIO_no_read h _ _ _ o Hopen Hrange os os1 p Hwait).
        right. exact Hp.
      * left. reflexivity.
    + reflexivity.
Qed.

Lemma end_of_stream_like_idle_witness :
  run (Env.answer Scenario.end_of_stream)
      (ReadFromIO (repeat x00 8) 8 (Some 5) (Scenario.opened None)) tt =
  ((Normal (true, repeat x00 8, Some 0), Scenario.opened None),
   [Ev (wait_call (Scenario.opened None)) (Env.readable [3]);
    Ev (ReadFd 3 8) (0, [])], tt)
  /\
  (exists tr,
      run (Env.answer Scenario.end_of_stream)
          (RxThreadProc_body (repeat x00 8) (Scenario.opened (Some 7%nat))) tt =
      ((Normal (repeat x00 8), Scenario.opened (Some 7%nat)), tr, tt) /\
      callbacks tr = [])
  /\
  (exists tr,
      run (Env.answer Env.default)
          (RxThreadProc_body (repeat x00 8) (Scenario.opened (Some 7%nat))) tt =
      ((Normal (repeat x00 8), Scenario.opened (Some 7%nat)), tr, tt) /\
      callbacks tr = []).
Proof.
  assert (Hrange : forall cb,
             0 <= com_handle_ (Scenario.opened cb) < Sys.FD_SETSIZE)
    by (intros cb; split; [discriminate | reflexivity]).
  split; [| split].
  - apply (proj1 end_of_stream_like_idle unit
             (Env.answer Scenario.end_of_stream) (repeat x00 8) 8 (Some 5)
             (Scenario.opened None) tt tt tt (Env.readable [3]) []);
      first [apply Hrange | reflexivity].
  - apply (proj1 (proj2 end_of_stream_like_idle) unit
             (Env.answer Scenario.end_of_stream) (repeat x00 8)
             (Scenario.opened (Some 7%nat)) tt tt tt (Env.readable [3]) []);
      first [apply Hrange | reflexivity].
  - apply (proj2 (proj2 end_of_stream_like_idle) unit
             (Env.answer Env.default) (repeat x00 8)
             (Scenario.opened (Some 7%nat)) tt tt (Env.timed_out [3]));
      first [apply Hrange | reflexivity].
Defined.


(** * Further properties of the transport *)

(** ** Which branch [Open] takes *)

Lemma prefix_split (p s : string) :
  String.prefix p s = true -> exists rest, s = (p ++ rest)%string.
Proof.
  revert s. induction p as [| a p IH]; intros s Hp.
  - exists s. reflexivity.
  - destruct s as [| b s]; simpl in Hp; [discriminate |].
    destruct (Ascii.ascii_dec a b) as [-> | _]; [| discriminate].
    destruct (IH s Hp) as [rest ->]. exists rest. reflexivity.
Qed.

Lemma find_at_head (p s : string) :
  Str.find p s = Some 0%nat -> exists rest, s = (p ++ rest)%string.
Proof.
  assert (Hfind : Str.find p s =
                  if String.prefix p s then Some 0%nat
                  else match s with
                       | EmptyString => None
                       | String _ s' => option_map S (Str.find p s')
                       end) by (destruct s; reflexivity).
  rewrite Hfind. destruct (String.prefix p s) eqn:Hp.
  - intros _. apply prefix_split, Hp.
  - destruct s as [| b s]; [discriminate |].
    destruct (Str.find p s); simpl; discriminate.
Qed.

(** A name that does not start with the scheme goes to the serial
    branch. *)
Lemma Open_device (port_name : string) (baud : Z) :
  (forall rest, port_name <> ("tcp://" ++ rest)%string) ->
  Open port_name baud = Open_serial port_name baud.
Proof.
  intros Hno. unfold Open.
  destruct (Str.find "tcp://" port_name) as [[| k] |] eqn:E; try reflexivity.
  apply find_at_head in E. destruct E as [rest ->].
  exfalso. apply (Hno rest). reflexivity.
Qed.

Lemma find_char_present (c : ascii) (s : string) :
  In c (list_ascii_of_string s) -> exists p, Str.find_char c s = Some p.
Proof.
  unfold Str.find_char.
  induction s as [| a s IH]; simpl; [intros [] |].
  intros Hin. destruct (Ascii.ascii_dec c a) as [_ | Hne].
  - destruct s; eexists; reflexivity.
  - destruct Hin as [-> | Hin]; [contradiction |].
    destruct (IH Hin) as [p ->]. eexists. reflexivity.
Qed.

(** X1: every name that does not begin with "tcp://" is treated as a
    device path: the first thing [Open] does is open that very name for
    reading and writing, without making it the controlling terminal and
    without blocking. *)
Theorem Open_device_path_opens_file (port_name : string) (baud : Z)
    (o : SerialInterfaceLinux) :
  (forall rest, port_name <> ("tcp://" ++ rest)%string) ->
  open_flags = 0x902 /\
  exists k, Open port_name baud o = Vis (OpenFile port_name open_flags) k.
Proof.
  intros Hno. split; [reflexivity |].
  rewrite (Open_device port_name baud Hno).
  unfold Open_serial. fold open_flags. cbv zeta.
  rewrite mbind_sys. eexists. reflexivity.
Qed.

Lemma Open_device_path_opens_file_witness :
  exists k, Open "TCP://10.0.0.1:23" 115200 closed0 =
            Vis (OpenFile "TCP://10.0.0.1:23" open_flags) k.
Proof.
  apply (Open_device_path_opens_file "TCP://10.0.0.1:23" 115200 closed0).
  intros rest H. discriminate H.
Defined.

(** X2: a name that begins with "tcp://" and has a ':' anywhere in the
    remainder is never turned down as a bad port name, whatever stands
    before and after the separator: the first thing [Open] does with it is
    create the stream socket. *)
Theorem Open_network_with_separator_creates_socket (rest : string) (baud : Z)
    (o : SerialInterfaceLinux) :
  In ":"%char (list_ascii_of_string rest) ->
  exists k,
    Open ("tcp://" ++ rest)%string baud o =
    Vis (Socket Sys.AF_INET Sys.SOCK_STREAM 0) k.
Proof.
  intros Hin. rewrite Open_scheme. unfold Open_tcp.
  change (Str.substr_from ("tcp://" ++ rest)%string 6) with (Normal rest).
  rewrite mbind_lift_normal.
  destruct (find_char_present _ _ Hin) as [p Hp].
  pose proof (find_char_bound _ _ _ Hp) as Hlt.
  rewrite Hp.
  assert (Hbad : bad_separator (Some p) rest = false).
  { simpl. apply Nat.eqb_neq. lia. }
  rewrite Hbad. unfold Str.substr, Str.substr_from.
  assert ((0 <=? String.length rest)%nat = true) as -> by reflexivity.
  assert ((p + 1 <=? String.length rest)%nat = true) as ->
      by (apply Nat.leb_le; lia).
  rewrite !mbind_lift_normal, mbind_sys. eexists. reflexivity.
Qed.

Lemma Open_network_with_separator_creates_socket_witness :
  exists k,
    Open "tcp://::" 0 closed0 = Vis (Socket Sys.AF_INET Sys.SOCK_STREAM 0) k.
Proof.
  apply (Open_network_with_separator_creates_socket "::" 0 closed0).
  simpl. left. reflexivity.
Defined.

(** ** The serial branch of [Open] *)

Lemma neg1_eqb_false (z : Z) : z <> -1 -> (-1 =? z) = false.
Proof. intros H. apply Z.eqb_neq. lia. Qed.

Lemma eqb_neg1_false (z : Z) : z <> -1 -> (z =? -1) = false.
Proof. intros H. apply Z.eqb_neq. exact H. Qed.

(** A descriptor handed out and closed again is no longer allocated. *)
Lemma remove_head (fd : Z) (fds : list Z) :
  ~ In fd fds -> List.remove Z.eq_dec fd (fd :: fds) = fds.
Proof.
  intros Hnot. simpl. destruct (Z.eq_dec fd fd) as [_ | Hne]; [| contradiction].
  apply notin_remove, Hnot.
Qed.

Section Serial.

Context {OS : Type}.
Variable h : @handler OS.
Variables (port_name : string) (baud : Z) (o : SerialInterfaceLinux).
Variables (os os1 : OS) (f : sysret).

Hypothesis Hpath : forall rest, port_name <> ("tcp://" ++ rest)%string.
Hypothesis Hopen : h (OpenFile port_name open_flags) os = (f, os1).

(** The device cannot be opened. *)
Lemma run_Open_serial_no_device (os2 : OS) :
  ret f = -1 ->
  h (Log (LogErrOpen (errno f))) os1 = (tt, os2) ->
  run h (Open port_name baud o) os =
  ((Normal false, set_com_handle_ (-1) o),
   [Ev (OpenFile port_name open_flags) f; Ev (Log (LogErrOpen (errno f))) tt],
   os2).
Proof.
  intros Hret Hlog. rewrite (Open_device port_name baud Hpath).
  unfold Open_serial. fold open_flags. cbv zeta.
  rewrite mbind_sys, run_Vis, Hopen.
  rewrite mbind_modify, mbind_get. cbn [com_handle_ set_com_handle_].
  rewrite Hret. cbn [Z.eqb Pos.eqb Z.opp].
  rewrite mbind_sys, run_Vis, Hlog. reflexivity.
Qed.

Hypothesis Hfd : ret f <> -1.

(** The device is open; what follows the reading of its attributes. *)
Lemma run_Open_serial_opened (g : sysret * termios) (os2 : OS) :
  h (Tcgetattr (ret f)) os1 = (g, os2) ->
  run h (Open port_name baud o) os =
  (let '(r, tr, os3) :=
     run h
       ((if -1 =? ret (fst g) then
           sys (Log (LogErrTcgetattr (errno (fst g)))) ;;
           close_handle ;;
           mret false
         else
           let options := raw_8N1 (snd g) in
           s <- sys (Tcsetattr (ret f) Sys.TCSANOW options) ;;
           if ret s <? 0 then
             sys (Log (LogErrTcsetattr (errno s))) ;;
             close_handle ;;
             mret false
           else
             sys (Log (LogInfoBaudRate (c_ospeed options))) ;;
             sys (Tcflush (ret f) Sys.TCIFLUSH) ;;
             start_worker)%cpp
          (set_com_baudrate_ baud (set_com_handle_ (ret f) o))) os2 in
   (r, Ev (OpenFile port_name open_flags) f :: Ev (Tcgetattr (ret f)) g :: tr,
    os3)).
Proof.
  intros Hget. rewrite (Open_device port_name baud Hpath).
  unfold Open_serial. fold open_flags. cbv zeta.
  rewrite mbind_sys, run_Vis, Hopen.
  rewrite mbind_modify, mbind_get. cbn [com_handle_ set_com_handle_].
  rewrite (neg1_eqb_false _ Hfd).
  rewrite mbind_modify, mbind_sys, run_Vis, Hget.
  destruct (run h _ os2) as [[r tr] os3]. reflexivity.
Qed.

(** Logging an error, closing the handle and returning [false]. *)
Lemma run_fail_and_close (m : log_msg) (o' : SerialInterfaceLinux)
    (osa osb osc : OS) (c : Z) :
  com_handle_ o' = ret f ->
  h (Log m) osa = (tt, osb) ->
  h (CloseFd (ret f)) osb = (c, osc) ->
  run h ((sys (Log m) ;; close_handle ;; mret false)%cpp o') osa =
  ((Normal false, set_com_handle_ (-1) o'),
   [Ev (Log m) tt; Ev (CloseFd (ret f)) c], osc).
Proof.
  intros Hh Hlog Hclose.
  rewrite mbind_sys, run_Vis, Hlog.
  unfold close_handle, mbind, get, modify, sys, mret. cbn [pbind].
  rewrite Hh, (eqb_neg1_false _ Hfd). cbn [negb pbind].
  rewrite run_Vis, Hclose. reflexivity.
Qed.

End Serial.

(** X3: when the device path cannot be opened, [Open] logs the error and
    returns [false] after that one system call: no descriptor is
    allocated, no worker is started, the baud rate is not recorded, and
    [com_handle_] is left at [-1], whatever it held before. *)
Theorem Open_serial_open_failure {OS : Type} (h : @handler OS)
    (port_name : string) (baud : Z) (o : SerialInterfaceLinux)
    (os os1 os2 : OS) (f : sysret) (fds : list Z) :
  (forall rest, port_name <> ("tcp://" ++ rest)%string) ->
  h (OpenFile port_name open_flags) os = (f, os1) ->
  ret f = -1 ->
  h (Log (LogErrOpen (errno f))) os1 = (tt, os2) ->
  let tr :=
    [Ev (OpenFile port_name open_flags) f;
     Ev (Log (LogErrOpen (errno f))) tt] in
  run h (Open port_name baud o) os =
  ((Normal false, set_com_handle_ (-1) o), tr, os2) /\
  allocated tr fds = fds.
Proof.
  intros Hpath Hopen Hret Hlog tr. split.
  - eapply run_Open_serial_no_device; eassumption.
  - subst tr. cbn. rewrite Hret. reflexivity.
Qed.

Lemma Open_serial_open_failure_witness :
  run (Env.answer SerialScenario.no_permission)
      (Open "/dev/ttyUSB0" 230400 (Scenario.opened None)) tt =
  ((Normal false, set_com_handle_ (-1) (Scenario.opened None)),
   [Ev (OpenFile "/dev/ttyUSB0" open_flags) (Env.fail SerialScenario.EACCES);
    Ev (Log (LogErrOpen SerialScenario.EACCES)) tt], tt) /\
  allocated
    [Ev (OpenFile "/dev/ttyUSB0" open_flags) (Env.fail SerialScenario.EACCES);
     Ev (Log (LogErrOpen SerialScenario.EACCES)) tt] [3] = [3].
Proof.
  apply (Open_serial_open_failure (Env.answer SerialScenario.no_permission)
           "/dev/ttyUSB0" 230400 (Scenario.opened None) tt tt tt
           (Env.fail SerialScenario.EACCES) [3]).
  - intros rest H. discriminate H.
  - reflexivity.
  - reflexivity.
  - reflexivity.
Defined.

(** X4: when the device opens but its attributes cannot be read, or
    cannot be written, [Open] logs the error, closes the descriptor it has
    just opened, puts [com_handle_] back to [-1] and returns [false]; no
    worker is started and nothing stays allocated.  The baud rate has
    been recorded in [com_baudrate_] by then and stays there. *)
Theorem Open_serial_attribute_failure {OS : Type} (h : @handler OS)
    (port_name : string) (baud : Z) (o : SerialInterfaceLinux)
    (os os1 os2 : OS) (f : sysret) (g : sysret * termios) :
  (forall rest, port_name <> ("tcp://" ++ rest)%string) ->
  h (OpenFile port_name open_flags) os = (f, os1) ->
  ret f <> -1 ->
  h (Tcgetattr (ret f)) os1 = (g, os2) ->
  (forall (os3 os4 : OS) (c : Z),
      ret (fst g) = -1 ->
      h (Log (LogErrTcgetattr (errno (fst g)))) os2 = (tt, os3) ->
      h (CloseFd (ret f)) os3 = (c, os4) ->
      let tr :=
        [Ev (OpenFile port_name open_flags) f; Ev (Tcgetattr (ret f)) g;
         Ev (Log (LogErrTcgetattr (errno (fst g)))) tt;
         Ev (CloseFd (ret f)) c] in
      run h (Open port_name baud o) os =
      ((Normal false, set_com_handle_ (-1) (set_com_baudrate_ baud o)),
       tr, os4) /\
      allocated tr [] = []) /\
  (forall (os3 os4 os5 : OS) (s : sysret) (c : Z),
      ret (fst g) <> -1 ->
      h (Tcsetattr (ret f) Sys.TCSANOW (raw_8N1 (snd g))) os2 = (s, os3) ->
      ret s < 0 ->
      h (Log (LogErrTcsetattr (errno s))) os3 = (tt, os4) ->
      h (CloseFd (ret f)) os4 = (c, os5) ->
      let tr :=
        [Ev (OpenFile port_name open_flags) f; Ev (Tcgetattr (ret f)) g;
         Ev (Tcsetattr (ret f) Sys.TCSANOW (raw_8N1 (snd g))) s;
         Ev (Log (LogErrTcsetattr (errno s))) tt;
         Ev (CloseFd (ret f)) c] in
      run h (Open port_name baud o) os =
      ((Normal false, set_com_handle_ (-1) (set_com_baudrate_ baud o)),
       tr, os5) /\
      allocated tr [] = []).
Proof.
  intros Hpath Hopen Hfd Hget.
  split.
  - intros os3 os4 c Hret Hlog Hclose tr. split.
    + rewrite (run_Open_serial_opened h port_name baud o os os1 f
                 Hpath Hopen Hfd g os2 Hget).
      rewrite Hret. cbn [Z.eqb Pos.eqb Z.opp].
      rewrite (run_fail_and_close h f Hfd _
                 (set_com_baudrate_ baud (set_com_handle_ (ret f) o))
                 os2 os3 os4 c eq_refl Hlog Hclose).
      reflexivity.
    + subst tr. cbn.
      destruct (0 <=? ret f) eqn:E; cbn.
      * destruct (Z.eq_dec (ret f) (ret f)); [reflexivity | contradiction].
      * reflexivity.
  - intros os3 os4 os5 s c Hret Hset Hneg Hlog Hclose tr. split.
    + rewrite (run_Open_serial_opened h port_name baud o os os1 f
                 Hpath Hopen Hfd g os2 Hget).
      rewrite (neg1_eqb_false _ Hret). cbv zeta.
      rewrite mbind_sys, run_Vis, Hset.
      apply Z.ltb_lt in Hneg. rewrite Hneg.
      rewrite (run_fail_and_close h f Hfd _
                 (set_com_baudrate_ baud (set_com_handle_ (ret f) o))
                 os3 os4 os5 c eq_refl Hlog Hclose).
      reflexivity.
    + subst tr. cbn.
      destruct (0 <=? ret f) eqn:E; cbn.
      * destruct (Z.eq_dec (ret f) (ret f)); [reflexivity | contradiction].
      * reflexivity.
Qed.

Lemma Open_serial_attribute_failure_witness :
  (let tr :=
     [Ev (OpenFile "/dev/ttyUSB0" open_flags) (Env.fd 3);
      Ev (Tcgetattr 3) (Env.fail Scenario.ENOTTY, Env.zero_termios);
      Ev (Log (LogErrTcgetattr Scenario.ENOTTY)) tt;
      Ev (CloseFd 3) 0] in
   run (Env.answer Scenario.not_a_terminal)
       (Open "/dev/ttyUSB0" 230400 closed0) tt =
   ((Normal false, set_com_handle_ (-1) (set_com_baudrate_ 230400 closed0)),
    tr, tt) /\
   allocated tr [] = [])
  /\
  (let tr :=
     [Ev (OpenFile "/dev/ttyUSB0" open_flags) (Env.fd 3);
      Ev (Tcgetattr 3) (Env.ok, Env.zero_termios);
      Ev (Tcsetattr 3 Sys.TCSANOW (raw_8N1 Env.zero_termios))
         (Env.fail SerialScenario.EIO);
      Ev (Log (LogErrTcsetattr SerialScenario.EIO)) tt;
      Ev (CloseFd 3) 0] in
   run (Env.answer SerialScenario.cannot_set)
       (Open "/dev/ttyUSB0" 230400 closed0) tt =
   ((Normal false, set_com_handle_ (-1) (set_com_baudrate_ 230400 closed0)),
    tr, tt) /\
   allocated tr [] = []).
Proof.
  assert (Hpath : forall rest, "/dev/ttyUSB0" <> ("tcp://" ++ rest)%string)
    by (intros rest H; discriminate H).
  split.
  - apply (proj1 (Open_serial_attribute_failure
                    (Env.answer Scenario.not_a_terminal)
                    "/dev/ttyUSB0" 230400 closed0 tt tt tt (Env.fd 3)
                    (Env.fail Scenario.ENOTTY, Env.zero_termios)
                    Hpath eq_refl ltac:(discriminate) eq_refl) tt tt 0);
      reflexivity.
  - apply (proj2 (Open_serial_attribute_failure
                    (Env.answer SerialScenario.cannot_set)
                    "/dev/ttyUSB0" 230400 closed0 tt tt tt (Env.fd 3)
                    (Env.ok, Env.zero_termios)
                    Hpath eq_refl ltac:(discriminate) eq_refl)
             tt tt tt (Env.fail SerialScenario.EIO) 0);
      [discriminate | reflexivity | reflexivity | reflexivity | reflexivity].
Defined.

(** X5: when the device opens, its attributes can be read and written and
    the thread can be created, [Open] writes back the attributes it has
    read with the raw 8N1 settings applied, at once ([TCSANOW]), logs the
    output speed, flushes the input queue, starts the worker and returns
    [true]: the handle is the new descriptor, the worker is the thread
    that was created, the baud rate is recorded, the exit flag is clear
    and the object is marked open.  The baud rate goes nowhere else: the
    attributes written do not depend on it. *)
Theorem Open_serial_success {OS : Type} (h : @handler OS)
    (port_name : string) (baud : Z) (o : SerialInterfaceLinux)
    (os os1 os2 os3 os4 os5 os6 : OS) (f s : sysret) (g : sysret * termios)
    (q : Z) (t : nat) :
  (forall rest, port_name <> ("tcp://" ++ rest)%string) ->
  h (OpenFile port_name open_flags) os = (f, os1) ->
  ret f <> -1 ->
  h (Tcgetattr (ret f)) os1 = (g, os2) ->
  ret (fst g) <> -1 ->
  h (Tcsetattr (ret f) Sys.TCSANOW (raw_8N1 (snd g))) os2 = (s, os3) ->
  0 <= ret s ->
  h (Log (LogInfoBaudRate (c_ospeed (snd g)))) os3 = (tt, os4) ->
  h (Tcflush (ret f) Sys.TCIFLUSH) os4 = (q, os5) ->
  h ThreadStart os5 = (Some t, os6) ->
  run h (Open port_name baud o) os =
  ((Normal true, opened_with (ret f) t (set_com_baudrate_ baud o)),
   [Ev (OpenFile port_name open_flags) f; Ev (Tcgetattr (ret f)) g;
    Ev (Tcsetattr (ret f) Sys.TCSANOW (raw_8N1 (snd g))) s;
    Ev (Log (LogInfoBaudRate (c_ospeed (snd g)))) tt;
    Ev (Tcflush (ret f) Sys.TCIFLUSH) q;
    Ev ThreadStart (Some t)],
   os6).
Proof.
  intros Hpath Hopen Hfd Hget Hg Hset Hs Hlog Hflush Hthread.
  rewrite (run_Open_serial_opened h port_name baud o os os1 f
             Hpath Hopen Hfd g os2 Hget).
  rewrite (neg1_eqb_false _ Hg). cbv zeta.
  rewrite mbind_sys, run_Vis, Hset.
  assert ((ret s <? 0) = false) as -> by (apply Z.ltb_ge; exact Hs).
  change (c_ospeed (raw_8N1 (snd g))) with (c_ospeed (snd g)).
  rewrite mbind_sys, run_Vis, Hlog.
  rewrite mbind_sys, run_Vis, Hflush.
  unfold start_worker. rewrite mbind_modify, mbind_sys, run_Vis, Hthread.
  reflexivity.
Qed.

Lemma Open_serial_success_witness :
  run (Env.answer Env.default) (Open "/dev/ttyUSB0" 230400 closed0) tt =
  ((Normal true, opened_with 3 1 (set_com_baudrate_ 230400 closed0)),
   [Ev (OpenFile "/dev/ttyUSB0" open_flags) (Env.fd 3);
    Ev (Tcgetattr 3) (Env.ok, Env.zero_termios);
    Ev (Tcsetattr 3 Sys.TCSANOW (raw_8N1 Env.zero_termios)) Env.ok;
    Ev (Log (LogInfoBaudRate 0)) tt;
    Ev (Tcflush 3 Sys.TCIFLUSH) 0;
    Ev ThreadStart (Some 1%nat)],
   tt).
Proof.
  apply (Open_serial_success (Env.answer Env.default) "/dev/ttyUSB0" 230400
           closed0 tt tt tt tt tt tt tt (Env.fd 3) Env.ok
           (Env.ok, Env.zero_termios) 0 1%nat).
  - intros rest H. discriminate H.
  - reflexivity.
  - discriminate.
  - reflexivity.
  - discriminate.
  - reflexivity.
  - simpl. lia.
  - reflexivity.
  - reflexivity.
  - reflexivity.
Defined.

(** ** The line settings *)

Lemma word32_high (c : Z) (n : Z) :
  word32 c -> 32 <= n -> Z.testbit c n = false.
Proof.
  intros Hc Hn. unfold word32 in Hc.
  rewrite <- (Z.mod_small c (2 ^ 32)) by exact Hc.
  apply Z.mod_pow2_bits_high. lia.
Qed.

Lemma word32_of_bits (c : Z) :
  0 <= c -> (forall n, 32 <= n -> Z.testbit c n = false) -> word32 c.
Proof.
  intros Hpos Hhigh. unfold word32.
  assert (Hmod : c mod 2 ^ 32 = c).
  { apply Z.bits_inj'. intros n Hn.
    destruct (Z_lt_le_dec n 32) as [Hlt | Hge].
    - apply Z.mod_pow2_bits_low. exact Hlt.
    - rewrite Z.mod_pow2_bits_high by lia. symmetry. apply Hhigh, Hge. }
  rewrite <- Hmod. apply Z.mod_pos_bound. reflexivity.
Qed.

(** Masking a 32-bit word with the 32-bit complement of [x] clears the
    bits of [x] and nothing else. *)
Lemma land_not32 (c x : Z) :
  word32 c -> Z.land c (Int.to_uint32 (Z.lnot x)) = Z.ldiff c x.
Proof.
  intros Hc. apply Z.bits_inj'. intros n Hn.
  rewrite Z.land_spec, Z.ldiff_spec. unfold Int.to_uint32.
  destruct (Z_lt_le_dec n 32) as [Hlt | Hge].
  - rewrite Z.mod_pow2_bits_low by exact Hlt.
    rewrite Z.lnot_spec by exact Hn. reflexivity.
  - rewrite (word32_high c n Hc Hge). reflexivity.
Qed.

Lemma word32_lor (a b : Z) : word32 a -> word32 b -> word32 (Z.lor a b).
Proof.
  intros Ha Hb. apply word32_of_bits.
  - apply Z.lor_nonneg. unfold word32 in *. lia.
  - intros n Hn. rewrite Z.lor_spec.
    rewrite (word32_high a n Ha Hn), (word32_high b n Hb Hn). reflexivity.
Qed.

Lemma word32_ldiff (a b : Z) : word32 a -> word32 (Z.ldiff a b).
Proof.
  intros Ha. apply word32_of_bits.
  - apply Z.ldiff_nonneg. left. unfold word32 in Ha. lia.
  - intros n Hn. rewrite Z.ldiff_spec, (word32_high a n Ha Hn). reflexivity.
Qed.

Lemma ldiff_clears (c x : Z) : Z.land (Z.ldiff c x) x = 0.
Proof.
  apply Z.bits_inj'. intros n Hn.
  rewrite Z.land_spec, Z.ldiff_spec, Z.bits_0.
  destruct (Z.testbit c n), (Z.testbit x n); reflexivity.
Qed.

Lemma ldiff_keeps (c a x : Z) :
  Z.land a x = 0 -> Z.land (Z.ldiff (Z.lor c a) x) a = a.
Proof.
  intros Hax. apply Z.bits_inj'. intros n Hn.
  assert (Hbit : Z.testbit a n && Z.testbit x n = false)
    by (rewrite <- Z.land_spec, Hax; apply Z.bits_0).
  rewrite Z.land_spec, Z.ldiff_spec, Z.lor_spec.
  destruct (Z.testbit c n), (Z.testbit a n), (Z.testbit x n);
    simpl in *; congruence.
Qed.

Lemma ldiff_ldiff (c x : Z) : Z.ldiff (Z.ldiff c x) x = Z.ldiff c x.
Proof.
  apply Z.bits_inj'. intros n Hn. rewrite !Z.ldiff_spec.
  destruct (Z.testbit c n), (Z.testbit x n); reflexivity.
Qed.

Lemma ldiff_lor_ldiff (c a x : Z) :
  Z.ldiff (Z.lor (Z.ldiff (Z.lor c a) x) a) x = Z.ldiff (Z.lor c a) x.
Proof.
  apply Z.bits_inj'. intros n Hn.
  repeat rewrite ?Z.ldiff_spec, ?Z.lor_spec.
  destruct (Z.testbit c n), (Z.testbit a n), (Z.testbit x n); reflexivity.
Qed.

Lemma array_set_length {A : Type} (l : list A) (i : nat) (v : A) :
  List.length (array_set l i v) = List.length l.
Proof.
  revert i. induction l as [| a l IH]; intros [| i]; simpl; auto.
Qed.

Lemma nth_array_set {A : Type} (l : list A) (i j : nat) (v d : A) :
  (i < List.length l)%nat ->
  nth j (array_set l i v) d = if (j =? i)%nat then v else nth j l d.
Proof.
  revert i j. induction l as [| a l IH]; intros i j Hi; simpl in Hi; [lia |].
  destruct i as [| i], j as [| j]; simpl; try reflexivity.
  apply IH. lia.
Qed.

Lemma array_set_twice {A : Type} (l : list A) (i j : nat) (v : A) :
  array_set (array_set (array_set (array_set l i v) j v) i v) j v =
  array_set (array_set l i v) j v.
Proof.
  revert i j. induction l as [| a l IH]; intros i j; [reflexivity |].
  destruct i as [| i], j as [| j]; simpl; f_equal.
  - clear. revert j. induction l as [| b l IH]; intros [| j]; simpl;
      f_equal; auto.
  - clear. revert i. induction l as [| b l IH]; intros [| i]; simpl;
      f_equal; auto.
  - apply IH.
Qed.

(** The flag words [raw_8N1] computes, as plain bit operations. *)
Lemma raw_8N1_flags (t : termios) :
  word32 (c_iflag t) -> word32 (c_oflag t) ->
  word32 (c_cflag t) -> word32 (c_lflag t) ->
  c_cflag (raw_8N1 t) = Z.ldiff (Z.lor (c_cflag t) cflag_set) cflag_clear /\
  c_lflag (raw_8N1 t) = Z.ldiff (c_lflag t) lflag_clear /\
  c_oflag (raw_8N1 t) = Z.ldiff (c_oflag t) oflag_clear /\
  c_iflag (raw_8N1 t) = Z.ldiff (c_iflag t) iflag_clear.
Proof.
  intros Hi Ho Hc Hl. unfold raw_8N1. cbn [c_cflag c_lflag c_oflag c_iflag].
  fold cflag_set cflag_clear lflag_clear oflag_clear iflag_clear.
  change (Int.to_uint32 cflag_set) with cflag_set.
  repeat split; apply land_not32; try assumption.
  apply word32_lor; [assumption |]. unfold word32. split; [discriminate | reflexivity].
Qed.

Lemma ldiff_keeps_part (c s x a : Z) :
  Z.land a s = a -> Z.land a x = 0 ->
  Z.land (Z.ldiff (Z.lor c s) x) a = a.
Proof.
  intros Has Hax. apply Z.bits_inj'. intros n Hn.
  assert (Hs : Z.testbit a n && Z.testbit s n = Z.testbit a n)
    by (rewrite <- Z.land_spec, Has; reflexivity).
  assert (Hx : Z.testbit a n && Z.testbit x n = false)
    by (rewrite <- Z.land_spec, Hax; apply Z.bits_0).
  rewrite Z.land_spec, Z.ldiff_spec, Z.lor_spec.
  destruct (Z.testbit c n), (Z.testbit a n), (Z.testbit s n),
    (Z.testbit x n); simpl in *; congruence.
Qed.

Lemma ldiff_clears_part (c x a : Z) :
  Z.land a x = a -> Z.land (Z.ldiff c x) a = 0.
Proof.
  intros Hax. apply Z.bits_inj'. intros n Hn.
  assert (Hx : Z.testbit a n && Z.testbit x n = Z.testbit a n)
    by (rewrite <- Z.land_spec, Hax; reflexivity).
  rewrite Z.land_spec, Z.ldiff_spec, Z.bits_0.
  destruct (Z.testbit c n), (Z.testbit a n), (Z.testbit x n);
    simpl in *; congruence.
Qed.

(** X6: the settings [Open] writes to the line.  Whatever 32-bit flag
    words the terminal had, afterwards the character size is 8 bits, the
    receiver is enabled and the modem control lines are ignored; there is
    one stop bit and no parity; canonical mode, every echo flag, signal
    generation and extended input processing are off; output
    post-processing is off; XON/XOFF flow control and every CR/NL
    translation and the ignoring of breaks are off; a read returns at
    once ([VMIN] and [VTIME] are zero).  No other flag bit, no other
    control character and neither speed is changed. *)
Theorem raw_8N1_line_settings (t : termios) :
  word32 (c_iflag t) -> word32 (c_oflag t) ->
  word32 (c_cflag t) -> word32 (c_lflag t) ->
  (Sys.VMIN < List.length (c_cc t))%nat ->
  let r := raw_8N1 t in
  (Z.land (c_cflag r) Sys.CS8 = Sys.CS8 /\
   Z.land (c_cflag r) Sys.CREAD = Sys.CREAD /\
   Z.land (c_cflag r) Sys.CLOCAL = Sys.CLOCAL /\
   Z.land (c_cflag r) Sys.CSTOPB = 0 /\
   Z.land (c_cflag r) Sys.PARENB = 0) /\
  (Z.land (c_lflag r) lflag_clear = 0 /\
   Z.land (c_oflag r) Sys.OPOST = 0 /\
   Z.land (c_iflag r) iflag_clear = 0) /\
  (nth Sys.VMIN (c_cc r) 1 = 0 /\ nth Sys.VTIME (c_cc r) 1 = 0) /\
  (forall n, 0 <= n ->
     (Z.testbit (Z.lor cflag_set cflag_clear) n = false ->
      Z.testbit (c_cflag r) n = Z.testbit (c_cflag t) n) /\
     (Z.testbit lflag_clear n = false ->
      Z.testbit (c_lflag r) n = Z.testbit (c_lflag t) n) /\
     (Z.testbit oflag_clear n = false ->
      Z.testbit (c_oflag r) n = Z.testbit (c_oflag t) n) /\
     (Z.testbit iflag_clear n = false ->
      Z.testbit (c_iflag r) n = Z.testbit (c_iflag t) n)) /\
  (forall (j : nat) (d : Z), j <> Sys.VMIN -> j <> Sys.VTIME ->
     nth j (c_cc r) d = nth j (c_cc t) d) /\
  List.length (c_cc r) = List.length (c_cc t) /\
  c_ispeed r = c_ispeed t /\ c_ospeed r = c_ospeed t.
Proof.
  intros Hi Ho Hc Hl Hcc r.
  destruct (raw_8N1_flags t Hi Ho Hc Hl) as (Ec & El & Eo & Ei).
  fold r in Ec, El, Eo, Ei.
  split; [| split; [| split; [| split; [| split; [| split]]]]].
  - rewrite Ec. repeat split;
      first [apply ldiff_keeps_part; reflexivity
            | apply ldiff_clears_part; reflexivity].
  - rewrite El, Eo, Ei. repeat split; apply ldiff_clears.
  - subst r. unfold raw_8N1. cbn [c_cc]. unfold Sys.VMIN, Sys.VTIME in *.
    rewrite !nth_array_set by (rewrite ?array_set_length; lia).
    split; reflexivity.
  - intros n Hn. rewrite Ec, El, Eo, Ei.
    repeat rewrite ?Z.ldiff_spec, ?Z.lor_spec.
    repeat split; intros Hbit.
    + apply orb_false_elim in Hbit. destruct Hbit as [-> ->].
      rewrite orb_false_r, andb_true_r. reflexivity.
    + rewrite Hbit, andb_true_r. reflexivity.
    + rewrite Hbit, andb_true_r. reflexivity.
    + rewrite Hbit, andb_true_r. reflexivity.
  - intros j d Hj1 Hj2. subst r. unfold raw_8N1. cbn [c_cc].
    unfold Sys.VMIN, Sys.VTIME in *.
    rewrite !nth_array_set by (rewrite ?array_set_length; lia).
    destruct (Nat.eqb_spec j 5) as [-> | _]; [contradiction |].
    destruct (Nat.eqb_spec j 6) as [-> | _]; [contradiction |].
    reflexivity.
  - subst r. unfold raw_8N1. cbn [c_cc]. rewrite !array_set_length.
    reflexivity.
  - split; reflexivity.
Qed.

Lemma raw_8N1_line_settings_witness :
  raw_8N1 SerialScenario.cooked =
  {| c_iflag := 0; c_oflag := 0x4; c_cflag := 0x8b0; c_lflag := 0xa00;
     c_cc := [3; 28; 127; 21; 4; 0; 0; 0; 17; 19; 26; 0; 18; 15; 23; 22;
              0; 0; 0; 0; 0; 0; 0; 0; 0; 0; 0; 0; 0; 0; 0; 0];
     c_ispeed := 13; c_ospeed := 13 |} /\
  Z.land (c_cflag (raw_8N1 SerialScenario.cooked)) Sys.CS8 = Sys.CS8 /\
  Z.land (c_lflag (raw_8N1 SerialScenario.cooked)) lflag_clear = 0 /\
  nth Sys.VMIN (c_cc (raw_8N1 SerialScenario.cooked)) 1 = 0.
Proof.
  assert (Wi : word32 (c_iflag SerialScenario.cooked))
    by (split; [discriminate | reflexivity]).
  assert (Wo : word32 (c_oflag SerialScenario.cooked))
    by (split; [discriminate | reflexivity]).
  assert (Wc : word32 (c_cflag SerialScenario.cooked))
    by (split; [discriminate | reflexivity]).
  assert (Wl : word32 (c_lflag SerialScenario.cooked))
    by (split; [discriminate | reflexivity]).
  pose proof (raw_8N1_line_settings SerialScenario.cooked Wi Wo Wc Wl
                ltac:(unfold Sys.VMIN; simpl; lia)) as H.
  cbv zeta in H.
  split; [reflexivity |].
  split; [exact (proj1 (proj1 H)) |].
  split; [exact (proj1 (proj1 (proj2 H))) |].
  exact (proj1 (proj1 (proj2 (proj2 H)))).
Defined.

(** X7: applying the line settings is idempotent: applied to attributes
    that already carry them, they change nothing, so opening a device
    again finds and writes the same attributes. *)
Theorem raw_8N1_idempotent (t : termios) :
  word32 (c_iflag t) -> word32 (c_oflag t) ->
  word32 (c_cflag t) -> word32 (c_lflag t) ->
  raw_8N1 (raw_8N1 t) = raw_8N1 t.
Proof.
  intros Hi Ho Hc Hl.
  destruct (raw_8N1_flags t Hi Ho Hc Hl) as (Ec & El & Eo & Ei).
  assert (Hi' : word32 (c_iflag (raw_8N1 t)))
    by (rewrite Ei; apply word32_ldiff, Hi).
  assert (Ho' : word32 (c_oflag (raw_8N1 t)))
    by (rewrite Eo; apply word32_ldiff, Ho).
  assert (Hl' : word32 (c_lflag (raw_8N1 t)))
    by (rewrite El; apply word32_ldiff, Hl).
  assert (Hc' : word32 (c_cflag (raw_8N1 t))).
  { rewrite Ec. apply word32_ldiff, word32_lor; [exact Hc |].
    split; [discriminate | reflexivity]. }
  destruct (raw_8N1_flags (raw_8N1 t) Hi' Ho' Hc' Hl') as (Fc & Fl & Fo & Fi).
  rewrite Ec in Fc. rewrite ldiff_lor_ldiff, <- Ec in Fc.
  rewrite El in Fl. rewrite ldiff_ldiff, <- El in Fl.
  rewrite Eo in Fo. rewrite ldiff_ldiff, <- Eo in Fo.
  rewrite Ei in Fi. rewrite ldiff_ldiff, <- Ei in Fi.
  assert (Fcc : c_cc (raw_8N1 (raw_8N1 t)) = c_cc (raw_8N1 t))
    by apply array_set_twice.
  destruct (raw_8N1 (raw_8N1 t)) as [i2 o2 c2 l2 cc2 is2 os2] eqn:E2.
  assert (His : is2 = c_ispeed t) by (apply (f_equal c_ispeed) in E2; symmetry; exact E2).
  assert (Hos : os2 = c_ospeed t) by (apply (f_equal c_ospeed) in E2; symmetry; exact E2).
  cbn [c_iflag c_oflag c_cflag c_lflag c_cc] in Fc, Fl, Fo, Fi, Fcc.
  subst. reflexivity.
Qed.

Lemma raw_8N1_idempotent_witness :
  raw_8N1 (raw_8N1 SerialScenario.cooked) = raw_8N1 SerialScenario.cooked.
Proof.
  apply raw_8N1_idempotent; split; first [discriminate | reflexivity].
Defined.

(** ** The network branch of [Open] *)

(** X8: for a descriptor "tcp://host:port" whose port text is a number
    and whose connect does not fail, [Open] creates the socket, connects
    it to the address [inet_pton] made of the host (the zero address when
    the host is no address) and to the port reduced to 16 bits, adds
    [O_NONBLOCK] to the flags the socket has, starts the worker and,
    when the thread can be created, returns [true]: the handle is the
    socket, the worker is the thread that was created, the exit flag is
    clear and the object is marked open.  The baud rate is ignored. *)
Theorem Open_tcp_success {OS : Type} (h : @handler OS)
    (host port : string) (baud p : Z) (o : SerialInterfaceLinux)
    (os os1 os2 os3 os4 os5 os6 os7 : OS) (s c : sysret) (a : option Z)
    (fl q : Z) (t : nat) :
  ~ In ":"%char (list_ascii_of_string host) ->
  Str.stoi port = Normal p ->
  h (Socket Sys.AF_INET Sys.SOCK_STREAM 0) os = (s, os1) ->
  h (Log (LogInfoOpen host port)) os1 = (tt, os2) ->
  h (InetPton Sys.AF_INET host) os2 = (a, os3) ->
  let remote :=
    {| sin_family := Sys.AF_INET;
       sin_port := htons (Int.to_uint16 p);
       sin_addr := match a with Some v => v | None => 0 end |} in
  h (Connect (ret s) remote Sys.sizeof_sockaddr_in) os3 = (c, os4) ->
  0 <= ret c ->
  h (Fcntl (ret s) Sys.F_GETFL 0) os4 = (fl, os5) ->
  h (Fcntl (ret s) Sys.F_SETFL (Z.lor fl Sys.O_NONBLOCK)) os5 = (q, os6) ->
  h ThreadStart os6 = (Some t, os7) ->
  run h (Open (descriptor host port) baud o) os =
  ((Normal true, opened_with (ret s) t o),
   [Ev (Socket Sys.AF_INET Sys.SOCK_STREAM 0) s;
    Ev (Log (LogInfoOpen host port)) tt;
    Ev (InetPton Sys.AF_INET host) a;
    Ev (Connect (ret s) remote Sys.sizeof_sockaddr_in) c;
    Ev (Fcntl (ret s) Sys.F_GETFL 0) fl;
    Ev (Fcntl (ret s) Sys.F_SETFL (Z.lor fl Sys.O_NONBLOCK)) q;
    Ev ThreadStart (Some t)],
   os7).
Proof.
  intros Hhost Hport Hsock Hlog Hpton remote Hconn Hok Hget Hset Hthread.
  rewrite (Open_scheme (host ++ ":" ++ port) baud
           : Open (descriptor host port) baud =
             Open_tcp (descriptor host port)).
  rewrite (Open_tcp_split host port o Hhost).
  rewrite run_Vis, Hsock.
  rewrite mbind_sys, run_Vis, Hlog.
  rewrite mbind_sys, run_Vis, Hpton.
  rewrite Hport, mbind_lift_normal, mbind_get, mbind_sys.
  cbn [com_handle_ set_com_handle_].
  rewrite run_Vis. fold remote. rewrite Hconn.
  assert ((ret c <? 0) = false) as -> by (apply Z.ltb_ge; exact Hok).
  rewrite mbind_sys, run_Vis, Hget. cbv zeta.
  rewrite mbind_sys, run_Vis, Hset.
  unfold start_worker. rewrite mbind_modify, mbind_sys, run_Vis, Hthread.
  reflexivity.
Qed.

Lemma Open_tcp_success_witness :
  run (Env.answer Env.default)
      (Open (descriptor "127.0.0.1" "9000") 115200 closed0) tt =
  ((Normal true, opened_with 3 1 closed0),
   [Ev (Socket Sys.AF_INET Sys.SOCK_STREAM 0) (Env.fd 3);
    Ev (Log (LogInfoOpen "127.0.0.1" "9000")) tt;
    Ev (InetPton Sys.AF_INET "127.0.0.1") (Some 0x7f000001);
    Ev (Connect 3
          {| sin_family := Sys.AF_INET; sin_port := (35, 40);
             sin_addr := 0x7f000001 |} Sys.sizeof_sockaddr_in) Env.ok;
    Ev (Fcntl 3 Sys.F_GETFL 0) 2;
    Ev (Fcntl 3 Sys.F_SETFL 0x802) 2;
    Ev ThreadStart (Some 1%nat)],
   tt).
Proof.
  apply (Open_tcp_success (Env.answer Env.default) "127.0.0.1" "9000"
           115200 9000 closed0 tt tt tt tt tt tt tt tt (Env.fd 3) Env.ok
           (Some 0x7f000001) 2 2 1%nat).
  - simpl. intros H.
    repeat (destruct H as [H | H]; [discriminate H |]). exact H.
  - reflexivity.
  - reflexivity.
  - reflexivity.
  - reflexivity.
  - reflexivity.
  - simpl. lia.
  - reflexivity.
  - reflexivity.
  - reflexivity.
Defined.

(** X9: for a descriptor "tcp://host:port" whose port text [std::stoi]
    rejects (no digits: [invalid_argument]; outside [int]:
    [out_of_range]), [Open] does not return: the exception leaves it
    after the socket has been created and before any connect.  The
    socket is not closed; its descriptor stays in [com_handle_] and the
    object is not marked open. *)
Theorem Open_tcp_port_rejected {OS : Type} (h : @handler OS)
    (host port : string) (baud : Z) (e : exn) (o : SerialInterfaceLinux)
    (os os1 os2 os3 : OS) (s : sysret) (a : option Z) :
  ~ In ":"%char (list_ascii_of_string host) ->
  Str.stoi port = Throw e ->
  h (Socket Sys.AF_INET Sys.SOCK_STREAM 0) os = (s, os1) ->
  h (Log (LogInfoOpen host port)) os1 = (tt, os2) ->
  h (InetPton Sys.AF_INET host) os2 = (a, os3) ->
  let tr :=
    [Ev (Socket Sys.AF_INET Sys.SOCK_STREAM 0) s;
     Ev (Log (LogInfoOpen host port)) tt;
     Ev (InetPton Sys.AF_INET host) a] in
  run h (Open (descriptor host port) baud o) os =
  ((Throw e, set_com_handle_ (ret s) o), tr, os3) /\
  (0 <= ret s -> allocated tr [] = [ret s]).
Proof.
  intros Hhost Hport Hsock Hlog Hpton tr. split.
  - rewrite (Open_scheme (host ++ ":" ++ port) baud
             : Open (descriptor host port) baud =
               Open_tcp (descriptor host port)).
    rewrite (Open_tcp_split host port o Hhost).
    rewrite run_Vis, Hsock.
    rewrite mbind_sys, run_Vis, Hlog.
    rewrite mbind_sys, run_Vis, Hpton.
    rewrite Hport. reflexivity.
  - intros Hfd. subst tr. cbn.
    apply Z.leb_le in Hfd. rewrite Hfd. reflexivity.
Qed.

Lemma Open_tcp_port_rejected_witness :
  (let tr :=
     [Ev (Socket Sys.AF_INET Sys.SOCK_STREAM 0) (Env.fd 3);
      Ev (Log (LogInfoOpen "10.0.0.7" "telnet")) tt;
      Ev (InetPton Sys.AF_INET "10.0.0.7") (Some 0x7f000001)] in
   run (Env.answer Env.default)
       (Open (descriptor "10.0.0.7" "telnet") 0 closed0) tt =
   ((Throw invalid_argument, set_com_handle_ 3 closed0), tr, tt) /\
   (0 <= 3 -> allocated tr [] = [3]))
  /\
  (let tr :=
     [Ev (Socket Sys.AF_INET Sys.SOCK_STREAM 0) (Env.fd 3);
      Ev (Log (LogInfoOpen "10.0.0.7" "4294967296")) tt;
      Ev (InetPton Sys.AF_INET "10.0.0.7") (Some 0x7f000001)] in
   run (Env.answer Env.default)
       (Open (descriptor "10.0.0.7" "4294967296") 0 closed0) tt =
   ((Throw out_of_range, set_com_handle_ 3 closed0), tr, tt) /\
   (0 <= 3 -> allocated tr [] = [3])).
Proof.
  assert (Hhost : ~ In ":"%char (list_ascii_of_string "10.0.0.7")).
  { simpl. intros H.
    repeat (destruct H as [H | H]; [discriminate H |]). exact H. }
  split.
  - apply (Open_tcp_port_rejected (Env.answer Env.default) "10.0.0.7" "telnet"
             0 invalid_argument closed0 tt tt tt tt (Env.fd 3)
             (Some 0x7f000001) Hhost eq_refl eq_refl eq_refl eq_refl).
  - apply (Open_tcp_port_rejected (Env.answer Env.default) "10.0.0.7"
             "4294967296" 0 out_of_range closed0 tt tt tt tt (Env.fd 3)
             (Some 0x7f000001) Hhost eq_refl eq_refl eq_refl eq_refl).
Defined.

(** ** What every [Open] guarantees *)

(** The library functions end in a return or in one of their own
    exceptions. *)
Lemma substr_from_outcome (s : string) (pos : nat) :
  (exists v, Str.substr_from s pos = Normal v) \/
  Str.substr_from s pos = Throw out_of_range.
Proof.
  unfold Str.substr_from. destruct (pos <=? String.length s)%nat; eauto.
Qed.

Lemma substr_outcome (s : string) (pos n : nat) :
  (exists v, Str.substr s pos n = Normal v) \/
  Str.substr s pos n = Throw out_of_range.
Proof.
  unfold Str.substr. destruct (pos <=? String.length s)%nat; eauto.
Qed.

Lemma stoi_outcome (s : string) :
  (exists v, Str.stoi s = Normal v) \/
  Str.stoi s = Throw invalid_argument \/
  Str.stoi s = Throw out_of_range.
Proof.
  unfold Str.stoi.
  destruct (match Str.skip_spaces s with
            | String "-"%char r => (true, r)
            | String "+"%char r => (false, r)
            | _ => (false, Str.skip_spaces s)
            end) as [neg s2].
  destruct (Str.digits s2 0 false) as [v |]; [| auto].
  destruct ((Int.INT_MIN <=? (if neg then - v else v)) &&
            ((if neg then - v else v) <=? Int.INT_MAX)); eauto.
Qed.

(** Split on how a library function ends. *)
Ltac library_outcome x :=
  match x with
  | Str.stoi ?s =>
      let E := fresh "E" in
      destruct (stoi_outcome s) as [[? E] | [E | E]]; rewrite E
  | Str.substr ?s ?p ?n =>
      let E := fresh "E" in
      destruct (substr_outcome s p n) as [[? E] | E]; rewrite E
  | Str.substr_from ?s ?p =>
      let E := fresh "E" in
      destruct (substr_from_outcome s p) as [[? E] | E]; rewrite E
  end.

(** Take the run of the goal one step further: name the answer to the
    next call, or split on the next test. *)
Ltac open_step h :=
  match goal with
  | |- context [h ?c ?s] =>
      let r := fresh "r" in
      let os := fresh "os" in
      destruct (h c s) as [r os]
  | |- context [match ?x with Normal _ => _ | Throw _ => _ | Abort => _ end] =>
      library_outcome x
  | |- context [match ?x with Some _ => _ | None => _ end] =>
      destruct x
  | |- context [if ?b then _ else _] =>
      let E := fresh "E" in destruct b eqn:E
  end.

Ltac open_run h :=
  repeat (cbn -[raw_8N1 htons Int.to_uint16 Z.lor Z.eqb Z.ltb Z.leb
                Str.stoi Str.substr Str.substr_from Str.find_char
                bad_separator allocated];
          open_step h).

Lemma Open_serial_post {OS : Type} (h : @handler OS) (port_name : string)
    (baud : Z) (o : SerialInterfaceLinux) (os : OS) (fds : list Z) :
  let '((r, o1), tr, _) := run h (Open_serial port_name baud o) os in
  Open_post o fds r o1 tr.
Proof.
  unfold Open_serial, close_handle, start_worker, mbind, sys, get, modify,
    mret, mthrow, Open_post.
  open_run h.
  all: cbn; repeat split; eauto.
  all: try (match goal with H : (0 <=? _) = _ |- _ => rewrite H end; reflexivity).
Qed.

Lemma Open_tcp_post {OS : Type} (h : @handler OS) (port_name : string)
    (o : SerialInterfaceLinux) (os : OS) (fds : list Z) :
  let '((r, o1), tr, _) := run h (Open_tcp port_name o) os in
  Open_post o fds r o1 tr.
Proof.
  unfold Open_tcp, start_worker, mbind, sys, get, modify, mret, mthrow, lift,
    Open_post.
  open_run h.
  all: cbn; repeat split; eauto.
  all: try (match goal with H : (0 <=? _) = _ |- _ => rewrite H end; reflexivity).
Qed.

(** The postcondition, on every path of [Open]. *)
Lemma Open_run_post {OS : Type} (h : @handler OS) (port_name : string)
    (baud : Z) (o : SerialInterfaceLinux) (os : OS) (fds : list Z) :
  let '((r, o1), tr, _) := run h (Open port_name baud o) os in
  Open_post o fds r o1 tr.
Proof.
  unfold Open.
  destruct (Str.find "tcp://" port_name) as [[| k] |].
  - apply Open_tcp_post.
  - apply Open_serial_post.
  - apply Open_serial_post.
Qed.

(** X10: whatever the name, the baud rate, the state of the object and the
    answers of the system, [Open] never touches the byte counter or the
    registered callback and never joins a worker.  It returns [true] only
    with the object marked open, the exit flag clear, exactly one thread
    started and that very thread kept in [rx_thread_], no descriptor
    closed, and its handle as the one descriptor it acquired.  When the
    thread cannot be started the exception leaves [Open] with the open
    mark and [rx_thread_] as they were, but with the exit flag already
    cleared and the acquired descriptor still allocated.  On every other
    outcome, a return of [false] or an exception of the port parsing, no
    thread start has been attempted and the open mark, the exit flag and
    [rx_thread_] are as they were before the call. *)
Theorem Open_outcome {OS : Type} (h : @handler OS) (port_name : string)
    (baud : Z) (o : SerialInterfaceLinux) (os : OS) (fds : list Z) :
  let '((r, o1), tr, _) := run h (Open port_name baud o) os in
  Open_post o fds r o1 tr.
Proof. exact (Open_run_post h port_name baud o os fds). Qed.

(** ** [Close] on an open object, and [Open] followed by [Close] *)

Lemma allocated_app (tr1 tr2 : list event) (fds : list Z) :
  allocated (tr1 ++ tr2) fds = allocated tr2 (allocated tr1 fds).
Proof.
  revert fds. induction tr1 as [| e tr1 IH]; intros fds; simpl.
  - reflexivity.
  - apply IH.
Qed.

(** The run of [Close] on an object marked open: its result, its calls,
    the object it leaves and the descriptors left allocated. *)
Lemma run_Close_open {OS : Type} (h : @handler OS) (os : OS)
    (o : SerialInterfaceLinux) (fds : list Z) :
  is_cmd_opened_ o = true ->
  let '((r, o1), tr, _) := run h (Close o) os in
  r = Normal true /\
  calls tr = Close_calls o /\
  o1 = Close_state o /\
  allocated tr fds =
    (if com_handle_ o =? -1 then fds
     else List.remove Z.eq_dec (com_handle_ o) fds).
Proof.
  destruct o as [t n fd baud opened stop cb]. cbn [is_cmd_opened_].
  intros ->.
  unfold Close, close_handle, mbind, get, modify, mret, sys, Close_calls,
    Close_state.
  cbn -[Z.eqb allocated].
  destruct (Z.eqb_spec fd (-1)) as [-> | Hne];
    (destruct t as [[i j] |]; [destruct j |]);
    cbn -[Z.eqb allocated]; answer_calls h; repeat split.
Qed.



(** X12: [Open] that returned [true], followed by [Close]: whatever the
    name and the answers of the system, [Open] has started exactly one
    thread, [Close] returns [true] and joins that very thread and no
    other, and after the two calls no descriptor that they acquired is
    left allocated; the object is closed, with handle [-1] and no
    worker. *)
Theorem Open_then_Close_releases {OS : Type} (h : @handler OS)
    (port_name : string) (baud : Z) (o o1 : SerialInterfaceLinux)
    (os os1 : OS) (tr1 : list event) :
  run h (Open port_name baud o) os = ((Normal true, o1), tr1, os1) ->
  let '((r2, o2), tr2, _) := run h (Close o1) os1 in
  r2 = Normal true /\
  allocated (tr1 ++ tr2) [] = [] /\
  (exists t, started tr1 = [t] /\
             filter is_thread_join (calls tr2) =
             [ThreadJoin {| tid := t; joinable := true |}]) /\
  com_handle_ o2 = -1 /\ rx_thread_ o2 = None /\ is_cmd_opened_ o2 = false.
Proof.
  intros Hopen.
  pose proof (Open_run_post h port_name baud o os []) as Hpost.
  rewrite Hopen in Hpost.
  destruct Hpost as (_ & _ & _ & Hmark & _ & (t & Hst & Ht) & _ & _ & Halloc).
  pose proof (run_Close_open h os1 o1 (allocated tr1 []) Hmark) as Hclose.
  destruct (run h (Close o1) os1) as [[[r2 o2] tr2] os2].
  destruct Hclose as (Hr & Hcalls & Ho & Hal).
  split; [exact Hr |]. split; [| split].
  - rewrite allocated_app, Hal, Halloc.
    destruct (Z.leb_spec 0 (com_handle_ o1)) as [Hpos | Hneg].
    + rewrite eqb_neg1_false by lia. apply remove_head. intros [].
    + destruct (com_handle_ o1 =? -1); reflexivity.
  - exists t. split; [exact Hst |].
    rewrite Hcalls. unfold Close_calls. rewrite Ht. cbn [joinable].
    destruct (com_handle_ o1 =? -1); reflexivity.
  - subst o2. unfold Close_state. rewrite Ht. cbn. repeat split.
Qed.

Lemma Open_then_Close_releases_witness :
  let '((r2, o2), tr2, _) :=
    run (Env.answer Env.default)
        (Close (opened_with 3 1 (set_com_baudrate_ 230400 closed0))) tt in
  r2 = Normal true /\
  allocated
    ([Ev (OpenFile "/dev/ttyUSB0" open_flags) (Env.fd 3);
      Ev (Tcgetattr 3) (Env.ok, Env.zero_termios);
      Ev (Tcsetattr 3 Sys.TCSANOW (raw_8N1 Env.zero_termios)) Env.ok;
      Ev (Log (LogInfoBaudRate 0)) tt;
      Ev (Tcflush 3 Sys.TCIFLUSH) 0;
      Ev ThreadStart (Some 1%nat)] ++ tr2) [] = [] /\
  (exists t,
      started
        [Ev (OpenFile "/dev/ttyUSB0" open_flags) (Env.fd 3);
         Ev (Tcgetattr 3) (Env.ok, Env.zero_termios);
         Ev (Tcsetattr 3 Sys.TCSANOW (raw_8N1 Env.zero_termios)) Env.ok;
         Ev (Log (LogInfoBaudRate 0)) tt;
         Ev (Tcflush 3 Sys.TCIFLUSH) 0;
         Ev ThreadStart (Some 1%nat)] = [t] /\
      filter is_thread_join (calls tr2) =
      [ThreadJoin {| tid := t; joinable := true |}]) /\
  com_handle_ o2 = -1 /\ rx_thread_ o2 = None /\ is_cmd_opened_ o2 = false.
Proof.
  apply (Open_then_Close_releases (Env.answer Env.default) "/dev/ttyUSB0"
           230400 closed0 (opened_with 3 1 (set_com_baudrate_ 230400 closed0))
           tt tt).
  reflexivity.
Defined.

(** When no thread can be started, here on an object that a [Close] has
    left with the exit flag set: [Open] throws after it has cleared the
    flag; the descriptor it opened stays allocated, in the handle, and
    the object is not marked open. *)
Lemma Open_thread_failure :
  let o := Close_state (Scenario.opened None) in
  let '((r, o1), tr, _) :=
    run (Env.answer Scenario.no_thread) (Open "/dev/ttyUSB0" 230400 o) tt in
  rx_thread_exit_flag_ o = true /\
  r = Throw system_error /\
  rx_thread_exit_flag_ o1 = false /\
  is_cmd_opened_ o1 = false /\
  com_handle_ o1 = 3 /\
  started tr = [] /\
  allocated tr [] = [3].
Proof. vm_compute. repeat split. Qed.

(** ** The receiver loop as a whole *)

Lemma callback_bytes_app (tr1 tr2 : list event) :
  callback_bytes (tr1 ++ tr2) = callback_bytes tr1 + callback_bytes tr2.
Proof.
  induction tr1 as [| e tr1 IH]; simpl; [reflexivity |].
  rewrite IH. lia.
Qed.

Lemma counted_zero (o : SerialInterfaceLinux) : counted o 0 = o.
Proof. destruct o. unfold counted. cbn. rewrite Z.add_0_r. reflexivity. Qed.

Lemma unchanged_but_count_counted (o : SerialInterfaceLinux) (n : Z) :
  unchanged_but_count o (counted o n).
Proof. repeat split. Qed.

Lemma unchanged_but_count_trans (o o1 o2 : SerialInterfaceLinux) :
  unchanged_but_count o o1 -> unchanged_but_count o1 o2 ->
  unchanged_but_count o o2.
Proof.
  unfold unchanged_but_count.
  intros (A1 & A2 & A3 & A4 & A5 & A6) (B1 & B2 & B3 & B4 & B5 & B6).
  repeat split; congruence.
Qed.

Lemma read_defined_unchanged (o o1 : SerialInterfaceLinux) :
  unchanged_but_count o o1 -> read_defined o -> read_defined o1.
Proof.
  unfold read_defined, handle_in_range.
  intros (_ & Hh & _ & Ho & _) Hdef Hopen.
  rewrite Hh. apply Hdef. rewrite <- Ho. exact Hopen.
Qed.

(** The count [ReadFromIO] leaves in a local that started at zero is a
    [uint32_t] value; no callback is made on the way. *)
Lemma ReadFromIO_returns_count {OS : Type} (h : @handler OS)
    (rx_buf : list byte) (rx_buf_len : Z) (o : SerialInterfaceLinux) (os : OS) :
  read_defined o ->
  exists res buf' n tr os1,
    run h (ReadFromIO rx_buf rx_buf_len (Some 0) o) os =
    ((Normal (res, buf', Some n), o), tr, os1) /\
    callback_bytes tr = 0 /\
    0 <= n < 2 ^ 32.
Proof.
  intros Hdef.
  assert (Hz : 0 <= 0 < 2 ^ 32) by (split; [lia | reflexivity]).
  destruct (is_cmd_opened_ o) eqn:Hopen.
  - specialize (Hdef Hopen).
    destruct (ReadFromIO_open rx_buf rx_buf_len (Some 0) o Hopen Hdef)
      as (k & -> & Hk).
    rewrite run_Vis. destruct (h (wait_call o) os) as [p os1]. rewrite Hk.
    assert (Hrd : exists res buf' n tr os2,
               run h (read_if_set (com_handle_ o) (ps_readfds p) (-1)
                        rx_buf rx_buf_len (Some 0) o) os1 =
               ((Normal (res, buf', Some n), o), tr, os2) /\
               callback_bytes tr = 0 /\ 0 <= n < 2 ^ 32).
    { unfold read_if_set, FD_ISSET. rewrite (fd_in_range_true _ Hdef).
      destruct (existsb (Z.eqb (com_handle_ o)) (ps_readfds p)).
      - rewrite mbind_sys, run_Vis.
        destruct (h (ReadFd (com_handle_ o) rx_buf_len) os1) as [[n data] os2].
        cbn -[Z.pow].
        destruct (negb (Int.to_int32 n =? -1)); cbn -[Z.pow].
        + do 5 eexists. split; [reflexivity |]. split; [reflexivity |].
          unfold Int.to_uint32. apply Z.mod_pos_bound. reflexivity.
        + do 5 eexists. split; [reflexivity |]. split; [reflexivity | exact Hz].
      - cbn -[Z.pow]. do 5 eexists. split; [reflexivity |].
        split; [reflexivity | exact Hz]. }
    destruct (ps_ret p <? 0); [destruct (ps_errno p =? Sys.EINTR) |
                               destruct (ps_ret p =? 0)]; cbn -[Z.pow];
      try (do 5 eexists; split; [reflexivity |];
           split; [reflexivity | exact Hz]);
      destruct Hrd as (res & buf' & n & tr & os2 & -> & Hcb & Hn);
      do 5 eexists; (split; [reflexivity |]); (split; [exact Hcb | exact Hn]).
  - rewrite ReadFromIO_closed by exact Hopen. cbn -[Z.pow].
    do 5 eexists. split; [reflexivity |]. split; [reflexivity | exact Hz].
Qed.

(** One pass: the counter grows by some [n >= 0], nothing else in the
    object changes, and the callback, if there is one, is handed [n]
    bytes.  The pass returns, or ends on the exception of the callback
    that was its last call. *)
Lemma RxThreadProc_body_accounting {OS : Type} (h : @handler OS)
    (rx_buf : list byte) (o : SerialInterfaceLinux) (os : OS) :
  read_defined o ->
  exists r n tr os1,
    run h (RxThreadProc_body rx_buf o) os = ((r, counted o n), tr, os1) /\
    0 <= n /\
    callback_bytes tr =
      match read_callback_ o with Some _ => n | None => 0 end /\
    ((exists b, r = Normal b) \/
     (exists e f b pre,
         r = Throw e /\ read_callback_ o = Some f /\
         tr = pre ++ [Ev (Callback f b n) (Some e)])).
Proof.
  intros Hdef.
  destruct (ReadFromIO_returns_count h rx_buf MAX_ACK_BUF_LEN o os Hdef)
    as (res & buf' & n & tr & os1 & Hread & Hcb & Hn).
  assert (Hidle : res = false \/ n = 0 ->
            exists r n0 tr0 os0,
              run h (RxThreadProc_body rx_buf o) os =
              ((r, counted o n0), tr0, os0) /\
              0 <= n0 /\
              callback_bytes tr0 =
                match read_callback_ o with Some _ => n0 | None => 0 end /\
              ((exists b, r = Normal b) \/
               (exists e f b pre,
                   r = Throw e /\ read_callback_ o = Some f /\
                   tr0 = pre ++ [Ev (Callback f b n0) (Some e)]))).
  { intros Hcase.
    exists (Normal buf'), 0, tr, os1.
    rewrite (run_body_idle h _ _ _ _ _ _ _ _ Hread Hcase), counted_zero.
    split; [reflexivity |]. split; [lia |].
    split; [rewrite Hcb; destruct (read_callback_ o); reflexivity |].
    left. eexists. reflexivity. }
  destruct (Z.eqb_spec n 0) as [-> | Hne]; [auto |].
  destruct res; [| auto].
  rewrite (run_body_delivery h _ _ _ _ _ _ _ _ Hread eq_refl Hne).
  destruct (read_callback_ o) as [f |].
  - destruct (h (Callback f buf' n) os1) as [[e |] os2]; cbn [fst snd].
    + do 4 eexists. split; [reflexivity |]. split; [lia |].
      split; [rewrite callback_bytes_app, Hcb; cbn; lia |].
      right. exists e, f, buf', tr. repeat split.
    + do 4 eexists. split; [reflexivity |]. split; [lia |].
      split; [rewrite callback_bytes_app, Hcb; cbn; lia |].
      left. eexists. reflexivity.
  - do 4 eexists. split; [reflexivity |]. split; [lia |].
    split; [exact Hcb |]. left. eexists. reflexivity.
Qed.

(** X13: on an object where the read is defined, over any number of passes
    and whatever the system answers, the receiver loop changes nothing in
    the object but the byte counter, which never decreases.  With a
    callback registered, the counts handed to the callback add up to
    exactly the growth of the counter, also when the loop is left by an
    exception; with none registered no byte goes to a callback.  The loop
    ends in a return or in the exception that the callback threw in its
    last call, never otherwise.  With the exit flag set on entry it
    leaves at once, without a call and without touching buffer or
    object. *)
Theorem RxThreadProc_accounting {OS : Type} (h : @handler OS) (fuel : nat)
    (rx_buf : list byte) (o : SerialInterfaceLinux) (os : OS) :
  (is_cmd_opened_ o = true -> 0 <= com_handle_ o < Sys.FD_SETSIZE) ->
  let '((r, o1), tr, _) := run h (RxThreadProc fuel rx_buf o) os in
  unchanged_but_count o o1 /\
  rx_count_ o <= rx_count_ o1 /\
  callback_bytes tr =
    match read_callback_ o with
    | Some _ => rx_count_ o1 - rx_count_ o
    | None => 0
    end /\
  ((exists b, r = Normal b) \/
   (exists e f b n pre,
       r = Throw e /\ read_callback_ o = Some f /\
       tr = pre ++ [Ev (Callback f b n) (Some e)])) /\
  (rx_thread_exit_flag_ o = true ->
   r = Normal (Some rx_buf) /\ tr = [] /\ o1 = o).
Proof.
  revert rx_buf o os. induction fuel as [| fuel IH]; intros rx_buf o os Hdef.
  - cbn [RxThreadProc]. rewrite mbind_get.
    destruct (rx_thread_exit_flag_ o) eqn:Hflag; cbn;
      (split; [repeat split |]); (split; [lia |]);
      (split; [rewrite Z.sub_diag; destruct (read_callback_ o); reflexivity |]);
      (split; [left; eexists; reflexivity |]);
      intros H; try discriminate H; repeat split.
  - destruct (rx_thread_exit_flag_ o) eqn:Hflag.
    + cbn [RxThreadProc]. rewrite mbind_get, Hflag. cbn.
      split; [repeat split |]. split; [lia |].
      split; [rewrite Z.sub_diag; destruct (read_callback_ o); reflexivity |].
      split; [left; eexists; reflexivity |].
      intros _. repeat split.
    + rewrite (run_RxThreadProc_step h fuel rx_buf o os Hflag).
      destruct (RxThreadProc_body_accounting h rx_buf o os Hdef)
        as (r1 & n & tr1 & os1 & -> & Hn & Hcb1 & Hend).
      pose proof (unchanged_but_count_counted o n) as Hu1.
      destruct Hend as [[b ->] | (e & f & b & pre & -> & Hf & Htr)].
      * specialize (IH b (counted o n) os1
                      (read_defined_unchanged _ _ Hu1 Hdef)).
        destruct (run h (RxThreadProc fuel b (counted o n)) os1)
          as [[[r o2] tr2] os2].
        destruct IH as (Hu2 & Hle & Hcb2 & Hend2 & _).
        cbn [rx_count_ read_callback_ counted] in Hle, Hcb2, Hend2.
        split; [exact (unchanged_but_count_trans _ _ _ Hu1 Hu2) |].
        split; [lia |].
        split; [rewrite callback_bytes_app, Hcb1, Hcb2;
                destruct (read_callback_ o); lia |].
        split; [| intros H; discriminate H].
        destruct Hend2 as [Hb | (e & f & b' & n' & pre & -> & Hf & ->)];
          [left; exact Hb |].
        right. exists e, f, b', n', (tr1 ++ pre).
        repeat split; [exact Hf | apply app_assoc].
      * split; [exact Hu1 |]. cbn [rx_count_ counted]. split; [lia |].
        split; [rewrite Hcb1, Hf; lia |].
        split; [| intros H; discriminate H].
        right. exists e, f, b, n, pre. repeat split; assumption.
Qed.

Lemma RxThreadProc_accounting_witness :
  (let '((r, o1), tr, _) :=
     run (Env.answer Scenario.data_ready)
         (RxThreadProc 3 (repeat x00 8) (Scenario.opened (Some 7%nat))) tt in
   unchanged_but_count (Scenario.opened (Some 7%nat)) o1 /\
   rx_count_ (Scenario.opened (Some 7%nat)) <= rx_count_ o1 /\
   callback_bytes tr =
     match read_callback_ (Scenario.opened (Some 7%nat)) with
     | Some _ => rx_count_ o1 - rx_count_ (Scenario.opened (Some 7%nat))
     | None => 0
     end /\
   ((exists b, r = Normal b) \/
    (exists e f b n pre,
        r = Throw e /\
        read_callback_ (Scenario.opened (Some 7%nat)) = Some f /\
        tr = pre ++ [Ev (Callback f b n) (Some e)])) /\
   (rx_thread_exit_flag_ (Scenario.opened (Some 7%nat)) = true ->
    r = Normal (Some (repeat x00 8)) /\ tr = [] /\
    o1 = Scenario.opened (Some 7%nat)))
  /\
  (let '((r, o1), tr, _) :=
     run (Env.answer Scenario.callback_throws)
         (RxThreadProc 3 (repeat x00 8) (Scenario.opened (Some 7%nat))) tt in
   unchanged_but_count (Scenario.opened (Some 7%nat)) o1 /\
   rx_count_ (Scenario.opened (Some 7%nat)) <= rx_count_ o1 /\
   callback_bytes tr =
     match read_callback_ (Scenario.opened (Some 7%nat)) with
     | Some _ => rx_count_ o1 - rx_count_ (Scenario.opened (Some 7%nat))
     | None => 0
     end /\
   ((exists b, r = Normal b) \/
    (exists e f b n pre,
        r = Throw e /\
        read_callback_ (Scenario.opened (Some 7%nat)) = Some f /\
        tr = pre ++ [Ev (Callback f b n) (Some e)])) /\
   (rx_thread_exit_flag_ (Scenario.opened (Some 7%nat)) = true ->
    r = Normal (Some (repeat x00 8)) /\ tr = [] /\
    o1 = Scenario.opened (Some 7%nat))).
Proof.
  assert (Hdef : is_cmd_opened_ (Scenario.opened (Some 7%nat)) = true ->
                 0 <= com_handle_ (Scenario.opened (Some 7%nat))
                 < Sys.FD_SETSIZE)
    by (intros _; split; [discriminate | reflexivity]).
  split.
  - exact (RxThreadProc_accounting (Env.answer Scenario.data_ready) 3
             (repeat x00 8) (Scenario.opened (Some 7%nat)) tt Hdef).
  - exact (RxThreadProc_accounting (Env.answer Scenario.callback_throws) 3
             (repeat x00 8) (Scenario.opened (Some 7%nat)) tt Hdef).
Defined.

(** The two runs of the witness: three passes count nine bytes and hand
    nine to the callback; with a callback that throws, the first pass
    counts three bytes, hands them over and is the last. *)
Lemma RxThreadProc_accounting_runs :
  (let '((r, o1), tr, _) :=
     run (Env.answer Scenario.data_ready)
         (RxThreadProc 3 (repeat x00 8) (Scenario.opened (Some 7%nat))) tt in
   r = Normal None /\ rx_count_ o1 = 9 /\ callback_bytes tr = 9) /\
  (let '((r, o1), tr, _) :=
     run (Env.answer Scenario.callback_throws)
         (RxThreadProc 3 (repeat x00 8) (Scenario.opened (Some 7%nat))) tt in
   r = Throw (callback_error 1) /\ rx_count_ o1 = 3 /\ callback_bytes tr = 3).
Proof. vm_compute. repeat split. Qed.

(** ** What [ReadFromIO] never does *)

(** The shapes a run of [ReadFromIO] can take. *)
Lemma ReadFromIO_shape {OS : Type} (h : @handler OS) (rx_buf : list byte)
    (rx_buf_len : Z) (rx_len : out_param) (o : SerialInterfaceLinux) (os : OS) :
  let '((r, o1), tr, _) := run h (ReadFromIO rx_buf rx_buf_len rx_len o) os in
  o1 = o /\
  (r = Abort /\ tr = [] /\
   is_cmd_opened_ o = true /\ ~ 0 <= com_handle_ o < Sys.FD_SETSIZE
   \/
   exists res buf' out,
     r = Normal (res, buf', out) /\
     (is_cmd_opened_ o = true -> 0 <= com_handle_ o < Sys.FD_SETSIZE) /\
     ((calls tr = [] /\ is_cmd_opened_ o = false \/
       calls tr = [wait_call o] /\ is_cmd_opened_ o = true) /\
      res = false /\ buf' = rx_buf /\ out = rx_len
      \/
      calls tr = [wait_call o; ReadFd (com_handle_ o) rx_buf_len] /\
      is_cmd_opened_ o = true)).
Proof.
  destruct (is_cmd_opened_ o) eqn:Hopen.
  - destruct (fd_in_range (com_handle_ o)) eqn:Hr.
    + assert (Hrange : handle_in_range o).
      { unfold handle_in_range. unfold fd_in_range in Hr.
        apply andb_true_iff in Hr. destruct Hr as [H1 H2].
        apply Z.leb_le in H1. apply Z.ltb_lt in H2. split; assumption. }
      destruct (ReadFromIO_open rx_buf rx_buf_len rx_len o Hopen Hrange)
        as (k & -> & Hk).
      rewrite run_Vis. destruct (h (wait_call o) os) as [p os1]. rewrite Hk.
      assert (Hrd :
        let '((r, o1), tr, _) :=
          run h (read_if_set (com_handle_ o) (ps_readfds p) (-1)
                   rx_buf rx_buf_len rx_len o) os1 in
        o1 = o /\
        exists res buf' out,
          r = Normal (res, buf', out) /\
          (tr = [] /\ res = false /\ buf' = rx_buf /\ out = rx_len \/
           calls tr = [ReadFd (com_handle_ o) rx_buf_len])).
      { unfold read_if_set, FD_ISSET. rewrite Hr.
        destruct (existsb (Z.eqb (com_handle_ o)) (ps_readfds p)).
        - rewrite mbind_sys, run_Vis.
          destruct (h (ReadFd (com_handle_ o) rx_buf_len) os1)
            as [[n data] os2].
          cbn. split; [reflexivity |]. do 3 eexists.
          split; [reflexivity |]. right. reflexivity.
        - cbn. split; [reflexivity |]. do 3 eexists.
          split; [reflexivity |]. left. repeat split. }
      destruct (ps_ret p <? 0); [destruct (ps_errno p =? Sys.EINTR) |
                                 destruct (ps_ret p =? 0)]; cbn;
        try (split; [reflexivity |]; right; do 3 eexists;
             split; [reflexivity |]; split; [intros _; exact Hrange |];
             left; split; [right; split; reflexivity | repeat split]);
        destruct (run h _ os1) as [[[r o1] tr] os2];
        destruct Hrd as (-> & res & buf' & out & -> & Hcase);
        (split; [reflexivity |]); right; exists res, buf', out;
        (split; [reflexivity |]); (split; [intros _; exact Hrange |]);
        (destruct Hcase as [(-> & -> & -> & ->) | Hcalls];
         [left; split; [right; split; reflexivity | repeat split]
         | right; cbn; unfold calls in Hcalls; rewrite Hcalls;
           split; reflexivity]).
    + assert (Hout : ~ handle_in_range o).
      { unfold handle_in_range. intros Hin.
        rewrite (fd_in_range_true _ Hin) in Hr. discriminate Hr. }
      rewrite (ReadFromIO_out_of_range rx_buf rx_buf_len rx_len o Hopen Hout).
      cbn. split; [reflexivity |]. left. repeat split. exact Hout.
  - rewrite ReadFromIO_closed by exact Hopen. cbn.
    split; [reflexivity |]. right. do 3 eexists. split; [reflexivity |].
    split; [intros H; discriminate H |].
    left. split; [left; split; reflexivity | repeat split].
Qed.

(** X14: whatever the system answers, [ReadFromIO] never throws and never
    changes the object.  On an open object whose handle does not index a
    descriptor set it ends in [FD_SET] without any call.  Otherwise it
    returns, having made no call at all, or the one wait, or the one wait
    followed by one read on the handle for the length given: never a
    second read, never any other call.  Unless it has made the read it
    returns [false] and leaves the buffer and the out-parameter as they
    were. *)
Theorem ReadFromIO_frame {OS : Type} (h : @handler OS) (rx_buf : list byte)
    (rx_buf_len : Z) (rx_len : out_param) (o : SerialInterfaceLinux) (os : OS) :
  let '((r, o1), tr, _) := run h (ReadFromIO rx_buf rx_buf_len rx_len o) os in
  o1 = o /\
  (r = Abort /\ tr = [] /\
   is_cmd_opened_ o = true /\ ~ 0 <= com_handle_ o < Sys.FD_SETSIZE
   \/
   exists res buf' out,
     r = Normal (res, buf', out) /\
     (is_cmd_opened_ o = true -> 0 <= com_handle_ o < Sys.FD_SETSIZE) /\
     ((calls tr = [] /\ is_cmd_opened_ o = false \/
       calls tr = [wait_call o] /\ is_cmd_opened_ o = true) /\
      res = false /\ buf' = rx_buf /\ out = rx_len
      \/
      calls tr = [wait_call o; ReadFd (com_handle_ o) rx_buf_len] /\
      is_cmd_opened_ o = true)).
Proof. exact (ReadFromIO_shape h rx_buf rx_buf_len rx_len o os). Qed.

(** ** The port number *)

(** X15: the port [Open] hands to [connect] is the number of the
    descriptor reduced modulo 65536, as two bytes, high byte first: a
    port text such as "70000" or "-1" is not refused but wraps around,
    and two numbers that differ by a multiple of 65536 give the same
    port. *)
Theorem port_reduced_to_16_bits (p k : Z) :
  let '(hi, lo) := htons (Int.to_uint16 p) in
  (0 <= hi < 256 /\ 0 <= lo < 256) /\
  256 * hi + lo = p mod 65536 /\
  htons (Int.to_uint16 (p + 65536 * k)) = (hi, lo).
Proof.
  unfold htons, Int.to_uint16. change (2 ^ 16) with 65536.
  pose proof (Z.mod_pos_bound p 65536 eq_refl) as Hb.
  rewrite (Z.shiftr_div_pow2 _ 8) by lia.
  change (2 ^ 8) with 256.
  change 255 with (Z.ones 8). rewrite (Z.land_ones _ 8) by lia.
  change (2 ^ 8) with 256.
  assert (Hk : (p + 65536 * k) mod 65536 = p mod 65536).
  { rewrite Z.mul_comm. apply Z.mod_add. discriminate. }
  split; [split |].
  - split; [apply Z.div_pos; lia | apply Z.div_lt_upper_bound; lia].
  - apply Z.mod_pos_bound. reflexivity.
  - split.
    + symmetry. apply Z.div_mod. discriminate.
    + rewrite Hk, (Z.shiftr_div_pow2 _ 8) by lia.
      change (2 ^ 8) with 256.
      change 255 with (Z.ones 8). rewrite (Z.land_ones _ 8) by lia.
      reflexivity.
Qed.

(** ** Construction and destruction *)

(** X16: destroying an object that was constructed and never opened makes
    no system call, whatever values the two flags that the constructor
    leaves unset happen to hold: the handle is [-1] and there is no
    worker, so there is nothing to close or to join.  The destructor
    leaves the object marked closed. *)
Theorem delete_new_makes_no_call (opened exit_flag : bool) :
  exists o',
    delete_SerialInterfaceLinux (new_SerialInterfaceLinux opened exit_flag) =
    Ret (Normal true, o') /\
    com_handle_ o' = -1 /\ rx_thread_ o' = None /\
    is_cmd_opened_ o' = false /\ rx_count_ o' = 0.
Proof.
  destruct opened; eexists; (split; [reflexivity |]); repeat split.
Qed.

(** ** Opening an object that is already open *)

Lemma calls_app (tr1 tr2 : list event) :
  calls (tr1 ++ tr2) = calls tr1 ++ calls tr2.
Proof. apply map_app. Qed.

(** X17: [Open] does not look at whether the object is already open.  When
    a second [Open] succeeds on an object that a first one has opened,
    each of the two has started one thread, the first descriptor is
    neither closed nor remembered, and the [Close] that follows, which
    returns [true], joins the thread of the second [Open] and no other:
    the thread of the first is never joined and the first descriptor is
    still allocated. *)
Theorem Open_twice_leaks_first {OS : Type} (h : @handler OS)
    (name1 name2 : string) (baud1 baud2 : Z)
    (o o1 o2 : SerialInterfaceLinux) (os os1 os2 : OS)
    (tr1 tr2 : list event) :
  run h (Open name1 baud1 o) os = ((Normal true, o1), tr1, os1) ->
  run h (Open name2 baud2 o1) os1 = ((Normal true, o2), tr2, os2) ->
  0 <= com_handle_ o1 ->
  com_handle_ o2 <> com_handle_ o1 ->
  let '((r3, o3), tr3, _) := run h (Close o2) os2 in
  r3 = Normal true /\
  is_cmd_opened_ o3 = false /\
  allocated (tr1 ++ tr2 ++ tr3) [] = [com_handle_ o1] /\
  exists t1 t2,
    started tr1 = [t1] /\
    started tr2 = [t2] /\
    filter is_thread_join (calls (tr1 ++ tr2 ++ tr3)) =
    [ThreadJoin {| tid := t2; joinable := true |}].
Proof.
  intros Hopen1 Hopen2 Hfd1 Hdiff.
  pose proof (Open_run_post h name1 baud1 o os []) as P1.
  rewrite Hopen1 in P1.
  destruct P1 as (_ & _ & Hj1 & _ & _ & (t1 & Hst1 & _) & _ & _ & Ha1).
  pose proof (Open_run_post h name2 baud2 o1 os1 (allocated tr1 [])) as P2.
  rewrite Hopen2 in P2.
  destruct P2 as (_ & _ & Hj2 & Hmark & _ & (t2 & Hst2 & Ht2) & _ & _ & Ha2).
  pose proof (run_Close_open h os2 o2 (allocated tr2 (allocated tr1 []))
                Hmark) as Hclose.
  destruct (run h (Close o2) os2) as [[[r3 o3] tr3] os3].
  destruct Hclose as (Hr & Hcalls & Ho & Hal).
  split; [exact Hr |]. split; [subst o3; reflexivity |].
  split.
  - rewrite !allocated_app, Hal, Ha2, Ha1.
    apply Z.leb_le in Hfd1. rewrite Hfd1.
    destruct (Z.eqb_spec (com_handle_ o2) (-1)) as [E | E].
    + rewrite E. reflexivity.
    + destruct (0 <=? com_handle_ o2).
      * cbn. destruct (Z.eq_dec (com_handle_ o2) (com_handle_ o2)) as [_ | N];
          [| contradiction].
        destruct (Z.eq_dec (com_handle_ o2) (com_handle_ o1)) as [Y | _];
          [contradiction | reflexivity].
      * cbn. destruct (Z.eq_dec (com_handle_ o2) (com_handle_ o1)) as [Y | _];
          [contradiction | reflexivity].
  - exists t1, t2. split; [exact Hst1 |]. split; [exact Hst2 |].
    rewrite !calls_app, !filter_app, Hj1, Hj2, Hcalls.
    unfold Close_calls. rewrite Ht2. cbn [joinable].
    destruct (com_handle_ o2 =? -1); reflexivity.
Qed.

Lemma Open_twice_leaks_first_witness :
  let h := Fresh.answer Env.default in
  let o1 := opened_with 3 4 (set_com_baudrate_ 230400 closed0) in
  let o2 := opened_with 5 6 o1 in
  let tr1 := snd (fst (run h (Open "/dev/ttyUSB0" 230400 closed0) 3)) in
  let tr2 := snd (fst (run h (Open "tcp://10.0.0.7:23" 0 o1) 5)) in
  let '((r3, o3), tr3, _) := run h (Close o2) 7 in
  r3 = Normal true /\
  is_cmd_opened_ o3 = false /\
  allocated (tr1 ++ tr2 ++ tr3) [] = [3] /\
  exists t1 t2,
    started tr1 = [t1] /\
    started tr2 = [t2] /\
    filter is_thread_join (calls (tr1 ++ tr2 ++ tr3)) =
    [ThreadJoin {| tid := t2; joinable := true |}].
Proof.
  intros h o1 o2 tr1 tr2.
  apply (Open_twice_leaks_first h "/dev/ttyUSB0" "tcp://10.0.0.7:23"
           230400 0 closed0 o1 o2 3 5 7 tr1 tr2).
  - reflexivity.
  - reflexivity.
  - simpl. lia.
  - discriminate.
Defined.

(** In that run the first [Open] has started thread 4 and the second
    thread 6; [Close] joins thread 6. *)
Lemma Open_twice_threads :
  let h := Fresh.answer Env.default in
  let o1 := opened_with 3 4 (set_com_baudrate_ 230400 closed0) in
  started (snd (fst (run h (Open "/dev/ttyUSB0" 230400 closed0) 3))) =
    [4%nat] /\
  started (snd (fst (run h (Open "tcp://10.0.0.7:23" 0 o1) 5))) = [6%nat] /\
  calls (snd (fst (run h (Close (opened_with 5 6 o1)) 7))) =
    [CloseFd 5; ThreadJoin {| tid := 6; joinable := true |}].
Proof. vm_compute. repeat split. Qed.

(** ** Waiting in the receiver loop *)

(** One pass waits once on an object marked open, and makes no call at
    all on one that is not. *)
Lemma RxThreadProc_body_waits {OS : Type} (h : @handler OS)
    (rx_buf : list byte) (o : SerialInterfaceLinux) (os : OS) :
  read_defined o ->
  let '(_, tr, _) := run h (RxThreadProc_body rx_buf o) os in
  List.length (filter is_wait (calls tr)) =
    (if is_cmd_opened_ o then 1%nat else 0%nat) /\
  (is_cmd_opened_ o = false -> tr = []).
Proof.
  intros Hdef.
  destruct (ReadFromIO_returns_count h rx_buf MAX_ACK_BUF_LEN o os Hdef)
    as (res & buf' & n & tr & os1 & Hread & _ & _).
  pose proof (ReadFromIO_shape h rx_buf MAX_ACK_BUF_LEN (Some 0) o os) as Hs.
  rewrite Hread in Hs.
  destruct Hs as (_ & [(Hab & _) | (res' & buf'' & out' & Heq & _ & Hcase)]);
    [discriminate Hab |].
  injection Heq as <- <- <-.
  assert (Hidle : res = false \/ n = 0 ->
            run h (RxThreadProc_body rx_buf o) os = ((Normal buf', o), tr, os1))
    by apply (run_body_idle h _ _ _ _ _ _ _ _ Hread).
  destruct Hcase as [[Hcalls (-> & _ & Hout)] | [Hcalls Hopen]].
  - rewrite Hidle by (left; reflexivity).
    destruct Hcalls as [[Hc Hopen] | [Hc Hopen]]; rewrite Hc, Hopen; cbn.
    + split; [reflexivity |]. intros _.
      destruct tr; [reflexivity | discriminate Hc].
    + split; [reflexivity | discriminate].
  - rewrite Hopen.
    destruct (Z.eqb_spec n 0) as [-> | Hne]; [| destruct res].
    + rewrite Hidle by (right; reflexivity). rewrite Hcalls. cbn.
      split; [reflexivity | discriminate].
    + rewrite (run_body_delivery h _ _ _ _ _ _ _ _ Hread eq_refl Hne).
      destruct (read_callback_ o);
        rewrite ?calls_app, ?filter_app, Hcalls; cbn;
        (split; [reflexivity | discriminate]).
    + rewrite Hidle by (left; reflexivity). rewrite Hcalls. cbn.
      split; [reflexivity | discriminate].
Qed.

(** X18: with the exit flag clear, on an object marked open whose handle
    indexes a descriptor set, every pass of the receiver loop goes through
    exactly one bounded wait.  A loop that makes all its passes, as it
    does whenever no callback is registered, waits as many times as it
    makes passes; a loop that an exception of the callback ends early has
    waited at least once and at most that often.  On an object that is not
    marked open a pass makes no call at all: the loop spins without
    waiting, and leaves the object untouched. *)
Theorem RxThreadProc_waits_once_per_pass {OS : Type} (h : @handler OS)
    (fuel : nat) (rx_buf : list byte) (o : SerialInterfaceLinux) (os : OS) :
  (is_cmd_opened_ o = true -> 0 <= com_handle_ o < Sys.FD_SETSIZE) ->
  rx_thread_exit_flag_ o = false ->
  let '((r, o1), tr, os1) := run h (RxThreadProc fuel rx_buf o) os in
  (is_cmd_opened_ o = true ->
   ((exists b, r = Normal b) \/ read_callback_ o = None ->
    List.length (filter is_wait (calls tr)) = fuel) /\
   ((exists e, r = Throw e) ->
    (1 <= List.length (filter is_wait (calls tr)) <= fuel)%nat)) /\
  (is_cmd_opened_ o = false -> tr = [] /\ o1 = o /\ os1 = os).
Proof.
  revert rx_buf o os.
  induction fuel as [| fuel IH]; intros rx_buf o os Hdef Hflag.
  - cbn [RxThreadProc]. rewrite mbind_get, Hflag. cbn.
    split; [| intros _; repeat split].
    intros _. split; [reflexivity |]. intros [e He]. discriminate He.
  - rewrite (run_RxThreadProc_step h fuel rx_buf o os Hflag).
    pose proof (RxThreadProc_body_waits h rx_buf o os Hdef) as Hw.
    destruct (RxThreadProc_body_accounting h rx_buf o os Hdef)
      as (r1 & n & tr1 & os1 & Hbody & _ & _ & Hend).
    rewrite Hbody in Hw |- *. destruct Hw as [Hw1 Hw0].
    pose proof (unchanged_but_count_counted o n) as Hu1.
    destruct Hend as [[b ->] | (e & f & b & pre & -> & Hf & Htr)].
    + specialize (IH b (counted o n) os1
                    (read_defined_unchanged _ _ Hu1 Hdef) Hflag).
      destruct (run h (RxThreadProc fuel b (counted o n)) os1)
        as [[[r o2] tr2] os2].
      cbn [is_cmd_opened_ read_callback_ counted] in IH.
      destruct IH as [IH1 IH0].
      split.
      * intros Hopen. destruct (IH1 Hopen) as [Hall Hearly].
        rewrite calls_app, filter_app, length_app, Hw1, Hopen.
        split.
        -- intros Hcase. rewrite (Hall Hcase). reflexivity.
        -- intros Hcase. specialize (Hearly Hcase). cbn. lia.
      * intros Hclosed. specialize (Hw0 Hclosed). subst tr1.
        destruct (IH0 Hclosed) as (-> & -> & ->).
        assert (Hsame : run h (RxThreadProc_body rx_buf o) os =
                        ((Normal rx_buf, o), [], os)).
        { unfold RxThreadProc_body, mbind.
          rewrite (ReadFromIO_closed _ _ _ o Hclosed). reflexivity. }
        rewrite Hbody in Hsame. injection Hsame as _ Ho Hos.
        repeat split; assumption.
    + split.
      * intros Hopen. rewrite Hw1, Hopen. split.
        -- intros [[b' Hb] | Hnone]; [discriminate Hb |].
           rewrite Hnone in Hf. discriminate Hf.
        -- intros _. cbn. lia.
      * intros Hclosed. specialize (Hw0 Hclosed).
        rewrite Hw0 in Htr. destruct pre; discriminate Htr.
Qed.

Lemma RxThreadProc_waits_once_per_pass_witness :
  (let '((r, o1), tr, os1) :=
     run (Env.answer Scenario.data_ready)
         (RxThreadProc 3 (repeat x00 8) (Scenario.opened None)) tt in
   (is_cmd_opened_ (Scenario.opened None) = true ->
    ((exists b, r = Normal b) \/ read_callback_ (Scenario.opened None) = None ->
     List.length (filter is_wait (calls tr)) = 3%nat) /\
    ((exists e, r = Throw e) ->
     (1 <= List.length (filter is_wait (calls tr)) <= 3)%nat)) /\
   (is_cmd_opened_ (Scenario.opened None) = false ->
    tr = [] /\ o1 = Scenario.opened None /\ os1 = tt))
  /\
  (let '((r, o1), tr, os1) :=
     run (Env.answer Scenario.callback_throws)
         (RxThreadProc 3 (repeat x00 8) (Scenario.opened (Some 7%nat))) tt in
   (is_cmd_opened_ (Scenario.opened (Some 7%nat)) = true ->
    ((exists b, r = Normal b) \/
     read_callback_ (Scenario.opened (Some 7%nat)) = None ->
     List.length (filter is_wait (calls tr)) = 3%nat) /\
    ((exists e, r = Throw e) ->
     (1 <= List.length (filter is_wait (calls tr)) <= 3)%nat)) /\
   (is_cmd_opened_ (Scenario.opened (Some 7%nat)) = false ->
    tr = [] /\ o1 = Scenario.opened (Some 7%nat) /\ os1 = tt))
  /\
  (let '((r, o1), tr, os1) :=
     run (Env.answer Scenario.data_ready)
         (RxThreadProc 3 (repeat x00 8) closed0) tt in
   (is_cmd_opened_ closed0 = true ->
    ((exists b, r = Normal b) \/ read_callback_ closed0 = None ->
     List.length (filter is_wait (calls tr)) = 3%nat) /\
    ((exists e, r = Throw e) ->
     (1 <= List.length (filter is_wait (calls tr)) <= 3)%nat)) /\
   (is_cmd_opened_ closed0 = false ->
    tr = [] /\ o1 = closed0 /\ os1 = tt)).
Proof.
  split; [| split].
  - apply (RxThreadProc_waits_once_per_pass (Env.answer Scenario.data_ready)
             3 (repeat x00 8) (Scenario.opened None) tt).
    + intros _. split; [discriminate | reflexivity].
    + reflexivity.
  - apply (RxThreadProc_waits_once_per_pass
             (Env.answer Scenario.callback_throws)
             3 (repeat x00 8) (Scenario.opened (Some 7%nat)) tt).
    + intros _. split; [discriminate | reflexivity].
    + reflexivity.
  - apply (RxThreadProc_waits_once_per_pass (Env.answer Scenario.data_ready)
             3 (repeat x00 8) closed0 tt).
    + intros H. discriminate H.
    + reflexivity.
Defined.

(** The three runs of the witness: three waits in three passes; one wait
    when the callback throws in the first pass; none on a closed
    object. *)
Lemma RxThreadProc_waits_runs :
  (let '((r, _), tr, _) :=
     run (Env.answer Scenario.data_ready)
         (RxThreadProc 3 (repeat x00 8) (Scenario.opened None)) tt in
   r = Normal None /\ List.length (filter is_wait (calls tr)) = 3%nat) /\
  (let '((r, _), tr, _) :=
     run (Env.answer Scenario.callback_throws)
         (RxThreadProc 3 (repeat x00 8) (Scenario.opened (Some 7%nat))) tt in
   r = Throw (callback_error 1) /\
   List.length (filter is_wait (calls tr)) = 1%nat) /\
  (let '((r, _), tr, _) :=
     run (Env.answer Scenario.data_ready)
         (RxThreadProc 3 (repeat x00 8) closed0) tt in
   r = Normal None /\ tr = []).
Proof. vm_compute. repeat split. Qed.
